(** * sneakers_db_build: a shallow embedding of the loading pipeline

    The development follows [src/sneakers_db_build.py]: the cache key of
    [Api.cache_path], the pagination driver ([Database.load_sneakers],
    [load_sneakers_safely], [load_sneakers_page]) and the record normaliser
    ([insert_sneaker], [get_basically_sanitized_sneaker_data],
    [fix_date_and_year_in_sneaker_data]).

    Modelling choices.
    - A Python [str] is a [string]; the alphabet is ASCII, so [upper] acts on
      the letters a-z and white space is the ASCII white space of [str.strip]
      (code points 9-13, 28-31 and 32).
    - A Python [int] is a [Z].  JSON numbers are integers; booleans and
      numbers with a fraction are outside the model.
    - A [dict] is an association list in insertion order with distinct keys.
    - Exceptions are values of [exn]; a computation that may raise returns a
      [result]; code that logs or touches the SQLite connection runs in the
      state-and-exception monad [M] over a [world].
    - [math.ceil (count / page_limit)] is the exact ceiling of the quotient;
      the float of the source agrees with it as long as the quotient is far
      below 2^53, which holds for the size of a catalogue. *)

From Stdlib Require Import ZArith List String Ascii Bool Lia Permutation.
From Stdlib Require Import Numbers.DecimalString.
Import ListNotations.

#[local] Set Warnings "-register-all".

Open Scope string_scope.
Open Scope Z_scope.

(** ** Python strings *)

Module PyStr.

Definition code (c : ascii) : Z := Z.of_N (N_of_ascii c).

(** [str.isspace] on one ASCII character. *)
Definition is_space (c : ascii) : bool :=
  ((9 <=? code c) && (code c <=? 13)) || ((28 <=? code c) && (code c <=? 32)).

(** [\d] of the [re] module on one ASCII character. *)
Definition is_digit (c : ascii) : bool :=
  (48 <=? code c) && (code c <=? 57).

Definition upper_char (c : ascii) : ascii :=
  if (97 <=? code c) && (code c <=? 122)
  then ascii_of_N (N_of_ascii c - 32)
  else c.

(** [s.upper()] *)
Fixpoint upper (s : string) : string :=
  match s with
  | EmptyString => EmptyString
  | String c s' => String (upper_char c) (upper s')
  end.

(** [s.lstrip(chars)], with the character set given as a predicate. *)
Fixpoint lstrip_with (p : ascii -> bool) (s : string) : string :=
  match s with
  | EmptyString => EmptyString
  | String c s' => if p c then lstrip_with p s' else s
  end.

(** [s.rstrip(chars)], with the character set given as a predicate. *)
Fixpoint rstrip_with (p : ascii -> bool) (s : string) : string :=
  match s with
  | EmptyString => EmptyString
  | String c s' =>
      match rstrip_with p s' with
      | EmptyString => if p c then EmptyString else String c EmptyString
      | r => String c r
      end
  end.

Fixpoint mem_char (c : ascii) (chars : string) : bool :=
  match chars with
  | EmptyString => false
  | String d chars' => Ascii.eqb c d || mem_char c chars'
  end.

(** [s.rstrip(chars)] *)
Definition rstrip (chars s : string) : string :=
  rstrip_with (fun c => mem_char c chars) s.

(** [s.strip()] *)
Definition strip (s : string) : string :=
  rstrip_with is_space (lstrip_with is_space s).

(** [s.startswith(p)] *)
Definition startswith (s p : string) : bool := String.prefix p s.

(** [s.endswith(suf)] *)
Fixpoint endswith (s suf : string) : bool :=
  String.eqb s suf ||
  match s with
  | EmptyString => false
  | String _ s' => endswith s' suf
  end.

(** [s[n:]] *)
Fixpoint slice_from (n : nat) (s : string) : string :=
  match n, s with
  | O, _ => s
  | S _, EmptyString => EmptyString
  | S n', String _ s' => slice_from n' s'
  end.

(** [s.split(sep)] for a separator of one character. *)
Fixpoint split (sep : ascii) (s : string) : list string :=
  match s with
  | EmptyString => [EmptyString]
  | String c s' =>
      if Ascii.eqb c sep then EmptyString :: split sep s'
      else match split sep s' with
           | [] => [String c EmptyString]
           | w :: ws => String c w :: ws
           end
  end.

(** [int(s)] on a non-empty run of decimal digits; [None] stands for the
    [ValueError] of every other text.  The one call of the program passes
    the four digits that the date pattern has checked. *)
Fixpoint int_digits (acc : Z) (s : string) : option Z :=
  match s with
  | EmptyString => Some acc
  | String c s' =>
      if is_digit c then int_digits (10 * acc + (code c - 48)) s' else None
  end.

Definition int (s : string) : option Z :=
  match s with
  | EmptyString => None
  | _ => int_digits 0 s
  end.

(** [str(n)] for an integer. *)
Definition of_Z (z : Z) : string := NilZero.string_of_int (Z.to_int z).

(** [str(n)] for a natural number, as [enumerate] and [range] yield them. *)
Definition of_nat (n : nat) : string := of_Z (Z.of_nat n).

(** [''.join(l)] *)
Definition join (l : list string) : string := String.concat "" l.

Definition nl : ascii := ascii_of_nat 10.

(** [re.match(r"^\d\d\d\d-\d\d-\d\d$", s)]: ten characters, then the end of
    the text or one final newline. *)
Definition match_date (s : string) : bool :=
  match s with
  | String y1 (String y2 (String y3 (String y4 (String h1
      (String m1 (String m2 (String h2 (String d1 (String d2 tl))))))))) =>
      is_digit y1 && is_digit y2 && is_digit y3 && is_digit y4 &&
      Ascii.eqb h1 "-" &&
      is_digit m1 && is_digit m2 &&
      Ascii.eqb h2 "-" &&
      is_digit d1 && is_digit d2 &&
      (String.eqb tl EmptyString || String.eqb tl (String nl EmptyString))
  | _ => false
  end.

End PyStr.

(** ** Python dictionaries: association lists in insertion order *)

Module Dict.
Section Ops.
Context {V : Type}.

(** [d.get(k)] *)
Fixpoint get (k : string) (d : list (string * V)) : option V :=
  match d with
  | [] => None
  | (k', v) :: d' => if String.eqb k' k then Some v else get k d'
  end.

(** the dictionary left by [d.pop(k)] or [d.pop(k, default)] *)
Fixpoint remove (k : string) (d : list (string * V)) : list (string * V) :=
  match d with
  | [] => []
  | (k', v) :: d' => if String.eqb k' k then d' else (k', v) :: remove k d'
  end.

(** [d[k] = v]: an existing key keeps its place, a new one goes last. *)
Fixpoint set (k : string) (v : V) (d : list (string * V)) : list (string * V) :=
  match d with
  | [] => [(k, v)]
  | (k', v') :: d' =>
      if String.eqb k' k then (k', v) :: d' else (k', v') :: set k v d'
  end.

(** [d.keys()] *)
Definition keys (d : list (string * V)) : list string := map fst d.

(** [d.update(e)] *)
Definition update (d e : list (string * V)) : list (string * V) :=
  fold_left (fun acc kv => set (fst kv) (snd kv) acc) e d.
End Ops.
End Dict.

(** [k in l] for a list of strings *)
Definition str_in (k : string) (l : list string) : bool :=
  existsb (String.eqb k) l.

(** [set(l1) == set(l2)] *)
Definition same_set (l1 l2 : list string) : bool :=
  forallb (fun k => str_in k l2) l1 && forallb (fun k => str_in k l1) l2.

(** ** JSON documents, as [json.loads] and [resp.json()] return them *)

Inductive json : Type :=
| JNull
| JInt (z : Z)
| JStr (s : string)
| JArr (l : list json)
| JObj (o : list (string * json)).

(** [type(v).__name__] *)
Definition type_name (v : json) : string :=
  match v with
  | JNull => "NoneType"
  | JInt _ => "int"
  | JStr _ => "str"
  | JArr _ => "list"
  | JObj _ => "dict"
  end.

(** [bool(v)] *)
Definition truthy (v : json) : bool :=
  match v with
  | JNull => false
  | JInt z => negb (z =? 0)
  | JStr s => negb (String.eqb s "")
  | JArr l => match l with [] => false | _ => true end
  | JObj o => match o with [] => false | _ => true end
  end.

(** A value of the sanitized [data] dictionary: an integer or a string. *)
Inductive value : Type :=
| VInt (z : Z)
| VStr (s : string).

(** ** Exceptions *)

(** [RaisedStr obj] is the [TypeError] that Python 3 raises when a [raise]
    statement is given the string [obj] instead of an exception. *)
Inductive exn : Type :=
| AssertionError
| RaisedStr (obj : string)
| TypeError (msg : string)
| AttributeError (msg : string)
| KeyError (key : string)
| ValueError (msg : string)
| ZeroDivisionError
| OverflowError (msg : string)
| IntegrityError (msg : string)
| ProgrammingError (msg : string)
| RequestException (msg : string).

(** [str(exc)] *)
Definition exn_str (e : exn) : string :=
  match e with
  | AssertionError => ""
  | RaisedStr _ => "exceptions must derive from BaseException"
  | KeyError k => "'" ++ k ++ "'"
  | ZeroDivisionError => "division by zero"
  | TypeError m | AttributeError m | ValueError m | OverflowError m
  | IntegrityError m | ProgrammingError m | RequestException m => m
  end.

Inductive result (A : Type) : Type :=
| Ok (a : A)
| Raise (e : exn).
Arguments Ok {A} a.
Arguments Raise {A} e.

Definition bindR {A B : Type} (r : result A) (k : A -> result B) : result B :=
  match r with
  | Ok a => k a
  | Raise e => Raise e
  end.

Notation "'let?' x ':=' r 'in' k" := (bindR r (fun x => k))
  (at level 10, x pattern, r at level 100, k at level 200).

(** [assert b] *)
Definition assert (b : bool) : result unit :=
  if b then Ok tt else Raise AssertionError.

Definition no_attribute (v : json) (name : string) : exn :=
  AttributeError ("'" ++ type_name v ++ "' object has no attribute '" ++ name ++ "'").

(** [v.keys()] *)
Definition py_keys (v : json) : result (list string) :=
  match v with
  | JObj o => Ok (Dict.keys o)
  | _ => Raise (no_attribute v "keys")
  end.

(** [v.strip()] *)
Definition py_strip (v : json) : result string :=
  match v with
  | JStr s => Ok (PyStr.strip s)
  | _ => Raise (no_attribute v "strip")
  end.

(** [len(v)] *)
Definition py_len (v : json) : result Z :=
  match v with
  | JStr s => Ok (Z.of_nat (String.length s))
  | JArr l => Ok (Z.of_nat (List.length l))
  | JObj o => Ok (Z.of_nat (List.length o))
  | _ => Raise (TypeError ("object of type '" ++ type_name v ++ "' has no len()"))
  end.

(** [v > 0] *)
Definition py_gt0 (v : json) : result bool :=
  match v with
  | JInt z => Ok (0 <? z)
  | _ => Raise (TypeError ("'>' not supported between instances of '"
                           ++ type_name v ++ "' and 'int'"))
  end.

(** the items that [for x in v] or [enumerate(v)] visits *)
Definition py_iter (v : json) : result (list json) :=
  match v with
  | JArr l => Ok l
  | JStr s => Ok (map (fun c => JStr (String c "")) (list_ascii_of_string s))
  | JObj o => Ok (map (fun kv => JStr (fst kv)) o)
  | _ => Raise (TypeError ("'" ++ type_name v ++ "' object is not iterable"))
  end.

Definition or_null (v : option json) : json :=
  match v with
  | Some j => j
  | None => JNull
  end.

(** [d.get(k)] *)
Definition py_get (d : json) (k : string) : result json :=
  match d with
  | JObj o => Ok (or_null (Dict.get k o))
  | _ => Raise (no_attribute d "get")
  end.

(** [d[k]] for a string [k] *)
Definition py_getitem (d : json) (k : string) : result json :=
  match d with
  | JObj o =>
      match Dict.get k o with
      | Some v => Ok v
      | None => Raise (KeyError k)
      end
  | JArr _ => Raise (TypeError "list indices must be integers or slices, not str")
  | JStr _ => Raise (TypeError "string indices must be integers, not 'str'")
  | _ => Raise (TypeError ("'" ++ type_name d ++ "' object is not subscriptable"))
  end.

(** [d.pop(k)]: the value and the dictionary that is left *)
Definition py_pop (d : json) (k : string) : result (json * json) :=
  match d with
  | JObj o =>
      match Dict.get k o with
      | Some v => Ok (v, JObj (Dict.remove k o))
      | None => Raise (KeyError k)
      end
  | _ => Raise (no_attribute d "pop")
  end.

(** [d.items()] *)
Definition py_items (d : json) : result (list (string * json)) :=
  match d with
  | JObj o => Ok o
  | _ => Raise (no_attribute d "items")
  end.

(** [f"{v}"] for a value of [data], and for [data.get(k)] *)
Definition format_value (v : option value) : string :=
  match v with
  | None => "None"
  | Some (VInt z) => PyStr.of_Z z
  | Some (VStr s) => s
  end.

(** ** class Api *)

Module Api.

(** A [pathlib.PurePosixPath]: the anchor, if any, and the names. *)
Definition path : Type := list string.

Definition keep_name (n : string) : bool :=
  negb (String.eqb n "") && negb (String.eqb n ".").

(** [dir / name] *)
Definition truediv (dir : path) (name : string) : path :=
  let names := filter keep_name (PyStr.split "/" name) in
  if PyStr.startswith name "/" then
    (if PyStr.startswith name "//" && negb (PyStr.startswith name "///")
     then "//" else "/") :: names
  else (dir ++ names)%list.

(** [sneakers limit page] is what [self.sneakers(limit=limit, page=page)]
    returns, the document that [call] reads from the cache file or gets from
    the provider, or the exception it raises.  [functools.cache] makes a
    repeated call return the document of the first one. *)
Record t : Type := mk {
  cache_dir : path;
  sneakers : Z -> Z -> result json
}.

Fixpoint insert_key (k : string) (l : list string) : list string :=
  match l with
  | [] => [k]
  | h :: tl => if String.leb k h then k :: l else h :: insert_key k tl
  end.

(** [sorted(keys)] *)
Definition sorted (keys : list string) : list string :=
  fold_right insert_key [] keys.

(** the list [fname] when the loop of [cache_path] ends *)
Definition fname (endpoint : string) (querystring : list (string * value))
  : list string :=
  endpoint ::
  map (fun key => "_" ++ key ++ "_" ++ format_value (Dict.get key querystring))
      (sorted (Dict.keys querystring)).

Definition cache_path (self : t) (endpoint : string)
    (querystring : list (string * value)) : path :=
  truediv (cache_dir self) (PyStr.join (fname endpoint querystring) ++ ".json").

End Api.

(** ** The SQLite connection, the log and the monad of the loader *)

Inductive level : Type := INFO | ERROR.

Inductive sqlval : Type :=
| SqlNull
| SqlInt (z : Z)
| SqlText (s : string).

(** A row of [sneakers]: the dictionary [data] bound to the INSERT. *)
Definition row : Type := list (string * value).

Record tables : Type := mkTables {
  sneakers : list row;
  images_360 : list (sqlval * nat * sqlval)
}.

(** [live] is what the connection sees, with the rows of the open
    transaction; [durable] is what the last [commit] has made permanent;
    [log] holds the records of [logging] in the order they were emitted;
    [calls] holds the [(limit, page)] of every call of [self.api.sneakers]. *)
Record world : Type := mkWorld {
  live : tables;
  durable : tables;
  log : list (level * string);
  calls : list (Z * Z)
}.

Definition M (A : Type) : Type := world -> result A * world.

Definition ret {A : Type} (a : A) : M A := fun w => (Ok a, w).

Definition bind {A B : Type} (m : M A) (k : A -> M B) : M B :=
  fun w =>
    match m w with
    | (Ok a, w') => k a w'
    | (Raise e, w') => (Raise e, w')
    end.

Notation "'do' x '<-' m ';' k" := (bind m (fun x => k))
  (at level 10, x pattern, m at level 100, k at level 200).

Definition lift {A : Type} (r : result A) : M A := fun w => (r, w).

(** [try: body except Exception as exc: handler(exc)] *)
Definition try_except {A : Type} (body : M A) (handler : exn -> M A) : M A :=
  fun w =>
    match body w with
    | (Ok a, w') => (Ok a, w')
    | (Raise e, w') => handler e w'
    end.

Fixpoint for_each {A : Type} (l : list A) (body : A -> M unit) : M unit :=
  match l with
  | [] => ret tt
  | x :: l' => do _ <- body x; for_each l' body
  end.

(** [logging.info(msg)], [logging.error(msg)] *)
Definition logging (lvl : level) (msg : string) : M unit :=
  fun w => (Ok tt, mkWorld (live w) (durable w) (log w ++ [(lvl, msg)]) (calls w)).

(** [self.db.commit()] *)
Definition commit : M unit :=
  fun w => (Ok tt, mkWorld (live w) (live w) (log w) (calls w)).

(** [api.sneakers(limit=limit, page=page)] *)
Definition api_sneakers (api : Api.t) (limit page : Z) : M json :=
  fun w => (Api.sneakers api limit page,
            mkWorld (live w) (durable w) (log w) (calls w ++ [(limit, page)])).

(** A Python integer that SQLite can store: 64 bits, signed. *)
Definition sqlite_int (z : Z) : bool :=
  (- 2 ^ 63 <=? z) && (z <? 2 ^ 63).

Definition too_large : exn :=
  OverflowError "Python int too large to convert to SQLite INTEGER".

(** binding of the positional parameter [i] *)
Definition bind_param (i : nat) (v : json) : result sqlval :=
  match v with
  | JNull => Ok SqlNull
  | JInt z => if sqlite_int z then Ok (SqlInt z) else Raise too_large
  | JStr s => Ok (SqlText s)
  | _ => Raise (ProgrammingError ("Error binding parameter " ++ PyStr.of_nat i
                                  ++ ": type '" ++ type_name v
                                  ++ "' is not supported"))
  end.

(** binding of the named parameters of [data] *)
Fixpoint bind_data (data : row) : result unit :=
  match data with
  | [] => Ok tt
  | (_, VInt z) :: data' => if sqlite_int z then bind_data data' else Raise too_large
  | (_, VStr _) :: data' => bind_data data'
  end.

Definition value_eqb (a b : value) : bool :=
  match a, b with
  | VInt x, VInt y => x =? y
  | VStr x, VStr y => String.eqb x y
  | _, _ => false
  end.

Definition same_sku (data r : row) : bool :=
  match Dict.get "sku" data, Dict.get "sku" r with
  | Some a, Some b => value_eqb a b
  | _, _ => false
  end.

(** Modelled from the spec: the schema script [create_tables.sql] is not in
    the sources.  The spec gives [sneakers(sku PRIMARY KEY, ...)] with one
    column for every key that [data] can have, and [images_360(sku, position,
    image)] without a key; so an INSERT into [sneakers] is refused exactly
    when a row with the same [sku] is there. *)
Definition execute_insert_sneakers (data : row) : M unit :=
  fun w =>
    match bind_data data with
    | Raise e => (Raise e, w)
    | Ok _ =>
        if existsb (same_sku data) (sneakers (live w))
        then (Raise (IntegrityError "UNIQUE constraint failed: sneakers.sku"), w)
        else (Ok tt,
              mkWorld (mkTables (sneakers (live w) ++ [data]) (images_360 (live w)))
                      (durable w) (log w) (calls w))
    end.

(** [cursor.execute("INSERT INTO images_360 (sku, position, image) VALUES
    (?, ?, ?)", (sku, pos, img))] *)
Definition execute_insert_images_360 (sku : json) (pos : nat) (img : json)
  : M unit :=
  fun w =>
    match bind_param 1 sku with
    | Raise e => (Raise e, w)
    | Ok s =>
        match bind_param 3 img with
        | Raise e => (Raise e, w)
        | Ok i =>
            (Ok tt,
             mkWorld (mkTables (sneakers (live w))
                               (images_360 (live w) ++ [(s, pos, i)]))
                     (durable w) (log w) (calls w))
        end
    end.

(** ** Python floats *)

Module PyFloat.

(** A finite binary64 number: [mantissa * 2 ^ exponent], the mantissa below
    [2 ^ 53] in absolute value or equal to it. *)
Record t : Type := mk {
  mantissa : Z;
  exponent : Z
}.

(** [2 ^ d] for a positive [d], and 1 otherwise *)
Definition up (d : Z) : Z := 2 ^ Z.max 0 d.

(** the integer nearest to [num / den], the even one of two that are equally
    near; [num] is not negative and [den] is positive *)
Definition round_half_even (num den : Z) : Z :=
  let q := num / den in
  let r := num mod den in
  if 2 * r <? den then q
  else if den <? 2 * r then q + 1
  else if Z.even q then q else q + 1.

(** [a / b] for two integers: the binary64 number nearest to the quotient,
    ties to even, as [long_true_divide] computes it.  The exponent is the one
    that gives the mantissa 53 bits, and not less than -1074, where the
    subnormal numbers are; a quotient that rounds to [2 ^ 1024] or more is
    too large for a float. *)
Definition truediv (a b : Z) : result t :=
  if b =? 0 then Raise ZeroDivisionError
  else if a =? 0 then Ok (mk 0 0)
  else
    let x := Z.abs a in
    let y := Z.abs b in
    let d := Z.log2 x - Z.log2 y in
    let magnitude := if y * up d <=? x * up (- d) then d else d - 1 in
    let e := Z.max (magnitude - 52) (- 1074) in
    let m := round_half_even (x * up (- e)) (y * up e) in
    if 2 ^ 1024 <=? m * 2 ^ e
    then Raise (OverflowError "integer division result too large for a float")
    else Ok (mk (Z.sgn a * Z.sgn b * m) e).

(** [math.ceil(x)] *)
Definition ceil (x : t) : Z :=
  if 0 <=? exponent x then mantissa x * 2 ^ exponent x
  else - (- mantissa x / 2 ^ (- exponent x)).

End PyFloat.

(** ** class Database *)

Module Database.

(** [brands] and [genders] are the reference lists that [insert_brands] and
    [insert_genders] have stored in [self]; [page_limit] is 100 in the
    program. *)
Record t : Type := mk {
  api : Api.t;
  brands : list string;
  genders : list string;
  page_limit : Z
}.

Definition sneaker_keys : list string :=
  ["brand"; "gender"; "estimatedMarketValue"; "releaseYear"; "story"; "id";
   "colorway"; "silhouette"; "sku"; "image"; "retailPrice"; "links"; "name";
   "releaseDate"].

Definition image_keys : list string := ["360"; "original"; "small"; "thumbnail"].

Definition links_keys : list string := ["flightClub"; "goat"; "stadiumGoods"; "stockX"].

Definition assert_sneaker_keys (sneaker : json) : result unit :=
  let? keys := py_keys sneaker in
  let? _ := assert (same_set keys sneaker_keys) in
  let? image := py_getitem sneaker "image" in
  let? keys := py_keys image in
  let? _ := assert (same_set keys image_keys) in
  let? links := py_getitem sneaker "links" in
  let? keys := py_keys links in
  assert (same_set keys links_keys).

Definition integer_fields : list string :=
  ["releaseYear"; "estimatedMarketValue"; "retailPrice"].

(** the branch of the integer fields: [Some] when the value is kept *)
Definition integer_field (v : json) : result (option value) :=
  let? positive := py_gt0 v in
  Ok (if positive then match v with JInt z => Some (VInt z) | _ => None end
      else None).

(** [value.upper()], then the trailing S of MENS and WOMENS removed *)
Definition upper_singular (value : string) : string :=
  let value := PyStr.upper value in
  if PyStr.endswith value "MENS" then PyStr.rstrip "S" value else value.

(** the gender of a record after [strip], [upper] and the plural rule *)
Definition normalized_gender (raw : string) : string :=
  upper_singular (PyStr.strip raw).

Definition unknown_gender : exn := RaisedStr "API gave us an unknown gender".
Definition unknown_brand : exn := RaisedStr "API gave us an unknown brand".

(** the body of the loop of [get_basically_sanitized_sneaker_data] *)
Definition sanitize_item (self : t) (key : string) (v : json) (data : row)
  : result row :=
  if str_in key integer_fields then
    let? kept := integer_field v in
    Ok (match kept with
        | Some z => Dict.set key z data
        | None => data
        end)
  else
    let? value := py_strip v in
    let? value :=
      (if String.eqb key "gender" then
         let value := upper_singular value in
         if str_in value (genders self) then Ok value else Raise unknown_gender
       else Ok value) in
    let? value :=
      (if String.eqb key "brand" then
         let value := PyStr.upper value in
         if str_in value (brands self) then Ok value else Raise unknown_brand
       else Ok value) in
    Ok (Dict.set key (VStr value) data).

Fixpoint sanitize_items (self : t) (items : list (string * json)) (data : row)
  : result row :=
  match items with
  | [] => Ok data
  | (key, v) :: items' =>
      let? data := sanitize_item self key v data in
      sanitize_items self items' data
  end.

Definition get_basically_sanitized_sneaker_data (self : t) (sneaker : json)
  : result row :=
  let? items := py_items sneaker in
  sanitize_items self items [].

(** [{f"{prefix}_{k}": doc.get(k).strip() for k in names
      if doc.get(k).strip() != ""}] *)
Fixpoint sqlize (prefix : string) (doc : json) (names : list string)
  : result row :=
  match names with
  | [] => Ok []
  | k :: names' =>
      let? v := py_get doc k in
      let? s := py_strip v in
      let? rest := sqlize prefix doc names' in
      Ok (if String.eqb s "" then rest
          else (prefix ++ "_" ++ k, VStr s) :: rest)
  end.

Definition sqlize_sneakers_links_fields (links : json) : result row :=
  sqlize "link" links ["flightClub"; "goat"; "stadiumGoods"; "stockX"].

Definition sqlize_sneakers_images_fields (images : json) : result row :=
  sqlize "image" images ["original"; "small"; "thumbnail"].

Definition sentinel : string := "0001-01-01".

(** [rd] after the repair of a truncated century *)
Definition century_fixed (rd : string) : string :=
  if PyStr.startswith rd "00" then "20" ++ PyStr.slice_from 2 rd else rd.

(** [int(rd.split("-")[0])] *)
Definition year_of (rd : string) : result Z :=
  match PyStr.int (hd "" (PyStr.split "-" rd)) with
  | Some n => Ok n
  | None => Raise (ValueError "invalid literal for int() with base 10")
  end.

(** [bool(ry)] for the popped [releaseYear] *)
Definition value_truthy (v : option value) : bool :=
  match v with
  | None => false
  | Some (VInt z) => negb (z =? 0)
  | Some (VStr s) => negb (String.eqb s "")
  end.

(** the [else] branch of the year: century repair and the mismatch check *)
Definition repair_year (data : row) (rd : string) (potential_year : Z)
    (ry : value) : M (option value) :=
  match ry with
  | VStr _ =>
      lift (Raise (TypeError
        "'<' not supported between instances of 'str' and 'int'"))
  | VInt y =>
      let y := if y <? 99 then y + 2000 else y in
      do _ <- (if negb (y =? potential_year) then
                 logging ERROR
                   (format_value (Dict.get "sku" data) ++ " releaseYear ("
                    ++ PyStr.of_Z y ++ ") and releaseDate (" ++ rd
                    ++ ") do not match!")
               else ret tt);
      ret (Some (VInt y))
  end.

Definition fix_date_and_year_in_sneaker_data (data : row) : M row :=
  do rd <- lift (match Dict.get "releaseDate" data with
                 | None => Ok ""
                 | Some (VStr s) => Ok (PyStr.strip s)
                 | Some (VInt _) =>
                     Raise (AttributeError "'int' object has no attribute 'strip'")
                 end);
  let data := Dict.remove "releaseDate" data in
  let ry := Dict.get "releaseYear" data in
  let data := Dict.remove "releaseYear" data in
  do dy <- (if negb (String.eqb rd "") && negb (String.eqb rd sentinel) then
              do _ <- lift (assert (PyStr.match_date rd));
              let rd := century_fixed rd in
              do potential_year <- lift (year_of rd);
              match ry with
              | None | Some (VInt 0) =>
                  do _ <- logging INFO
                    (format_value (Dict.get "sku" data)
                     ++ " Filling releaseYear from year found on releaseDate");
                  ret (rd, Some (VInt potential_year))
              | Some y =>
                  do ry <- repair_year data rd potential_year y;
                  ret (rd, ry)
              end
            else ret (rd, ry));
  let rd := fst dy in
  let ry := snd dy in
  let data := if negb (String.eqb rd "")
              then Dict.set "releaseDate" (VStr rd) data else data in
  let data := match ry with
              | Some y => if value_truthy ry
                          then Dict.set "releaseYear" y data else data
              | None => data
              end in
  ret data.

(** the loop of [insert_360_images] *)
Fixpoint insert_images (sku : json) (pos : nat) (imgs : list json) : M unit :=
  match imgs with
  | [] => ret tt
  | img :: imgs' =>
      do _ <- execute_insert_images_360 sku pos img;
      insert_images sku (S pos) imgs'
  end.

Definition insert_360_images (sku images : json) : M unit :=
  do i360 <- lift (py_getitem images "360");
  if truthy i360 then
    do imgs <- lift (py_iter i360);
    insert_images sku 0%nat imgs
  else ret tt.

Definition insert_sneaker (self : t) (sneaker : json) : M unit :=
  do _ <- lift (assert_sneaker_keys sneaker);
  do popped <- lift (py_pop sneaker "id");
  let sneaker := snd popped in
  do sku <- lift (py_get sneaker "sku");
  do n <- lift (py_len sku);
  do _ <- lift (assert (0 <? n));
  do popped <- lift (py_pop sneaker "image");
  let images := fst popped in
  let sneaker := snd popped in
  do popped <- lift (py_pop sneaker "links");
  let links := fst popped in
  let sneaker := snd popped in
  do data <- lift (get_basically_sanitized_sneaker_data self sneaker);
  do data <- fix_date_and_year_in_sneaker_data data;
  do fields <- lift (sqlize_sneakers_images_fields images);
  let data := Dict.update data fields in
  do fields <- lift (sqlize_sneakers_links_fields links);
  let data := Dict.update data fields in
  do _ <- execute_insert_sneakers data;
  insert_360_images sku images.

Definition load_sneakers_page (self : t) (page : Z) : M unit :=
  do data <- api_sneakers (api self) (page_limit self) page;
  do results <- lift (py_getitem data "results");
  do items <- lift (py_iter results);
  do _ <- for_each items (insert_sneaker self);
  commit.

(** [range(n)] *)
Definition range (n : Z) : list Z := map Z.of_nat (seq 0 (Z.to_nat n)).

(** one turn of the loop of [load_sneakers_safely] *)
Definition load_page_safely (self : t) (last_page_num page : Z) : M unit :=
  do _ <- logging INFO ("Processing page " ++ PyStr.of_Z page ++ " of "
                        ++ PyStr.of_Z last_page_num);
  try_except (load_sneakers_page self page)
    (fun exc => logging ERROR ("ERROR page=" ++ PyStr.of_Z page ++ " error="
                               ++ exn_str exc)).

Definition load_sneakers_safely (self : t) (last_page_num : Z) : M unit :=
  for_each (range (last_page_num + 1)) (load_page_safely self last_page_num).

(** [math.ceil(count / self.page_limit) - 1] *)
Definition last_page (count : json) (page_limit : Z) : result Z :=
  match count with
  | JInt n =>
      let? quotient := PyFloat.truediv n page_limit in
      Ok (PyFloat.ceil quotient - 1)
  | _ => Raise (TypeError ("unsupported operand type(s) for /: '"
                           ++ type_name count ++ "' and 'int'"))
  end.

(** [concurrency] is the constant 1, so the sequential loader runs. *)
Definition load_sneakers (self : t) : M unit :=
  do first_page <- api_sneakers (api self) (page_limit self) 0;
  do count <- lift (py_getitem first_page "count");
  do last_page_num <- lift (last_page count (page_limit self));
  load_sneakers_safely self last_page_num.

End Database.

(** ** Auxiliary definitions of the statements *)

(** The first character, if any, is outside [p]. *)
Definition head_kept (p : ascii -> bool) (s : string) : bool :=
  match s with
  | EmptyString => true
  | String c _ => negb (p c)
  end.

(** *** Date and year reconciliation *)

(** what is left of [data] after the two [pop]s *)
Definition popped (data : row) : row :=
  Dict.remove "releaseYear" (Dict.remove "releaseDate" data).

Definition fill_message (data : row) : string :=
  format_value (Dict.get "sku" (popped data))
  ++ " Filling releaseYear from year found on releaseDate".

Definition mismatch_message (data : row) (ry : Z) (rd : string) : string :=
  format_value (Dict.get "sku" (popped data)) ++ " releaseYear ("
  ++ PyStr.of_Z ry ++ ") and releaseDate (" ++ rd ++ ") do not match!".

Definition add_log (lvl : level) (msg : string) (w : world) : world :=
  mkWorld (live w) (durable w) (log w ++ [(lvl, msg)]) (calls w).

(** [ry] after the repair of a truncated century *)
Definition century_year (y : Z) : Z := if y <? 99 then y + 2000 else y.


(** *** The sanitizer *)

(** the text that the sanitizer keeps for the string field [key] of raw
    text [s] *)
Definition field_text (key s : string) : string :=
  if String.eqb key "gender" then Database.normalized_gender s
  else if String.eqb key "brand" then PyStr.upper (PyStr.strip s)
  else PyStr.strip s.

(** *** Runs of the monad *)

(** [steps R m]: every run of [m], returning or raising, takes the world to
    one that [R] relates to the first. *)
Definition steps (R : world -> world -> Prop) {A : Type} (m : M A) : Prop :=
  forall w, R w (snd (m w)).

(** [grows w w']: nothing was committed and no call was made between [w]
    and [w']; rows and log records were only added. *)
Definition grows (w w' : world) : Prop :=
  durable w' = durable w /\ calls w' = calls w /\
  (exists r, sneakers (live w') = (sneakers (live w) ++ r)%list) /\
  (exists i, images_360 (live w') = (images_360 (live w) ++ i)%list) /\
  (exists l, log w' = (log w ++ l)%list).

(** [only_logs w w']: the two worlds differ in the log at most. *)
Definition only_logs (w w' : world) : Prop :=
  live w' = live w /\ durable w' = durable w /\ calls w' = calls w /\
  exists l, log w' = (log w ++ l)%list.

(** [same_sneakers w w']: the table [sneakers] is the same in both. *)
Definition same_sneakers (w w' : world) : Prop :=
  sneakers (live w') = sneakers (live w).

(** the dictionary that [insert_sneaker] hands to the sanitizer *)
Definition fields_of (o : list (string * json)) : list (string * json) :=
  Dict.remove "links" (Dict.remove "image" (Dict.remove "id" o)).

(** ** Sample inputs *)

Module Sample.

(** a catalogue record as the provider sends it *)
Definition sneaker (sku brand gender : string) (releaseYear : json)
    (releaseDate : string) (estimatedMarketValue retailPrice : Z) : json :=
  JObj [("id", JStr "5338a798-ac8b-442f-a8b2-71d3a79311a5");
        ("sku", JStr sku);
        ("brand", JStr brand);
        ("gender", JStr gender);
        ("estimatedMarketValue", JInt estimatedMarketValue);
        ("releaseYear", releaseYear);
        ("story", JStr "");
        ("colorway", JStr "Black/White ");
        ("silhouette", JStr "Air Max 1");
        ("image", JObj [("360", JArr []); ("original", JStr "https://img/o.png");
                        ("small", JStr ""); ("thumbnail", JStr "")]);
        ("retailPrice", JInt retailPrice);
        ("links", JObj [("flightClub", JStr ""); ("goat", JStr "");
                        ("stadiumGoods", JStr ""); ("stockX", JStr "https://stockx/x")]);
        ("name", JStr "Air Max 1 Sample");
        ("releaseDate", JStr releaseDate)].

(** the fields of a record, for pattern-free access in statements *)
Definition fields (sneaker : json) : list (string * json) :=
  match sneaker with
  | JObj o => o
  | _ => []
  end.

Definition no_rows : tables := mkTables [] [].

(** a fresh connection, an empty log and no call made *)
Definition fresh : world := mkWorld no_rows no_rows [] [].

Definition no_api : Api.t :=
  Api.mk ["/"; "srv"; "_cache"] (fun _ _ => Raise (RequestException "offline")).

Definition database (api : Api.t) : Database.t :=
  Database.mk api ["ADIDAS"; "NIKE"] ["CHILD"; "MEN"; "WOMEN"] 100.

Definition db : Database.t := database no_api.

End Sample.

(** *** Records with an unknown gender or brand *)

Definition unknown_gender_in (self : Database.t) (o : list (string * json)) : Prop :=
  exists g, Dict.get "gender" o = Some (JStr g) /\
            str_in (Database.normalized_gender g) (Database.genders self) = false.

Definition unknown_brand_in (self : Database.t) (o : list (string * json)) : Prop :=
  exists b, Dict.get "brand" o = Some (JStr b) /\
            str_in (PyStr.upper (PyStr.strip b)) (Database.brands self) = false.

(** every integer field holds an integer and every other field a string *)
Definition typed_fields (o : list (string * json)) : bool :=
  forallb (fun kv =>
             match snd kv with
             | JInt _ => str_in (fst kv) Database.integer_fields
             | JStr _ => negb (str_in (fst kv) Database.integer_fields)
             | _ => false
             end) o.

(** *** Pages *)

(** [same_calls w w']: no call of the provider between the two worlds *)
Definition same_calls (w w' : world) : Prop := calls w' = calls w.

(** [log_grows w w']: the log of [w'] continues the log of [w] *)
Definition log_grows (w w' : world) : Prop :=
  exists l, log w' = (log w ++ l)%list.


Definition processing_message (page last_page_num : Z) : string :=
  "Processing page " ++ PyStr.of_Z page ++ " of " ++ PyStr.of_Z last_page_num.

Definition error_message (page : Z) (exc : exn) : string :=
  "ERROR page=" ++ PyStr.of_Z page ++ " error=" ++ exn_str exc.

(** the world in which [load_sneakers_page] starts its loop over the
    records, once the call of the provider is recorded *)
Definition called (self : Database.t) (page : Z) (w : world) : world :=
  snd (api_sneakers (Database.api self) (Database.page_limit self) page w).

(** the records of a page, as the loop of [load_sneakers_page] visits them *)
Definition records_of (self : Database.t) (page : Z) : result (list json) :=
  let? data := Api.sneakers (Database.api self) (Database.page_limit self) page in
  let? results := py_getitem data "results" in
  py_iter results.

Module Pages.

Definition page (count : Z) (results : list json) : json :=
  JObj [("count", JInt count); ("results", JArr results)].

(** a provider with 250 sneakers; the pages hold no record *)
Definition api_250 : Api.t :=
  Api.mk ["/"; "srv"; "_cache"] (fun _ _ => Ok (page 250 [])).

Definition a1 : json :=
  Sample.sneaker "A1" "nike" "mens" (JInt 2015) "2015-03-01" 150 120.
Definition a2 : json :=
  Sample.sneaker "A2" "puma" "mens" (JInt 2015) "2015-03-01" 150 120.
Definition b1 : json :=
  Sample.sneaker "B1" "adidas" "womens" (JInt 2016) "2016-07-01" 90 80.

(** a provider with 101 sneakers: on page 0 a good record and then one of
    an unknown brand, on page 1 a good record *)
Definition api_101 : Api.t :=
  Api.mk ["/"; "srv"; "_cache"]
         (fun _ p => if p =? 0 then Ok (page 101 [a1; a2])
                     else if p =? 1 then Ok (page 101 [b1])
                     else Raise (RequestException "404 Client Error")).

End Pages.

(** *** Texts of ASCII characters *)

(** [ascii_text s]: every character of [s] is an ASCII character.  On such
    texts the functions of [PyStr] are those of [str]: the same blanks are
    trimmed, the same letters have an upper case and the same characters are
    digits. *)
Definition ascii_text (s : string) : bool :=
  forallb (fun c => PyStr.code c <? 128) (list_ascii_of_string s).

(** [plain v]: every text of the document [v], key or value, is an ASCII
    text. *)
Fixpoint plain (v : json) : bool :=
  match v with
  | JStr s => ascii_text s
  | JArr l => forallb plain l
  | JObj o =>
      forallb (fun kv => match kv with (k, x) => ascii_text k && plain x end) o
  | _ => true
  end.

(** ** More auxiliary definitions *)

(** the columns that an INSERT into [sneakers] can name *)
Definition columns : list string :=
  ["brand"; "gender"; "estimatedMarketValue"; "releaseYear"; "story";
   "colorway"; "silhouette"; "sku"; "retailPrice"; "name"; "releaseDate";
   "image_original"; "image_small"; "image_thumbnail";
   "link_flightClub"; "link_goat"; "link_stadiumGoods"; "link_stockX"].

(** the keys of a record whose values the sanitizer keeps as text *)
Definition text_fields : list string :=
  ["brand"; "gender"; "story"; "colorway"; "silhouette"; "sku"; "name"].

(** the rows of [images_360] for the bound values [vals], from position
    [pos] on *)
Fixpoint image_rows (sku : sqlval) (pos : nat) (vals : list sqlval)
  : list (sqlval * nat * sqlval) :=
  match vals with
  | [] => []
  | v :: vals' => (sku, pos, v) :: image_rows sku (S pos) vals'
  end.

(** [w] with the rows [rows] added to [images_360] *)
Definition add_images (rows : list (sqlval * nat * sqlval)) (w : world) : world :=
  mkWorld (mkTables (sneakers (live w)) (images_360 (live w) ++ rows)%list)
          (durable w) (log w) (calls w).

(** the keys of [d] are exactly the names of [l] *)
Definition has_keys {V : Type} (d : list (string * V)) (l : list string) : Prop :=
  forall k, In k (Dict.keys d) <-> In k l.

(** the dictionary that [fix_date_and_year_in_sneaker_data] leaves, for the
    date [rd] and the year [ry] that it has settled on *)
Definition rebuilt (data : row) (rd : string) (ry : option value) : row :=
  let dated := if negb (String.eqb rd "")
               then Dict.set "releaseDate" (VStr rd) (popped data)
               else popped data in
  match ry with
  | Some y => if Database.value_truthy ry
              then Dict.set "releaseYear" y dated else dated
  | None => dated
  end.

(** [prepared self o w stored w1]: the steps of [insert_sneaker] before its
    INSERT have all returned for the record [o] in the world [w]; [stored]
    is the dictionary they hand to the INSERT and [w1] the world then. *)
Definition prepared (self : Database.t) (o : list (string * json)) (w : world)
    (stored : row) (w1 : world) : Prop :=
  exists data data' im lk,
    Database.assert_sneaker_keys (JObj o) = Ok tt /\
    Database.get_basically_sanitized_sneaker_data self (JObj (fields_of o)) = Ok data /\
    Database.fix_date_and_year_in_sneaker_data data w = (Ok data', w1) /\
    incl (Dict.keys im) ["image_original"; "image_small"; "image_thumbnail"] /\
    incl (Dict.keys lk)
         ["link_flightClub"; "link_goat"; "link_stadiumGoods"; "link_stockX"] /\
    (exists images, Dict.get "image" o = Some images /\
                    Database.sqlize_sneakers_images_fields images = Ok im) /\
    (exists links, Dict.get "links" o = Some links /\
                   Database.sqlize_sneakers_links_fields links = Ok lk) /\
    stored = Dict.update (Dict.update data' im) lk.

(** the image and link columns of [sneakers] *)
Definition url_columns : list string :=
  ["image_original"; "image_small"; "image_thumbnail";
   "link_flightClub"; "link_goat"; "link_stadiumGoods"; "link_stockX"].

(** a text that [strip] leaves as it is *)
Definition trimmed (s : string) : Prop := PyStr.strip s = s.

(** [good_row self r]: what every row that [insert_sneaker] hands to the
    INSERT satisfies. *)
Definition good_row (self : Database.t) (r : row) : Prop :=
  NoDup (Dict.keys r) /\
  incl (Dict.keys r) columns /\
  (forall k, In k text_fields ->
             exists s, Dict.get k r = Some (VStr s) /\ trimmed s) /\
  (exists b, Dict.get "brand" r = Some (VStr b) /\ In b (Database.brands self)) /\
  (exists g, Dict.get "gender" r = Some (VStr g) /\ In g (Database.genders self) /\
             PyStr.endswith g "MENS" = false) /\
  (forall k v, In k Database.integer_fields -> Dict.get k r = Some v ->
               exists z, v = VInt z /\ 0 < z) /\
  (forall v, Dict.get "releaseDate" r = Some v ->
             exists d, v = VStr d /\
                       (d = Database.sentinel \/
                        (PyStr.match_date d = true /\ PyStr.startswith d "00" = false))) /\
  (forall k v, In k url_columns -> Dict.get k r = Some v ->
               exists s, v = VStr s /\ s <> "" /\ trimmed s).

(** every row of [sneakers], seen by the connection or durable, is good *)
Definition good_tables (self : Database.t) (w : world) : Prop :=
  Forall (good_row self) (sneakers (live w)) /\
  Forall (good_row self) (sneakers (durable w)).

(** the records of every page are objects with distinct keys, as
    [json.loads] builds them *)
Definition distinct_keys (self : Database.t) : Prop :=
  forall page items o,
    records_of self page = Ok items -> In (JObj o) items -> NoDup (Dict.keys o).

(** the records of every page hold ASCII texts only *)
Definition plain_pages (self : Database.t) : Prop :=
  forall page items,
    records_of self page = Ok items -> forallb plain items = true.

(** ** [Api.call] and [Api.sneakers], with the cache files and the memo *)

Module ApiCall.

Definition querystring : Type := list (string * value).

(** a request to the provider: the endpoint and the querystring *)
Definition request : Type := (string * querystring)%type.

(** [OSError p]: the file system has refused the path [p], when
    [p.is_file()] looked for it or when [open(p, "w")] tried to create it *)
Inductive failure : Type :=
| Exn (e : exn)
| OSError (p : Api.path).

Inductive outcome (A : Type) : Type :=
| Return (a : A)
| Fail (f : failure).
Arguments Return {A} a.
Arguments Fail {A} f.

Definition of_result {A : Type} (r : result A) : outcome A :=
  match r with
  | Ok a => Return a
  | Raise e => Fail (Exn e)
  end.

(** What [call] does not decide.  [respond before endpoint querystring] is
    what the three lines [self.session.get(urljoin(self.url, endpoint),
    params=querystring)], [resp.raise_for_status()] and [resp.json()] give
    when the requests [before] have been sent: the document, or the exception
    of the one that raises.  For a path [p] that is no file, [reachable p]
    tells whether [p.is_file()] returns, which it does not for a name that
    is too long, and [creatable p] whether [open(p, "w")] succeeds. *)
Record remote : Type := mkRemote {
  respond : list request -> string -> querystring -> result json;
  reachable : Api.path -> bool;
  creatable : Api.path -> bool
}.

(** [files] maps the path of every file to what [json.loads] gives for its
    text, most recent first; paths are compared name by name, as [pathlib]
    compares them.  [sent] holds the requests in the order they were sent,
    [logged] the log records, and [memo] the table of [functools.cache] for
    [sneakers], keyed by the keyword arguments in the order they were given.
    A document is a value here: the table holds what [sneakers] has
    returned, as it was returned. *)
Record state : Type := mkState {
  files : list (Api.path * result json);
  sent : list request;
  logged : list (level * string);
  memo : list (querystring * json)
}.

Fixpoint path_eqb (p q : Api.path) : bool :=
  match p, q with
  | [], [] => true
  | a :: p', b :: q' => String.eqb a b && path_eqb p' q'
  | _, _ => false
  end.

(** the content of the file [p], if [p.is_file()] *)
Fixpoint read (p : Api.path) (fs : list (Api.path * result json))
  : option (result json) :=
  match fs with
  | [] => None
  | (q, c) :: fs' => if path_eqb q p then Some c else read p fs'
  end.

(** [p.name] *)
Definition name (p : Api.path) : string := last p "".

Fixpoint insert_item (k : string) (v : json) (l : list (string * json))
  : list (string * json) :=
  match l with
  | [] => [(k, v)]
  | (h, x) :: tl =>
      if String.leb k h then (k, v) :: l else (h, x) :: insert_item k v tl
  end.

(** the document that [json.loads] reads back from what
    [json.dump(data, fh, sort_keys=True, indent=4)] has written: [data] with
    the keys of every object in sorted order *)
Fixpoint sort_keys (data : json) : json :=
  match data with
  | JArr l => JArr (map sort_keys l)
  | JObj o =>
      JObj (fold_right (fun kv acc =>
                          match kv with (k, v) => insert_item k (sort_keys v) acc end)
                       [] o)
  | _ => data
  end.

Definition call (env : remote) (self : Api.t) (endpoint : string)
    (querystring : querystring) (s : state) : outcome json * state :=
  let cache := Api.cache_path self endpoint querystring in
  match read cache (files s) with
  | Some content =>
      (of_result content,
       mkState (files s) (sent s)
               (logged s ++ [(INFO, "cache hit: " ++ name cache)]) (memo s))
  | None =>
      if reachable env cache then
        let s1 := mkState (files s) (sent s ++ [(endpoint, querystring)])
                          (logged s) (memo s) in
        match respond env (sent s) endpoint querystring with
        | Raise e => (Fail (Exn e), s1)
        | Ok data =>
            if creatable env cache
            then (Return data,
                  mkState ((cache, Ok (sort_keys data)) :: files s1) (sent s1)
                          (logged s1) (memo s1))
            else (Fail (OSError cache), s1)
        end
      else (Fail (OSError cache), s)
  end.

(** [parameters.setdefault(k, v)] *)
Definition setdefault (k : string) (v : value) (parameters : querystring)
  : querystring :=
  match Dict.get k parameters with
  | Some _ => parameters
  | None => Dict.set k v parameters
  end.

Fixpoint params_eqb (p q : querystring) : bool :=
  match p, q with
  | [], [] => true
  | (k, v) :: p', (k', v') :: q' =>
      String.eqb k k' && value_eqb v v' && params_eqb p' q'
  | _, _ => false
  end.

(** the entry of the memo for the keyword arguments [p] *)
Fixpoint recall (p : querystring) (m : list (querystring * json)) : option json :=
  match m with
  | [] => None
  | (q, resp) :: m' => if params_eqb q p then Some resp else recall p m'
  end.

(** [self.sneakers] with the keyword arguments [parameters], under
    [functools.cache]: an exception is not kept in the memo *)
Definition sneakers (env : remote) (self : Api.t) (parameters : querystring)
    (s : state) : outcome json * state :=
  match recall parameters (memo s) with
  | Some resp => (Return resp, s)
  | None =>
      let parameters' :=
        setdefault "page" (VInt 0) (setdefault "limit" (VInt 100) parameters) in
      match call env self "sneakers" parameters' s with
      | (Return resp, s1) =>
          (Return resp,
           mkState (files s1) (sent s1) (logged s1) ((parameters, resp) :: memo s1))
      | (Fail f, s1) => (Fail f, s1)
      end
  end.

(** the state after the calls [reqs] in turn, whatever each of them returns
    or raises *)
Fixpoint after_calls (env : remote) (self : Api.t) (reqs : list request)
    (s : state) : state :=
  match reqs with
  | [] => s
  | (endpoint, q) :: reqs' =>
      after_calls env self reqs' (snd (call env self endpoint q s))
  end.

(** the same for calls of [sneakers] *)
Fixpoint after_sneakers (env : remote) (self : Api.t) (ps : list querystring)
    (s : state) : state :=
  match ps with
  | [] => s
  | p :: ps' => after_sneakers env self ps' (snd (sneakers env self p s))
  end.

(** a provider that answers every request with its querystring's page
    number, and a cache directory with no file *)
Definition echo : remote :=
  mkRemote (fun _ endpoint q =>
              Ok (JObj [("results", JArr []);
                        ("count", JInt 250);
                        ("page", match Dict.get "page" q with
                                 | Some (VInt z) => JInt z
                                 | _ => JNull
                                 end)]))
           (fun _ => true) (fun _ => true).


Definition empty : state := mkState [] [] [] [].

End ApiCall.

(** ** The reference tables and the search table *)

(** [insert_brands]: [api_brands] is the list of texts [self.api.brands];
    the result is [self] with its [brands] set and the parameters handed to
    [executemany]. *)
Definition insert_brands (api_brands : list string) (self : Database.t)
  : Database.t * list row :=
  (Database.mk (Database.api self) api_brands (Database.genders self)
               (Database.page_limit self),
   map (fun brand => [("brand", VStr brand)]) api_brands).

(** [insert_genders], likewise for [self.api.genders] *)
Definition insert_genders (api_genders : list string) (self : Database.t)
  : Database.t * list row :=
  (Database.mk (Database.api self) (Database.brands self) api_genders
               (Database.page_limit self),
   map (fun gender => [("gender", VStr gender)])
       (filter (fun gender => negb (str_in gender ["MENS"; "WOMENS"])) api_genders)).

(** the value of the column [c] in a row of [sneakers]: NULL when the INSERT
    did not name the column *)
Definition column (c : string) (r : row) : sqlval :=
  match Dict.get c r with
  | None => SqlNull
  | Some (VInt z) => SqlInt z
  | Some (VStr s) => SqlText s
  end.

(** the rows that [load_fts] adds to [sneakers_fts]:
    [SELECT brand, name, silhouette, colorway, sku FROM sneakers] *)
Definition load_fts (t : tables) : list (list sqlval) :=
  map (fun r => map (fun c => column c r)
                    ["brand"; "name"; "silhouette"; "colorway"; "sku"])
      (sneakers t).

(** the querystring that [sneakers] hands to [call] for the keyword
    arguments [parameters] *)
Definition defaulted (parameters : ApiCall.querystring) : ApiCall.querystring :=
  ApiCall.setdefault "page" (VInt 0) (ApiCall.setdefault "limit" (VInt 100) parameters).

(** a row of a one-column reference table *)
Definition listed (column : string) (rows : list row) (v : string) : Prop :=
  In [(column, VStr v)] rows.

(** * Properties *)

(** ** Strings *)

Section StringFacts.

Import PyStr.

Lemma append_cancel_l (s t u : string) : s ++ t = s ++ u -> t = u.
Proof.
  induction s as [|c s IH]; simpl; intros H; [exact H|].
  injection H as H. auto.
Qed.

Lemma upper_char_idem (c : ascii) : upper_char (upper_char c) = upper_char c.
Proof. destruct c as [[] [] [] [] [] [] [] []]; reflexivity. Qed.

Lemma is_space_upper_char (c : ascii) : is_space (upper_char c) = is_space c.
Proof. destruct c as [[] [] [] [] [] [] [] []]; reflexivity. Qed.

Lemma upper_idem (s : string) : upper (upper s) = upper s.
Proof.
  induction s as [|c s IH]; simpl; [reflexivity|].
  now rewrite upper_char_idem, IH.
Qed.

Lemma upper_append (s t : string) : upper (s ++ t) = upper s ++ upper t.
Proof. induction s as [|c s IH]; simpl; [reflexivity | now rewrite IH]. Qed.

Lemma upper_fixed_prefix (s t : string) : upper (s ++ t) = s ++ t -> upper s = s.
Proof.
  induction s as [|c s IH]; simpl; intros H; [reflexivity|].
  injection H as Hc Hs. rewrite Hc. f_equal. auto.
Qed.

Lemma upper_lstrip (s : string) :
  upper (lstrip_with is_space s) = lstrip_with is_space (upper s).
Proof.
  induction s as [|c s IH]; simpl; [reflexivity|].
  rewrite is_space_upper_char. destruct (is_space c); [exact IH | reflexivity].
Qed.

Lemma upper_rstrip (s : string) :
  upper (rstrip_with is_space s) = rstrip_with is_space (upper s).
Proof.
  induction s as [|c s IH]; simpl; [reflexivity|].
  rewrite <- IH, is_space_upper_char.
  destruct (rstrip_with is_space s) as [|d r]; simpl.
  - destruct (is_space c); reflexivity.
  - reflexivity.
Qed.

Lemma upper_strip (s : string) : upper (strip s) = strip (upper s).
Proof. unfold strip. now rewrite upper_rstrip, upper_lstrip. Qed.

Lemma head_kept_lstrip (p : ascii -> bool) (s : string) :
  head_kept p (lstrip_with p s) = true.
Proof.
  induction s as [|c s IH]; simpl; [reflexivity|].
  destruct (p c) eqn:E; [exact IH | simpl; now rewrite E].
Qed.

Lemma lstrip_head_kept (p : ascii -> bool) (s : string) :
  head_kept p s = true -> lstrip_with p s = s.
Proof.
  destruct s as [|c s]; simpl; [reflexivity|].
  now destruct (p c).
Qed.

Lemma head_kept_rstrip (p : ascii -> bool) (s : string) :
  head_kept p s = true -> head_kept p (rstrip_with p s) = true.
Proof.
  destruct s as [|c s]; simpl; [reflexivity|].
  intros H. destruct (rstrip_with p s); [|exact H].
  destruct (p c) eqn:E; simpl; [reflexivity | now rewrite E].
Qed.

Lemma rstrip_idem (p : ascii -> bool) (s : string) :
  rstrip_with p (rstrip_with p s) = rstrip_with p s.
Proof.
  induction s as [|c s IH]; simpl; [reflexivity|].
  destruct (rstrip_with p s) as [|d r] eqn:E.
  - destruct (p c) eqn:Ec; simpl; [reflexivity | now rewrite Ec].
  - change (rstrip_with p (String c (String d r))) with
      (match rstrip_with p (String d r) with
       | EmptyString => if p c then EmptyString else String c EmptyString
       | r' => String c r'
       end).
    now rewrite IH.
Qed.

Lemma rstrip_append (p : ascii -> bool) (s t : string) :
  rstrip_with p t <> "" -> rstrip_with p (s ++ t) = s ++ rstrip_with p t.
Proof.
  intros H. induction s as [|c s IH]; simpl; [reflexivity|].
  rewrite IH. destruct (s ++ rstrip_with p t) eqn:E; [|reflexivity].
  exfalso. apply H. destruct s; simpl in E; [exact E | discriminate].
Qed.

Lemma head_kept_strip (s : string) : head_kept is_space (strip s) = true.
Proof. unfold strip. apply head_kept_rstrip, head_kept_lstrip. Qed.

Lemma strip_fixed (s : string) :
  head_kept is_space s = true -> rstrip_with is_space s = s -> strip s = s.
Proof. intros H1 H2. unfold strip. now rewrite lstrip_head_kept. Qed.

Lemma strip_idem (s : string) : strip (strip s) = strip s.
Proof.
  apply strip_fixed; [apply head_kept_strip|].
  unfold strip. apply rstrip_idem.
Qed.

Lemma endswith_inv (s suf : string) :
  endswith s suf = true -> exists u, s = u ++ suf.
Proof.
  induction s as [|c s IH]; cbn [endswith].
  - rewrite orb_false_r. intros H. apply String.eqb_eq in H. now exists "".
  - intros H. apply orb_true_iff in H. destruct H as [H|H].
    + apply String.eqb_eq in H. now exists "".
    + destruct (IH H) as [u ->]. now exists (String c u).
Qed.

Lemma head_kept_append (p : ascii -> bool) (u x y : string) :
  head_kept p (u ++ x) = true -> head_kept p y = true ->
  head_kept p (u ++ y) = true.
Proof. destruct u; simpl; auto. Qed.

End StringFacts.

(** ** Gender *)

(** C5.  The gender normalisation of the sanitizer (trim, upper case, then
    the final S of a value ending in MENS removed) sends MENS to MEN and
    WOMENS to WOMEN, leaves MEN as it is, and is idempotent. *)
Theorem normalized_gender_idempotent :
  Database.normalized_gender "MENS" = "MEN" /\
  Database.normalized_gender "WOMENS" = "WOMEN" /\
  Database.normalized_gender "MEN" = "MEN" /\
  forall raw : string,
    Database.normalized_gender (Database.normalized_gender raw)
    = Database.normalized_gender raw.
Proof.
  repeat split; try reflexivity.
  intros raw. unfold Database.normalized_gender, Database.upper_singular.
  cbv zeta. rewrite (upper_strip raw).
  set (v := PyStr.strip (PyStr.upper raw)).
  assert (Hup : PyStr.upper v = v).
  { unfold v. rewrite <- upper_strip, upper_idem. reflexivity. }
  assert (Hst : PyStr.strip v = v) by apply strip_idem.
  assert (Hhd : head_kept PyStr.is_space v = true) by apply head_kept_strip.
  destruct (PyStr.endswith v "MENS") eqn:E.
  - destruct (endswith_inv _ _ E) as [u Hu].
    assert (Hr : PyStr.rstrip "S" v = u ++ "MEN").
    { rewrite Hu. unfold PyStr.rstrip. rewrite rstrip_append; [reflexivity|].
      discriminate. }
    rewrite Hr.
    assert (Hst' : PyStr.strip (u ++ "MEN") = u ++ "MEN").
    { apply strip_fixed.
      - rewrite Hu in Hhd. now apply head_kept_append with (x := "MENS").
      - rewrite rstrip_append; [reflexivity | discriminate]. }
    assert (Hup' : PyStr.upper (u ++ "MEN") = u ++ "MEN").
    { rewrite upper_append. f_equal.
      apply upper_fixed_prefix with (t := "MENS"). now rewrite <- Hu. }
    rewrite (upper_strip (u ++ "MEN")), Hup', Hst'.
    destruct (PyStr.endswith (u ++ "MEN") "MENS") eqn:E'; [|reflexivity].
    exfalso. destruct (endswith_inv _ _ E') as [u' Hu'].
    assert (Hx : PyStr.rstrip "S" (u ++ "MEN") = PyStr.rstrip "S" (u' ++ "MENS"))
      by now rewrite Hu'.
    unfold PyStr.rstrip in Hx.
    rewrite !rstrip_append in Hx by discriminate.
    simpl in Hx. rewrite Hx in Hu'. apply append_cancel_l in Hu'. discriminate.
  - rewrite (upper_strip v), Hup, Hst, E. reflexivity.
Qed.

(** ** Dictionaries *)

Section DictFacts.
Context {V : Type}.
Implicit Types (d e : list (string * V)) (k : string) (v : V).

Lemma get_set_same k v d : Dict.get k (Dict.set k v d) = Some v.
Proof.
  induction d as [|[k' v'] d IH]; simpl.
  - now rewrite String.eqb_refl.
  - destruct (String.eqb k' k) eqn:E; simpl; rewrite E; [reflexivity | exact IH].
Qed.

Lemma get_set_other k k' v d :
  k <> k' -> Dict.get k (Dict.set k' v d) = Dict.get k d.
Proof.
  intros Hne. induction d as [|[k1 v1] d IH]; simpl.
  - destruct (String.eqb k' k) eqn:E; [|reflexivity].
    apply String.eqb_eq in E. congruence.
  - destruct (String.eqb k1 k') eqn:E; simpl.
    + destruct (String.eqb k1 k) eqn:E'; [|reflexivity].
      apply String.eqb_eq in E, E'. congruence.
    + now rewrite IH.
Qed.

Lemma get_remove_other k k' d :
  k <> k' -> Dict.get k (Dict.remove k' d) = Dict.get k d.
Proof.
  intros Hne. induction d as [|[k1 v1] d IH]; simpl; [reflexivity|].
  destruct (String.eqb k1 k') eqn:E; simpl.
  - destruct (String.eqb k1 k) eqn:E'; [|reflexivity].
    apply String.eqb_eq in E, E'. congruence.
  - now rewrite IH.
Qed.

Lemma get_none_notin k d : ~ In k (Dict.keys d) -> Dict.get k d = None.
Proof.
  induction d as [|[k1 v1] d IH]; simpl; [reflexivity|].
  intros H. destruct (String.eqb k1 k) eqn:E.
  - apply String.eqb_eq in E. tauto.
  - apply IH. tauto.
Qed.

Lemma get_some_in k v d : Dict.get k d = Some v -> In (k, v) d.
Proof.
  induction d as [|[k1 v1] d IH]; simpl; [discriminate|].
  destruct (String.eqb k1 k) eqn:E.
  - apply String.eqb_eq in E. intros [= ->]. left. now subst.
  - intros H. right. auto.
Qed.

Lemma keys_remove_incl k d : incl (Dict.keys (Dict.remove k d)) (Dict.keys d).
Proof.
  induction d as [|[k1 v1] d IH]; simpl; [apply incl_refl|].
  destruct (String.eqb k1 k).
  - apply incl_tl, incl_refl.
  - simpl. intros x [<-|Hx]; [now left | right; now apply IH].
Qed.

Lemma nodup_remove k d : NoDup (Dict.keys d) -> NoDup (Dict.keys (Dict.remove k d)).
Proof.
  induction d as [|[k1 v1] d IH]; simpl; [auto|].
  intros H. inversion H as [|? ? Hn Hd]; subst.
  destruct (String.eqb k1 k); [exact Hd|].
  simpl. constructor; [|auto].
  intros Hin. apply Hn. now apply (keys_remove_incl k d).
Qed.

Lemma get_remove_same k d :
  NoDup (Dict.keys d) -> Dict.get k (Dict.remove k d) = None.
Proof.
  induction d as [|[k1 v1] d IH]; simpl; [reflexivity|].
  intros H. inversion H as [|? ? Hn Hd]; subst.
  destruct (String.eqb k1 k) eqn:E.
  - apply String.eqb_eq in E. subst. now apply get_none_notin.
  - simpl. rewrite E. auto.
Qed.

Lemma keys_set k v d :
  Dict.keys (Dict.set k v d)
  = if existsb (String.eqb k) (Dict.keys d) then Dict.keys d
    else (Dict.keys d ++ [k])%list.
Proof.
  induction d as [|[k1 v1] d IH]; simpl; [reflexivity|].
  rewrite (String.eqb_sym k k1).
  destruct (String.eqb k1 k) eqn:E; simpl; [reflexivity|].
  fold (Dict.keys (Dict.set k v d)). rewrite IH.
  now destruct (existsb (String.eqb k) (Dict.keys d)).
Qed.

Lemma nodup_set k v d : NoDup (Dict.keys d) -> NoDup (Dict.keys (Dict.set k v d)).
Proof.
  intros H. rewrite keys_set.
  destruct (existsb (String.eqb k) (Dict.keys d)) eqn:E; [exact H|].
  apply NoDup_app; [exact H | repeat constructor; simpl; tauto |].
  intros x Hx [Hk|[]]. subst x.
  assert (existsb (String.eqb k) (Dict.keys d) = true); [|congruence].
  apply existsb_exists. exists k. split; [exact Hx | apply String.eqb_refl].
Qed.

Lemma get_update_notin k d e :
  ~ In k (Dict.keys e) -> Dict.get k (Dict.update d e) = Dict.get k d.
Proof.
  unfold Dict.update. revert d.
  induction e as [|[k1 v1] e IH]; simpl; intros d H; [reflexivity|].
  rewrite IH by tauto. apply get_set_other. intros ->. tauto.
Qed.
End DictFacts.

(** ** Dates *)

Section DateFacts.

Import PyStr.

Lemma split_hd_cons (sep c : ascii) (s : string) :
  Ascii.eqb c sep = false ->
  hd "" (split sep (String c s)) = String c (hd "" (split sep s)).
Proof.
  intros H. simpl. rewrite H. now destruct (split sep s).
Qed.

Lemma split_hd_sep (sep : ascii) (s : string) :
  hd "" (split sep (String sep s)) = "".
Proof. simpl. now rewrite Ascii.eqb_refl. Qed.

Lemma is_digit_not_dash (c : ascii) : is_digit c = true -> Ascii.eqb c "-" = false.
Proof. destruct c as [[] [] [] [] [] [] [] []]; now intros H. Qed.

Lemma is_digit_bounds (c : ascii) : is_digit c = true -> 48 <= code c <= 57.
Proof. unfold is_digit. intros H. apply andb_true_iff in H. lia. Qed.

Lemma code_zero (c : ascii) : code c = 48 -> c = "0"%char.
Proof. destruct c as [[] [] [] [] [] [] [] []]; now intros H. Qed.

Lemma int_four_digits (a b c d : ascii) :
  is_digit a = true -> is_digit b = true -> is_digit c = true ->
  is_digit d = true ->
  int (String a (String b (String c (String d ""))))
  = Some (1000 * (code a - 48) + 100 * (code b - 48) + 10 * (code c - 48)
          + (code d - 48)).
Proof.
  intros Ha Hb Hc Hd. unfold int. cbn [int_digits].
  rewrite Ha, Hb, Hc, Hd. f_equal. lia.
Qed.

(** A text that passes the date pattern has a year, and the year is at least
    100 once a truncated century is repaired. *)
Lemma match_date_year (rd : string) :
  match_date rd = true ->
  exists n, Database.year_of (Database.century_fixed rd) = Ok n /\ 100 <= n <= 9999.
Proof.
  destruct rd as [|y1 [|y2 [|y3 [|y4 [|h1 [|m1 [|m2 [|h2 [|d1 [|d2 tl]]]]]]]]]];
    try discriminate.
  cbn [match_date]. intros H.
  do 10 (apply andb_true_iff in H; destruct H as [H ?]).
  match goal with E : Ascii.eqb h1 _ = true |- _ => apply Ascii.eqb_eq in E; subst h1 end.
  repeat match goal with E : is_digit _ = true |- _ =>
    pose proof (is_digit_bounds _ E); pose proof (is_digit_not_dash _ E); revert E end.
  intros.
  unfold Database.century_fixed, Database.year_of, startswith.
  cbn [String.prefix].
  destruct (ascii_dec "0" y1) as [E1|E1]; [destruct (ascii_dec "0" y2) as [E2|E2]|].
  - subst y1 y2. cbn [slice_from append].
    rewrite !split_hd_cons, split_hd_sep by (assumption || reflexivity).
    rewrite int_four_digits by (assumption || reflexivity).
    eexists; split; [reflexivity|]. change (code "2") with 50. change (code "0") with 48. lia.
  - rewrite !split_hd_cons, split_hd_sep by assumption.
    rewrite int_four_digits by assumption.
    eexists; split; [reflexivity|].
    assert (code y2 <> 48) by (intros E; apply code_zero in E; congruence).
    lia.
  - rewrite !split_hd_cons, split_hd_sep by assumption.
    rewrite int_four_digits by assumption.
    eexists; split; [reflexivity|].
    assert (code y1 <> 48) by (intros E; apply code_zero in E; congruence).
    lia.
Qed.

Lemma match_date_nonempty (rd : string) :
  match_date rd = true -> String.eqb (Database.century_fixed rd) "" = false.
Proof.
  intros H. unfold Database.century_fixed.
  destruct (startswith rd "00"); [reflexivity|].
  destruct rd; [discriminate | reflexivity].
Qed.

End DateFacts.

(** ** Date and year reconciliation *)

Section FixDate.

Import Database.

Lemma get_year_popped (data : row) :
  Dict.get "releaseYear" (Dict.remove "releaseDate" data)
  = Dict.get "releaseYear" data.
Proof. apply get_remove_other. discriminate. Qed.

Lemma fix_date_valid (data : row) (w : world) (d : string) (n : Z) :
  let rd := PyStr.strip d in
  Dict.get "releaseDate" data = Some (VStr d) ->
  PyStr.match_date rd = true ->
  String.eqb rd sentinel = false ->
  year_of (century_fixed rd) = Ok n ->
  n <> 0 ->
  let dated := Dict.set "releaseDate" (VStr (century_fixed rd)) (popped data) in
  fix_date_and_year_in_sneaker_data data w =
  match Dict.get "releaseYear" data with
  | None | Some (VInt 0) =>
      (Ok (Dict.set "releaseYear" (VInt n) dated),
       add_log INFO (fill_message data) w)
  | Some (VInt y) =>
      let ry := century_year y in
      (Ok (if ry =? 0 then dated else Dict.set "releaseYear" (VInt ry) dated),
       if ry =? n then w
       else add_log ERROR (mismatch_message data ry (century_fixed rd)) w)
  | Some (VStr _) =>
      (Raise (TypeError "'<' not supported between instances of 'str' and 'int'"),
       w)
  end.
Proof.
  intros rd Hd Hm Hs Hy Hn dated.
  unfold fix_date_and_year_in_sneaker_data, bind, lift.
  rewrite Hd. fold rd.
  assert (He : String.eqb rd "" = false) by (destruct rd; [discriminate|reflexivity]).
  rewrite He, Hs, Hm. cbn [negb andb assert]. rewrite Hy.
  rewrite get_year_popped.
  pose proof (match_date_nonempty rd Hm) as Hne.
  destruct (Dict.get "releaseYear" data) as [[y|s]|] eqn:Ey.
  - destruct y as [|p|p].
    + unfold logging, ret. cbn [fst snd]. rewrite Hne. cbn [negb value_truthy].
      apply Z.eqb_neq in Hn. rewrite Hn. reflexivity.
    + unfold repair_year, bind, ret, logging, century_year.
      set (ry := if Z.pos p <? 99 then Z.pos p + 2000 else Z.pos p).
      destruct (ry =? n) eqn:E; cbn [negb fst snd]; rewrite Hne; cbn [negb value_truthy];
        destruct (ry =? 0); reflexivity.
    + unfold repair_year, bind, ret, logging, century_year.
      set (ry := if Z.neg p <? 99 then Z.neg p + 2000 else Z.neg p).
      destruct (ry =? n) eqn:E; cbn [negb fst snd]; rewrite Hne; cbn [negb value_truthy];
        destruct (ry =? 0); reflexivity.
  - reflexivity.
  - unfold logging, ret. cbn [fst snd]. rewrite Hne. cbn [negb value_truthy].
    apply Z.eqb_neq in Hn. rewrite Hn. reflexivity.
Qed.

(** The sentinel date skips the whole reconciliation and is put back. *)
Lemma fix_date_sentinel (data : row) (w : world) (d : string) :
  Dict.get "releaseDate" data = Some (VStr d) ->
  PyStr.strip d = sentinel ->
  fix_date_and_year_in_sneaker_data data w =
  (Ok (let dated := Dict.set "releaseDate" (VStr sentinel) (popped data) in
       match Dict.get "releaseYear" data with
       | Some y => if value_truthy (Some y)
                   then Dict.set "releaseYear" y dated else dated
       | None => dated
       end), w).
Proof.
  intros Hd Hs.
  unfold fix_date_and_year_in_sneaker_data, bind, lift.
  rewrite Hd, Hs. cbn. rewrite get_year_popped.
  now destruct (Dict.get "releaseYear" data).
Qed.

End FixDate.

(** ** The sanitizer *)

Section Sanitizer.

Import Database.
Variable self : Database.t.

Lemma integer_field_inv (v : json) (kept : option value) :
  integer_field v = Ok kept ->
  exists z, v = JInt z /\ kept = if 0 <? z then Some (VInt z) else None.
Proof.
  destruct v; try discriminate. cbn. intros [= <-]. now exists z.
Qed.

Lemma sanitize_item_int (key : string) (v : json) (data data' : row) :
  str_in key integer_fields = true ->
  sanitize_item self key v data = Ok data' ->
  exists z, v = JInt z /\
            data' = if 0 <? z then Dict.set key (VInt z) data else data.
Proof.
  intros Hk. unfold sanitize_item. rewrite Hk.
  destruct (integer_field v) as [kept|e] eqn:E; [|discriminate].
  destruct (integer_field_inv _ _ E) as [z [-> ->]].
  cbn. intros [= <-]. exists z. split; [reflexivity|]. now destruct (0 <? z).
Qed.

(** the text that the sanitizer stores for a string field *)
Lemma sanitize_item_str (key : string) (v : json) (data data' : row) :
  str_in key integer_fields = false ->
  sanitize_item self key v data = Ok data' ->
  exists s, v = JStr s /\ data' = Dict.set key (VStr (field_text key s)) data.
Proof.
  intros Hk. unfold sanitize_item, field_text. rewrite Hk.
  destruct v; try discriminate. cbn [py_strip bindR].
  destruct (String.eqb key "gender") eqn:Eg.
  - apply String.eqb_eq in Eg. subst key. cbn.
    unfold normalized_gender.
    destruct (str_in (upper_singular (PyStr.strip s)) (genders self)); [|discriminate].
    cbn. intros [= <-]. now exists s.
  - cbn [bindR]. destruct (String.eqb key "brand") eqn:Eb.
    + destruct (str_in (PyStr.upper (PyStr.strip s)) (brands self)); [|discriminate].
      cbn. intros [= <-]. now exists s.
    + cbn. intros [= <-]. now exists s.
Qed.

Lemma sanitize_item_get_other (key k : string) (v : json) (data data' : row) :
  sanitize_item self key v data = Ok data' ->
  k <> key -> Dict.get k data' = Dict.get k data.
Proof.
  intros H Hne. destruct (str_in key integer_fields) eqn:Hk.
  - destruct (sanitize_item_int _ _ _ _ Hk H) as [z [_ ->]].
    destruct (0 <? z); [now apply get_set_other | reflexivity].
  - destruct (sanitize_item_str _ _ _ _ Hk H) as [s [_ ->]].
    now apply get_set_other.
Qed.

Lemma sanitize_items_cons (key : string) (v : json) items (data out : row) :
  sanitize_items self ((key, v) :: items) data = Ok out ->
  exists data', sanitize_item self key v data = Ok data' /\
                sanitize_items self items data' = Ok out.
Proof.
  cbn [sanitize_items]. destruct (sanitize_item self key v data) as [data'|e];
    [|discriminate].
  cbn. intros H. now exists data'.
Qed.

Lemma sanitize_items_get_notin (k : string) items (data out : row) :
  sanitize_items self items data = Ok out ->
  ~ In k (Dict.keys items) -> Dict.get k out = Dict.get k data.
Proof.
  revert data. induction items as [|[key v] items IH]; intros data H Hn.
  - cbn in H. now injection H as <-.
  - destruct (sanitize_items_cons _ _ _ _ _ H) as [data' [H1 H2]].
    cbn in Hn. rewrite (IH _ H2) by tauto.
    apply (sanitize_item_get_other _ _ _ _ _ H1). intros ->. tauto.
Qed.

(** An integer field of the output: the positive value of the record, or
    nothing. *)
Lemma sanitize_items_int_field (k : string) items (data out : row) :
  NoDup (Dict.keys items) ->
  sanitize_items self items data = Ok out ->
  str_in k integer_fields = true ->
  Dict.get k data = None ->
  Dict.get k out = match Dict.get k items with
                   | Some (JInt z) => if 0 <? z then Some (VInt z) else None
                   | _ => None
                   end.
Proof.
  revert data. induction items as [|[key v] items IH]; intros data Hnd H Hk H0.
  - cbn in H. injection H as <-. exact H0.
  - destruct (sanitize_items_cons _ _ _ _ _ H) as [data' [H1 H2]].
    cbn in Hnd. inversion Hnd as [|? ? Hn Hd]; subst.
    cbn [Dict.get]. destruct (String.eqb key k) eqn:E.
    + apply String.eqb_eq in E. subst key.
      rewrite (sanitize_items_get_notin _ _ _ _ H2 Hn).
      destruct (sanitize_item_int _ _ _ _ Hk H1) as [z [-> ->]].
      destruct (0 <? z); [apply get_set_same | exact H0].
    + apply String.eqb_neq in E.
      apply (IH data'); try assumption.
      rewrite (sanitize_item_get_other _ _ _ _ _ H1) by congruence. exact H0.
Qed.

(** A string field of the output. *)
Lemma sanitize_items_str_field (k : string) (v : json) items (data out : row) :
  NoDup (Dict.keys items) ->
  sanitize_items self items data = Ok out ->
  str_in k integer_fields = false ->
  Dict.get k items = Some v ->
  exists s, v = JStr s /\ Dict.get k out = Some (VStr (field_text k s)).
Proof.
  revert data. induction items as [|[key v'] items IH]; intros data Hnd H Hk Hv.
  - discriminate.
  - destruct (sanitize_items_cons _ _ _ _ _ H) as [data' [H1 H2]].
    cbn in Hnd. inversion Hnd as [|? ? Hn Hd]; subst.
    cbn [Dict.get] in Hv. destruct (String.eqb key k) eqn:E.
    + apply String.eqb_eq in E. subst key. injection Hv as ->.
      rewrite (sanitize_items_get_notin _ _ _ _ H2 Hn).
      destruct (sanitize_item_str _ _ _ _ Hk H1) as [s [-> ->]].
      exists s. split; [reflexivity | apply get_set_same].
    + now apply (IH data').
Qed.

End Sanitizer.

(** ** The monad *)

Section MonadFacts.
Context {A B : Type}.

Lemma bind_ok_inv (m : M A) (k : A -> M B) (w w' : world) (b : B) :
  bind m k w = (Ok b, w') ->
  exists a w1, m w = (Ok a, w1) /\ k a w1 = (Ok b, w').
Proof.
  unfold bind. destruct (m w) as [[a|e] w1]; [|discriminate].
  intros H. now exists a, w1.
Qed.

Lemma bind_raise_inv (m : M A) (k : A -> M B) (w w' : world) (e : exn) :
  bind m k w = (Raise e, w') ->
  m w = (Raise e, w') \/
  exists a w1, m w = (Ok a, w1) /\ k a w1 = (Raise e, w').
Proof.
  unfold bind. destruct (m w) as [[a|e'] w1]; intros H.
  - right. now exists a, w1.
  - left. now injection H as <- <-.
Qed.

Lemma lift_inv (r r' : result A) (w w' : world) :
  lift r w = (r', w') -> r' = r /\ w' = w.
Proof. unfold lift. now intros [= <- <-]. Qed.
End MonadFacts.

Section Steps.
Variable R : world -> world -> Prop.
Hypothesis R_refl : forall w, R w w.
Hypothesis R_trans : forall w1 w2 w3, R w1 w2 -> R w2 w3 -> R w1 w3.

Lemma steps_ret {A : Type} (a : A) : steps R (ret a).
Proof. intros w. apply R_refl. Qed.

Lemma steps_lift {A : Type} (r : result A) : steps R (lift r).
Proof. intros w. apply R_refl. Qed.

Lemma steps_bind {A B : Type} (m : M A) (k : A -> M B) :
  steps R m -> (forall a, steps R (k a)) -> steps R (bind m k).
Proof.
  intros Hm Hk w. unfold bind. specialize (Hm w).
  destruct (m w) as [[a|e] w1]; cbn [snd] in *; [|exact Hm].
  eapply R_trans; [exact Hm | apply Hk].
Qed.

Lemma steps_try {A : Type} (m : M A) (h : exn -> M A) :
  steps R m -> (forall e, steps R (h e)) -> steps R (try_except m h).
Proof.
  intros Hm Hh w. unfold try_except. specialize (Hm w).
  destruct (m w) as [[a|e] w1]; cbn [snd] in *; [exact Hm|].
  eapply R_trans; [exact Hm | apply Hh].
Qed.

Lemma steps_for_each {A : Type} (l : list A) (body : A -> M unit) :
  (forall x, steps R (body x)) -> steps R (for_each l body).
Proof.
  intros Hb. induction l as [|x l IH]; cbn [for_each].
  - apply steps_ret.
  - apply steps_bind; [apply Hb | intros _; exact IH].
Qed.

Lemma steps_if {A : Type} (b : bool) (m1 m2 : M A) :
  steps R m1 -> steps R m2 -> steps R (if b then m1 else m2).
Proof. now destruct b. Qed.
End Steps.

(** A loop that raises has run a prefix of its list and failed on the next
    item. *)
Lemma for_each_raise_inv {A : Type} (l : list A) (body : A -> M unit)
    (w w' : world) (e : exn) :
  for_each l body w = (Raise e, w') ->
  exists done bad rest w1,
    l = (done ++ bad :: rest)%list /\
    for_each done body w = (Ok tt, w1) /\
    body bad w1 = (Raise e, w').
Proof.
  revert w. induction l as [|x l IH]; intros w; cbn [for_each].
  - discriminate.
  - intros H. apply bind_raise_inv in H. destruct H as [H|(a & w1 & Hx & H)].
    + exists [], x, l, w. now repeat split.
    + destruct (IH _ H) as (done & bad & rest & w2 & -> & Hd & Hb).
      exists (x :: done), bad, rest, w2. repeat split; [|exact Hb].
      cbn [for_each]. unfold bind. rewrite Hx. destruct a. exact Hd.
Qed.

Lemma for_each_app {A : Type} (l1 l2 : list A) (body : A -> M unit) (w : world) :
  for_each (l1 ++ l2) body w =
  match for_each l1 body w with
  | (Ok _, w1) => for_each l2 body w1
  | (Raise e, w1) => (Raise e, w1)
  end.
Proof.
  revert w. induction l1 as [|x l1 IH]; intros w; cbn [for_each app].
  - reflexivity.
  - unfold bind. destruct (body x w) as [[[]|e] w1]; [apply IH | reflexivity].
Qed.

(** ** One record *)

Section InsertSneaker.

Import Database.

Lemma grows_refl (w : world) : grows w w.
Proof.
  repeat split; try (exists []; now rewrite app_nil_r).
Qed.

Lemma grows_trans (w1 w2 w3 : world) : grows w1 w2 -> grows w2 w3 -> grows w1 w3.
Proof.
  intros (D1 & C1 & [r1 S1] & [i1 I1] & [l1 L1]) (D2 & C2 & [r2 S2] & [i2 I2] & [l2 L2]).
  repeat split; try congruence.
  - exists (r1 ++ r2)%list. now rewrite S2, S1, app_assoc.
  - exists (i1 ++ i2)%list. now rewrite I2, I1, app_assoc.
  - exists (l1 ++ l2)%list. now rewrite L2, L1, app_assoc.
Qed.

Lemma only_logs_refl (w : world) : only_logs w w.
Proof. repeat split. exists []. now rewrite app_nil_r. Qed.

Lemma only_logs_trans (w1 w2 w3 : world) :
  only_logs w1 w2 -> only_logs w2 w3 -> only_logs w1 w3.
Proof.
  intros (A1 & D1 & C1 & [l1 L1]) (A2 & D2 & C2 & [l2 L2]).
  repeat split; try congruence.
  exists (l1 ++ l2)%list. now rewrite L2, L1, app_assoc.
Qed.

Lemma only_logs_grows (w w' : world) : only_logs w w' -> grows w w'.
Proof.
  intros (A & D & C & L). repeat split; try assumption;
    rewrite A; exists []; now rewrite app_nil_r.
Qed.

Lemma steps_weaken {A : Type} (R R' : world -> world -> Prop) (m : M A) :
  (forall w w', R w w' -> R' w w') -> steps R m -> steps R' m.
Proof. intros H Hm w. apply H, Hm. Qed.

Lemma logging_only_logs (lvl : level) (msg : string) :
  steps only_logs (logging lvl msg).
Proof. intros w. cbn. repeat split. now exists [(lvl, msg)]. Qed.

Lemma repair_year_only_logs (data : row) (rd : string) (n : Z) (ry : value) :
  steps only_logs (repair_year data rd n ry).
Proof.
  destruct ry; cbn [repair_year].
  - apply steps_bind; [apply only_logs_trans | |].
    + apply steps_if; [apply logging_only_logs | apply steps_ret, only_logs_refl].
    + intros _. apply steps_ret, only_logs_refl.
  - apply steps_lift, only_logs_refl.
Qed.

Ltac steps_only_logs :=
  repeat first
    [ apply logging_only_logs
    | apply repair_year_only_logs
    | apply steps_lift; apply only_logs_refl
    | apply steps_ret; apply only_logs_refl
    | apply steps_bind; [apply only_logs_trans | | intros ?]
    | apply steps_if ].

Lemma fix_date_only_logs (data : row) :
  steps only_logs (fix_date_and_year_in_sneaker_data data).
Proof.
  unfold fix_date_and_year_in_sneaker_data.
  apply steps_bind; [apply only_logs_trans | |];
    [steps_only_logs|]. intros rd. cbv zeta.
  apply steps_bind; [apply only_logs_trans | |];
    [|intros dy; steps_only_logs].
  apply steps_if; [|steps_only_logs].
  apply steps_bind; [apply only_logs_trans | |];
    [steps_only_logs|]. intros _.
  apply steps_bind; [apply only_logs_trans | |];
    [steps_only_logs|]. intros n.
  destruct (Dict.get "releaseYear" (Dict.remove "releaseDate" data)) as [[[|p|p]|s]|];
    steps_only_logs.
Qed.

Lemma execute_insert_sneakers_grows (data : row) :
  steps grows (execute_insert_sneakers data).
Proof.
  intros w. unfold execute_insert_sneakers.
  destruct (bind_data data); [|apply grows_refl].
  destruct (existsb (same_sku data) (sneakers (live w))); [apply grows_refl|].
  cbn. repeat split.
  - now exists [data].
  - exists []. now rewrite app_nil_r.
  - exists []. now rewrite app_nil_r.
Qed.

Lemma execute_insert_images_grows (sku img : json) (pos : nat) :
  steps grows (execute_insert_images_360 sku pos img).
Proof.
  intros w. unfold execute_insert_images_360.
  destruct (bind_param 1 sku); [|apply grows_refl].
  destruct (bind_param 3 img); [|apply grows_refl].
  cbn. repeat split.
  - exists []. now rewrite app_nil_r.
  - now eexists.
  - exists []. now rewrite app_nil_r.
Qed.

Lemma execute_insert_images_same (sku img : json) (pos : nat) :
  steps same_sneakers (execute_insert_images_360 sku pos img).
Proof.
  intros w. unfold execute_insert_images_360, same_sneakers.
  destruct (bind_param 1 sku); [|reflexivity].
  destruct (bind_param 3 img); reflexivity.
Qed.

Lemma same_sneakers_trans (w1 w2 w3 : world) :
  same_sneakers w1 w2 -> same_sneakers w2 w3 -> same_sneakers w1 w3.
Proof. unfold same_sneakers. congruence. Qed.

Lemma insert_360_images_same (sku images : json) :
  steps same_sneakers (insert_360_images sku images).
Proof.
  assert (Hr : forall w, same_sneakers w w) by reflexivity.
  unfold insert_360_images.
  apply steps_bind; [apply same_sneakers_trans | now apply steps_lift |].
  intros i360. apply steps_if; [|now apply steps_ret].
  apply steps_bind; [apply same_sneakers_trans | now apply steps_lift |].
  intros imgs. generalize 0%nat.
  induction imgs as [|img imgs IH]; intros pos; cbn [insert_images].
  - now apply steps_ret.
  - apply steps_bind; [apply same_sneakers_trans | |].
    + apply execute_insert_images_same.
    + intros _. apply IH.
Qed.

Lemma insert_360_images_grows (sku images : json) :
  steps grows (insert_360_images sku images).
Proof.
  unfold insert_360_images.
  apply steps_bind; [apply grows_trans | apply steps_lift, grows_refl |].
  intros i360. apply steps_if; [|apply steps_ret, grows_refl].
  apply steps_bind; [apply grows_trans | apply steps_lift, grows_refl |].
  intros imgs. generalize 0%nat.
  induction imgs as [|img imgs IH]; intros pos; cbn [insert_images].
  - apply steps_ret, grows_refl.
  - apply steps_bind; [apply grows_trans | |].
    + apply execute_insert_images_grows.
    + intros _. apply IH.
Qed.

Ltac steps_grows :=
  repeat first
    [ apply steps_lift; apply grows_refl
    | apply steps_ret; apply grows_refl
    | apply execute_insert_sneakers_grows
    | apply insert_360_images_grows
    | apply (steps_weaken only_logs grows);
        [apply only_logs_grows | apply fix_date_only_logs]
    | apply steps_bind; [apply grows_trans | | intros ?; cbv zeta] ].

(** A record never removes a row, commits or calls the provider. *)
Lemma insert_sneaker_grows (self : t) (sneaker : json) :
  steps grows (insert_sneaker self sneaker).
Proof. unfold insert_sneaker. steps_grows. Qed.

End InsertSneaker.

Section StoredRow.

Import Database.

Lemma sqlize_keys (prefix : string) (doc : json) (names : list string) (r : row) :
  sqlize prefix doc names = Ok r ->
  incl (Dict.keys r) (map (fun k => prefix ++ "_" ++ k) names).
Proof.
  revert r. induction names as [|k names IH]; intros r; cbn [sqlize].
  - intros [= <-]. apply incl_refl.
  - destruct (py_get doc k) as [v|]; [|discriminate]. cbn [bindR].
    destruct (py_strip v) as [s|]; [|discriminate]. cbn [bindR].
    destruct (sqlize prefix doc names) as [rest|]; [|discriminate]. cbn [bindR].
    intros [= <-]. specialize (IH rest eq_refl).
    destruct (String.eqb s ""); cbn [map].
    + now apply incl_tl.
    + cbn. intros x [<-|Hx]; [now left | right; now apply IH].
Qed.

(** The reconciliation touches the two date keys only. *)
Lemma fix_date_get_other (data data' : row) (w w' : world) (k : string) :
  fix_date_and_year_in_sneaker_data data w = (Ok data', w') ->
  k <> "releaseDate" -> k <> "releaseYear" ->
  Dict.get k data' = Dict.get k data.
Proof.
  intros H Hd Hy.
  assert (Hp : Dict.get k (popped data) = Dict.get k data).
  { unfold popped. now rewrite !get_remove_other. }
  unfold fix_date_and_year_in_sneaker_data in H.
  apply bind_ok_inv in H. destruct H as (rd & w1 & _ & H). cbv zeta in H.
  apply bind_ok_inv in H. destruct H as ([rd' ry'] & w2 & _ & H).
  cbn [fst snd] in H. unfold ret in H. injection H as <- _.
  fold (popped data).
  destruct ry' as [y|]; [destruct (value_truthy (Some y))|];
    destruct (negb (String.eqb rd' ""));
    now rewrite ?get_set_other by assumption.
Qed.

(** A record that is stored: the row is the sanitized and reconciled
    dictionary with the image and link columns added. *)
Lemma insert_sneaker_ok_inv (self : t) (sneaker : json) (w w' : world) :
  insert_sneaker self sneaker w = (Ok tt, w') ->
  exists o data data' w1 im lk,
    sneaker = JObj o /\
    get_basically_sanitized_sneaker_data self (JObj (fields_of o)) = Ok data /\
    fix_date_and_year_in_sneaker_data data w = (Ok data', w1) /\
    incl (Dict.keys im) ["image_original"; "image_small"; "image_thumbnail"] /\
    incl (Dict.keys lk)
         ["link_flightClub"; "link_goat"; "link_stadiumGoods"; "link_stockX"] /\
    sneakers (live w')
    = (sneakers (live w) ++ [Dict.update (Dict.update data' im) lk])%list.
Proof.
  unfold insert_sneaker. intros H.
  apply bind_ok_inv in H. destruct H as ([] & w0 & Ha & H).
  apply lift_inv in Ha. destruct Ha as [Ha ->].
  destruct sneaker as [| | | |o]; try discriminate.
  apply bind_ok_inv in H. destruct H as (p1 & w0 & Hp & H).
  apply lift_inv in Hp. destruct Hp as [Hp ->]. cbv zeta in H.
  cbn [py_pop] in Hp.
  destruct (Dict.get "id" o) as [vid|]; [|discriminate]. injection Hp as ->.
  cbn [snd] in H.
  apply bind_ok_inv in H. destruct H as (sku & w0 & Hs & H).
  apply lift_inv in Hs. destruct Hs as [_ ->].
  apply bind_ok_inv in H. destruct H as (n & w0 & Hs & H).
  apply lift_inv in Hs. destruct Hs as [_ ->].
  apply bind_ok_inv in H. destruct H as ([] & w0 & Hs & H).
  apply lift_inv in Hs. destruct Hs as [_ ->].
  apply bind_ok_inv in H. destruct H as (p2 & w0 & Hp & H).
  apply lift_inv in Hp. destruct Hp as [Hp ->]. cbv zeta in H.
  cbn [py_pop] in Hp.
  destruct (Dict.get "image" (Dict.remove "id" o)) as [images|]; [|discriminate].
  injection Hp as ->. cbn [fst snd] in H.
  apply bind_ok_inv in H. destruct H as (p3 & w0 & Hp & H).
  apply lift_inv in Hp. destruct Hp as [Hp ->]. cbv zeta in H.
  cbn [py_pop] in Hp.
  destruct (Dict.get "links" (Dict.remove "image" (Dict.remove "id" o)))
    as [links|]; [|discriminate].
  injection Hp as ->. cbn [fst snd] in H.
  apply bind_ok_inv in H. destruct H as (data & w0 & Hd & H).
  apply lift_inv in Hd. destruct Hd as [Hd ->].
  apply bind_ok_inv in H. destruct H as (data' & w1 & Hf & H).
  apply bind_ok_inv in H. destruct H as (im & w0 & Hi & H).
  apply lift_inv in Hi. destruct Hi as [Hi ->]. cbv zeta in H.
  apply bind_ok_inv in H. destruct H as (lk & w0 & Hl & H).
  apply lift_inv in Hl. destruct Hl as [Hl ->]. cbv zeta in H.
  apply bind_ok_inv in H. destruct H as ([] & w2 & He & H).
  exists o, data, data', w1, im, lk.
  repeat split; try (symmetry; assumption); try assumption.
  - symmetry in Hi. apply sqlize_keys in Hi. exact Hi.
  - symmetry in Hl. apply sqlize_keys in Hl. exact Hl.
  - pose proof (insert_360_images_same sku images w2) as S.
    rewrite H in S. unfold same_sneakers in S. cbn [snd] in S. rewrite S.
    pose proof (fix_date_only_logs data w) as L. rewrite Hf in L.
    destruct L as (L & _). cbn [snd] in L.
    unfold execute_insert_sneakers in He.
    destruct (bind_data _); [|discriminate].
    destruct (existsb _ _); [discriminate|].
    injection He as <-. cbn. now rewrite L.
Qed.

(** The columns added for images and links leave the other keys alone. *)
Lemma get_stored (data' im lk : row) (k : string) :
  incl (Dict.keys im) ["image_original"; "image_small"; "image_thumbnail"] ->
  incl (Dict.keys lk)
       ["link_flightClub"; "link_goat"; "link_stadiumGoods"; "link_stockX"] ->
  In k sneaker_keys ->
  Dict.get k (Dict.update (Dict.update data' im) lk) = Dict.get k data'.
Proof.
  intros Hi Hl Hk.
  rewrite !get_update_notin; [reflexivity | |].
  - intros Hin. apply Hi in Hin. cbn in Hin, Hk.
    intuition (subst; discriminate).
  - intros Hin. apply Hl in Hin. cbn in Hin, Hk.
    intuition (subst; discriminate).
Qed.

Lemma nodup_fields_of (o : list (string * json)) :
  NoDup (Dict.keys o) -> NoDup (Dict.keys (fields_of o)).
Proof. intros H. unfold fields_of. now repeat apply nodup_remove. Qed.

Lemma get_fields_of (o : list (string * json)) (k : string) :
  k <> "id" -> k <> "image" -> k <> "links" ->
  Dict.get k (fields_of o) = Dict.get k o.
Proof. intros. unfold fields_of. now rewrite !get_remove_other. Qed.

End StoredRow.

(** ** Integer fields *)

(** C7.  The sanitizer keeps [estimatedMarketValue] and [retailPrice] only
    when the value is greater than 0: a positive value is in the sanitized
    dictionary and in the stored row, and for 0 or a negative value the key
    is absent from both. *)
Theorem price_fields_positive_or_absent
    (self : Database.t) (o : list (string * json)) (k : string) (z : Z) :
  NoDup (Dict.keys o) ->
  k = "estimatedMarketValue" \/ k = "retailPrice" ->
  Dict.get k o = Some (JInt z) ->
  (forall data,
      Database.get_basically_sanitized_sneaker_data self (JObj o) = Ok data ->
      Dict.get k data = if 0 <? z then Some (VInt z) else None) /\
  (forall w w',
      Database.insert_sneaker self (JObj o) w = (Ok tt, w') ->
      exists stored,
        sneakers (live w') = (sneakers (live w) ++ [stored])%list /\
        Dict.get k stored = if 0 <? z then Some (VInt z) else None).
Proof.
  intros Hnd Hk Hz.
  assert (Hint : str_in k Database.integer_fields = true)
    by (destruct Hk as [-> | ->]; reflexivity).
  assert (Hsan : forall items data,
             NoDup (Dict.keys items) -> Dict.get k items = Some (JInt z) ->
             Database.get_basically_sanitized_sneaker_data self (JObj items) = Ok data ->
             Dict.get k data = if 0 <? z then Some (VInt z) else None).
  { intros items data Hn Hg H. cbn in H.
    rewrite (sanitize_items_int_field self k items [] data Hn H Hint eq_refl).
    now rewrite Hg. }
  split.
  - intros data H. now apply (Hsan o).
  - intros w w' H.
    destruct (insert_sneaker_ok_inv _ _ _ _ H)
      as (o' & data & data' & w1 & im & lk & Ho & Hs & Hf & Hi & Hl & Hrows).
    injection Ho as <-.
    exists (Dict.update (Dict.update data' im) lk). split; [exact Hrows|].
    rewrite (get_stored _ _ _ _ Hi Hl)
      by (destruct Hk as [-> | ->]; cbn; tauto).
    rewrite (fix_date_get_other _ _ _ _ k Hf)
      by (destruct Hk as [-> | ->]; discriminate).
    apply (Hsan (fields_of o)); [now apply nodup_fields_of | | exact Hs].
    rewrite get_fields_of by (destruct Hk as [-> | ->]; discriminate).
    exact Hz.
Qed.

(** A record with an estimated market value of -5 is stored without that
    key. *)
Lemma price_fields_positive_or_absent_witness :
  let o := Sample.fields (Sample.sneaker "CW2288-111" "nike" "mens" (JInt 2015)
                                         "2015-03-01" (-5) 120) in
  exists stored,
    sneakers (live (snd (Database.insert_sneaker Sample.db (JObj o) Sample.fresh)))
    = [stored] /\
    Dict.get "estimatedMarketValue" stored = None.
Proof.
  intros o.
  assert (Hnd : NoDup (Dict.keys o))
    by (repeat constructor; cbn; intuition discriminate).
  destruct (price_fields_positive_or_absent Sample.db o "estimatedMarketValue" (-5)
              Hnd (or_introl eq_refl) eq_refl) as [_ H].
  apply (H Sample.fresh). vm_compute. reflexivity.
Defined.

(** ** Release date and release year *)

(** What the sanitizer leaves under [releaseYear]: nothing, or a positive
    integer. *)
Lemma sanitized_year_positive (self : Database.t) (o : list (string * json))
    (data : row) :
  NoDup (Dict.keys o) ->
  Database.get_basically_sanitized_sneaker_data self (JObj o) = Ok data ->
  match Dict.get "releaseYear" data with
  | None => True
  | Some (VInt y) => 0 < y
  | Some (VStr _) => False
  end.
Proof.
  intros Hnd H. cbn in H.
  rewrite (sanitize_items_int_field self "releaseYear" o [] data Hnd H eq_refl eq_refl).
  destruct (Dict.get "releaseYear" o) as [[| z | | |]|]; try exact I.
  destruct (0 <? z) eqn:E; [|exact I]. now apply Z.ltb_lt.
Qed.



(** The two records of the specification, through the whole of
    [insert_sneaker]: both are stored, the second with one error logged. *)
Example year_15_and_2014_stored :
  let r15 := Sample.sneaker "CW2288-111" "nike" "mens" (JInt 15) "2015-03-01" 150 120 in
  let r14 := Sample.sneaker "CW2288-111" "nike" "mens" (JInt 2014) "2015-03-01" 150 120 in
  (exists stored w',
      Database.insert_sneaker Sample.db r15 Sample.fresh = (Ok tt, w') /\
      sneakers (live w') = [stored] /\
      Dict.get "releaseYear" stored = Some (VInt 2015) /\ log w' = []) /\
  (exists stored w',
      Database.insert_sneaker Sample.db r14 Sample.fresh = (Ok tt, w') /\
      sneakers (live w') = [stored] /\
      Dict.get "releaseYear" stored = Some (VInt 2014) /\
      log w' = [(ERROR, "CW2288-111 releaseYear (2014) and releaseDate (2015-03-01) do not match!")]).
Proof. split; eexists _, _; vm_compute; repeat split. Qed.

(** C10.  [releaseYear] is one of the integer fields: a zero or negative
    year raises nothing and is left out of the sanitized dictionary, and
    when the date of the record passes the pattern and is not the sentinel
    the reconciliation puts the year of the date in its place. *)
Theorem nonpositive_year_dropped_then_refilled
    (self : Database.t) (o : list (string * json)) (y : Z) :
  NoDup (Dict.keys o) ->
  Dict.get "releaseYear" o = Some (JInt y) ->
  y <= 0 ->
  (forall data, Database.sanitize_item self "releaseYear" (JInt y) data = Ok data) /\
  (forall data,
      Database.get_basically_sanitized_sneaker_data self (JObj o) = Ok data ->
      Dict.get "releaseYear" data = None /\
      forall d w,
        Dict.get "releaseDate" o = Some (JStr d) ->
        PyStr.match_date (PyStr.strip d) = true ->
        PyStr.strip d <> Database.sentinel ->
        exists n data' w',
          Database.year_of (Database.century_fixed (PyStr.strip d)) = Ok n /\
          Database.fix_date_and_year_in_sneaker_data data w = (Ok data', w') /\
          Dict.get "releaseYear" data' = Some (VInt n)).
Proof.
  intros Hnd Hy Hle. split.
  - intros data. cbn. assert (E : (0 <? y) = false) by (apply Z.ltb_ge; lia).
    now rewrite E.
  - intros data H.
    assert (Hnone : Dict.get "releaseYear" data = None).
    { cbn in H.
      rewrite (sanitize_items_int_field self "releaseYear" o [] data Hnd H eq_refl eq_refl).
      rewrite Hy. assert (E : (0 <? y) = false) by (apply Z.ltb_ge; lia).
      now rewrite E. }
    split; [exact Hnone|].
    intros d w Hd Hm Hs.
    cbn in H.
    destruct (sanitize_items_str_field self "releaseDate" _ o [] data Hnd H eq_refl Hd)
      as (s & Es & Hget).
    injection Es as <-. cbn in Hget.
    assert (Hm' : PyStr.match_date (PyStr.strip (PyStr.strip d)) = true)
      by now rewrite strip_idem.
    destruct (match_date_year _ Hm') as [n [Hn Hb]].
    assert (Hs' : String.eqb (PyStr.strip (PyStr.strip d)) Database.sentinel = false)
      by (rewrite strip_idem; now apply String.eqb_neq).
    assert (Hn0 : n <> 0) by lia.
    pose proof (fix_date_valid data w (PyStr.strip d) n Hget Hm' Hs' Hn Hn0) as Hf.
    cbv zeta in Hf. rewrite Hnone in Hf. rewrite strip_idem in Hn.
    eexists n, _, _. split; [exact Hn | split; [exact Hf | apply get_set_same]].
Qed.

(** A record with the year -3 and the date 2015-03-01. *)
Lemma nonpositive_year_dropped_then_refilled_witness :
  let r := Sample.sneaker "CW2288-111" "nike" "mens" (JInt (-3)) "2015-03-01" 150 120 in
  exists data n data' w',
    Database.get_basically_sanitized_sneaker_data Sample.db
      (JObj (fields_of (Sample.fields r))) = Ok data /\
    Dict.get "releaseYear" data = None /\
    Database.year_of (Database.century_fixed (PyStr.strip "2015-03-01")) = Ok n /\
    Database.fix_date_and_year_in_sneaker_data data Sample.fresh = (Ok data', w') /\
    Dict.get "releaseYear" data' = Some (VInt n).
Proof.
  intros r.
  assert (Hnd : NoDup (Dict.keys (fields_of (Sample.fields r))))
    by (repeat constructor; cbn; intuition discriminate).
  destruct (nonpositive_year_dropped_then_refilled Sample.db
              (fields_of (Sample.fields r)) (-3) Hnd eq_refl) as [_ Hall]; [lia|].
  assert (Hs : exists data,
             Database.get_basically_sanitized_sneaker_data Sample.db
               (JObj (fields_of (Sample.fields r))) = Ok data)
    by (vm_compute; eexists; reflexivity).
  destruct Hs as [data Hs].
  destruct (Hall data Hs) as [Hnone Hre].
  destruct (Hre "2015-03-01" Sample.fresh) as (n & data' & w' & Hn & Hf & Hy);
    [reflexivity | reflexivity | discriminate |].
  exists data, n, data', w'. repeat split; assumption.
Defined.

(** C1, as the specification has it, fails on the sentinel: the record with
    [releaseDate] 0001-01-01 is stored with that date (no year is taken from
    it, and the zero year of the record is dropped). *)
Lemma sentinel_date_is_stored :
  let r := Sample.sneaker "CW2288-111" "nike" "mens" (JInt 0) "0001-01-01" 150 120 in
  exists stored w',
    Database.insert_sneaker Sample.db r Sample.fresh = (Ok tt, w') /\
    sneakers (live w') = [stored] /\
    Dict.get "releaseDate" stored = Some (VStr "0001-01-01") /\
    Dict.get "releaseDate" stored <> None /\
    Dict.get "releaseYear" stored = None.
Proof. eexists _, _. vm_compute. repeat split. discriminate. Qed.

(** C1, amended.  A [releaseDate] that passes the pattern and starts with
    00 is rewritten to start with 20.  The sentinel 0001-01-01 skips the
    check of the pattern, the rewriting and the inference of the year, and
    is put back as it is: the output has [releaseDate] 0001-01-01 and, for
    [releaseYear], what the record had when that is truthy and nothing
    otherwise. *)
Theorem date_rewritten_and_sentinel_kept (data : row) (w : world) (d : string) :
  NoDup (Dict.keys data) ->
  Dict.get "releaseDate" data = Some (VStr d) ->
  (forall s, Dict.get "releaseYear" data <> Some (VStr s)) ->
  (PyStr.strip d <> Database.sentinel ->
   PyStr.match_date (PyStr.strip d) = true ->
   PyStr.startswith (PyStr.strip d) "00" = true ->
   exists data' w',
     Database.fix_date_and_year_in_sneaker_data data w = (Ok data', w') /\
     Dict.get "releaseDate" data'
     = Some (VStr ("20" ++ PyStr.slice_from 2 (PyStr.strip d)))) /\
  (PyStr.strip d = Database.sentinel ->
   exists data',
     Database.fix_date_and_year_in_sneaker_data data w = (Ok data', w) /\
     Dict.get "releaseDate" data' = Some (VStr Database.sentinel) /\
     Dict.get "releaseYear" data'
     = if Database.value_truthy (Dict.get "releaseYear" data)
       then Dict.get "releaseYear" data else None).
Proof.
  intros Hnd Hd Hstr. split.
  - intros Hs Hm H00.
    destruct (match_date_year _ Hm) as [n [Hn Hb]].
    apply String.eqb_neq in Hs.
    assert (Hn0 : n <> 0) by lia.
    pose proof (fix_date_valid data w d n Hd Hm Hs Hn Hn0) as H. cbv zeta in H.
    assert (Hc : Database.century_fixed (PyStr.strip d)
                 = "20" ++ PyStr.slice_from 2 (PyStr.strip d))
      by (unfold Database.century_fixed; now rewrite H00).
    rewrite Hc in H.
    destruct (Dict.get "releaseYear" data) as [[y|s]|] eqn:Ey.
    + destruct y as [|p|p]; eexists _, _; (split; [exact H|]);
        try destruct (century_year _ =? 0);
        now rewrite ?get_set_other by discriminate; rewrite get_set_same.
    + now destruct (Hstr s).
    + eexists _, _. split; [exact H|].
      now rewrite get_set_other by discriminate; rewrite get_set_same.
  - intros Hs. eexists. split; [apply (fix_date_sentinel data w d Hd Hs)|].
    cbv zeta.
    assert (Hp : Dict.get "releaseYear"
                   (Dict.set "releaseDate" (VStr Database.sentinel) (popped data))
                 = None).
    { rewrite get_set_other by discriminate. unfold popped.
      apply get_remove_same. now apply nodup_remove. }
    destruct (Dict.get "releaseYear" data) as [y|] eqn:Ey.
    + destruct (Database.value_truthy (Some y)).
      * split; [|apply get_set_same].
        now rewrite get_set_other by discriminate; rewrite get_set_same.
      * split; [apply get_set_same | exact Hp].
    + split; [apply get_set_same | exact Hp].
Qed.

(** The dates 0099-05-01 and 0001-01-01. *)
Lemma date_rewritten_and_sentinel_kept_witness :
  (exists data' w',
      Database.fix_date_and_year_in_sneaker_data
        [("sku", VStr "CW2288-111"); ("releaseDate", VStr "0099-05-01")]
        Sample.fresh = (Ok data', w') /\
      Dict.get "releaseDate" data' = Some (VStr "2099-05-01")) /\
  (exists data',
      Database.fix_date_and_year_in_sneaker_data
        [("sku", VStr "CW2288-111"); ("releaseDate", VStr "0001-01-01")]
        Sample.fresh = (Ok data', Sample.fresh) /\
      Dict.get "releaseDate" data' = Some (VStr "0001-01-01") /\
      Dict.get "releaseYear" data' = None).
Proof.
  split.
  - assert (Hnd : NoDup (Dict.keys [("sku", VStr "CW2288-111");
                                   ("releaseDate", VStr "0099-05-01")]))
      by (repeat constructor; cbn; intuition discriminate).
    destruct (date_rewritten_and_sentinel_kept _ Sample.fresh "0099-05-01" Hnd eq_refl)
      as [H _]; [discriminate|].
    apply H; [discriminate | reflexivity | reflexivity].
  - assert (Hnd : NoDup (Dict.keys [("sku", VStr "CW2288-111");
                                   ("releaseDate", VStr "0001-01-01")]))
      by (repeat constructor; cbn; intuition discriminate).
    destruct (date_rewritten_and_sentinel_kept _ Sample.fresh "0001-01-01" Hnd eq_refl)
      as [_ H]; [discriminate|].
    apply H. reflexivity.
Defined.

(** ** Unknown gender, unknown brand *)

Section Unknown.

Import Database.
Variable self : Database.t.

Lemma get_of_in {V : Type} (k : string) (v : V) (d : list (string * V)) :
  NoDup (Dict.keys d) -> In (k, v) d -> Dict.get k d = Some v.
Proof.
  induction d as [|[k1 v1] d IH]; cbn; [tauto|].
  intros Hnd [E|Hin]; inversion Hnd as [|? ? Hn Hd]; subst.
  - injection E as -> ->. now rewrite String.eqb_refl.
  - destruct (String.eqb k1 k) eqn:E; [|auto].
    apply String.eqb_eq in E. subst. exfalso. apply Hn.
    change k with (fst (k, v)). now apply in_map.
Qed.

Lemma sanitize_item_unknown_gender (g : string) (data : row) :
  str_in (normalized_gender g) (genders self) = false ->
  sanitize_item self "gender" (JStr g) data = Raise unknown_gender.
Proof.
  intros H. unfold sanitize_item. cbn.
  unfold normalized_gender in H. now rewrite H.
Qed.

Lemma sanitize_item_unknown_brand (b : string) (data : row) :
  str_in (PyStr.upper (PyStr.strip b)) (brands self) = false ->
  sanitize_item self "brand" (JStr b) data = Raise unknown_brand.
Proof. intros H. unfold sanitize_item. cbn. now rewrite H. Qed.

(** An item that the loop cannot pass makes the sanitizer raise. *)
Lemma sanitize_items_raise (k : string) (v : json) items :
  In (k, v) items ->
  (forall data, exists e, sanitize_item self k v data = Raise e) ->
  forall data, exists e, sanitize_items self items data = Raise e.
Proof.
  intros Hin Hbad. induction items as [|[k1 v1] items IH]; intros data.
  - destruct Hin.
  - cbn [sanitize_items].
    destruct (sanitize_item self k1 v1 data) as [data'|e] eqn:E.
    + destruct Hin as [Hh|Ht].
      * injection Hh as -> ->. destruct (Hbad data) as [e He]. congruence.
      * cbn [bindR]. now apply IH.
    + now exists e.
Qed.

Lemma sanitize_unknown_raises (o : list (string * json)) :
  unknown_gender_in self o \/ unknown_brand_in self o ->
  exists e, get_basically_sanitized_sneaker_data self (JObj o) = Raise e.
Proof.
  intros [[g [Hg Hn]]|[b [Hb Hn]]]; cbn.
  - apply (sanitize_items_raise "gender" (JStr g)); [now apply get_some_in|].
    intros data. exists unknown_gender. now apply sanitize_item_unknown_gender.
  - apply (sanitize_items_raise "brand" (JStr b)); [now apply get_some_in|].
    intros data. exists unknown_brand. now apply sanitize_item_unknown_brand.
Qed.

(** On typed fields the only errors of an item are the two raised strings,
    each for a value outside its reference list. *)
Lemma sanitize_item_typed_raise (k : string) (v : json) (data : row) (e : exn) :
  match v with
  | JInt _ => str_in k integer_fields
  | JStr _ => negb (str_in k integer_fields)
  | _ => false
  end = true ->
  sanitize_item self k v data = Raise e ->
  (e = unknown_gender /\ k = "gender" /\
   exists g, v = JStr g /\ str_in (normalized_gender g) (genders self) = false) \/
  (e = unknown_brand /\ k = "brand" /\
   exists b, v = JStr b /\ str_in (PyStr.upper (PyStr.strip b)) (brands self) = false).
Proof.
  unfold sanitize_item. destruct v; try discriminate; intros Ht.
  - rewrite Ht. cbn. destruct (0 <? z); discriminate.
  - apply negb_true_iff in Ht. rewrite Ht. cbn [py_strip bindR].
    destruct (String.eqb k "gender") eqn:Eg.
    + apply String.eqb_eq in Eg. subst k. cbn.
      destruct (str_in (upper_singular (PyStr.strip s)) (genders self)) eqn:E;
        [discriminate|].
      cbn. intros [= <-]. left. repeat split. now exists s.
    + cbn [bindR]. destruct (String.eqb k "brand") eqn:Eb; [|discriminate].
      apply String.eqb_eq in Eb. subst k.
      destruct (str_in (PyStr.upper (PyStr.strip s)) (brands self)) eqn:E;
        [discriminate|].
      cbn. intros [= <-]. right. repeat split. now exists s.
Qed.

Lemma sanitize_typed_raise (o : list (string * json)) (e : exn) :
  NoDup (Dict.keys o) ->
  typed_fields o = true ->
  get_basically_sanitized_sneaker_data self (JObj o) = Raise e ->
  (e = unknown_gender /\ unknown_gender_in self o) \/
  (e = unknown_brand /\ unknown_brand_in self o).
Proof.
  intros Hnd Ht H. cbn in H.
  assert (Hitems : exists k v data, In (k, v) o /\
                     match v with
                     | JInt _ => str_in k integer_fields
                     | JStr _ => negb (str_in k integer_fields)
                     | _ => false
                     end = true /\
                     sanitize_item self k v data = Raise e).
  { clear Hnd. revert H. generalize (@nil (string * value)).
    induction o as [|[k1 v1] o IH]; intros data H; [discriminate|].
    cbn in Ht. apply andb_true_iff in Ht. destruct Ht as [Ht1 Ht].
    cbn [sanitize_items] in H.
    destruct (sanitize_item self k1 v1 data) as [data'|e'] eqn:E.
    - cbn [bindR] in H. destruct (IH Ht _ H) as (k & v & d & Hin & Hty & Hr).
      exists k, v, d. repeat split; [now right | exact Hty | exact Hr].
    - injection H as ->. exists k1, v1, data. repeat split; [now left | exact Ht1 | exact E]. }
  destruct Hitems as (k & v & data & Hin & Hty & Hr).
  destruct (sanitize_item_typed_raise _ _ _ _ Hty Hr)
    as [(-> & -> & g & -> & Hg)|(-> & -> & b & -> & Hb)].
  - left. split; [reflexivity|]. exists g. split; [now apply get_of_in | exact Hg].
  - right. split; [reflexivity|]. exists b. split; [now apply get_of_in | exact Hb].
Qed.

(** A record that the sanitizer refuses leaves the world as it was. *)
Lemma insert_sneaker_sanitizer_raises (o : list (string * json)) (e : exn) (w : world) :
  get_basically_sanitized_sneaker_data self (JObj (fields_of o)) = Raise e ->
  exists e', insert_sneaker self (JObj o) w = (Raise e', w).
Proof.
  intros H. unfold insert_sneaker, bind, lift.
  destruct (assert_sneaker_keys (JObj o)); [|now eexists].
  cbn [py_pop]. destruct (Dict.get "id" o); [|now eexists].
  cbn [snd py_get]. destruct (py_len _); [|now eexists].
  destruct (assert _); [|now eexists].
  cbn [py_pop]. destruct (Dict.get "image" _); [|now eexists].
  cbn [fst snd py_pop]. destruct (Dict.get "links" _); [|now eexists].
  cbn [fst snd]. fold (fields_of o). rewrite H. now eexists.
Qed.

End Unknown.

(** C6.  A record of ASCII texts whose normalized gender is outside the
    gender list, or whose upper-cased brand is outside the brand list, is
    refused: the sanitizer raises, [insert_sneaker] raises without touching
    the world, so the record is not stored; and when every field has the
    type of its column, what is raised is the string of the gender check for
    an unknown gender, or the string of the brand check for an unknown
    brand. *)
Theorem unknown_gender_or_brand_rejected
    (self : Database.t) (o : list (string * json)) :
  NoDup (Dict.keys o) ->
  plain (JObj o) = true ->
  unknown_gender_in self o \/ unknown_brand_in self o ->
  (exists e,
      Database.get_basically_sanitized_sneaker_data self (JObj (fields_of o))
      = Raise e /\
      (typed_fields (fields_of o) = true ->
       (e = Database.unknown_gender /\ unknown_gender_in self o) \/
       (e = Database.unknown_brand /\ unknown_brand_in self o))) /\
  (forall w, exists e, Database.insert_sneaker self (JObj o) w = (Raise e, w)).
Proof.
  intros Hnd _ Hbad.
  assert (Hbad' : unknown_gender_in self (fields_of o) \/
                  unknown_brand_in self (fields_of o)).
  { destruct Hbad as [[g [Hg Hn]]|[b [Hb Hn]]]; [left; exists g | right; exists b];
      (split; [|assumption]); now rewrite get_fields_of by discriminate. }
  destruct (sanitize_unknown_raises self _ Hbad') as [e He].
  split.
  - exists e. split; [exact He|]. intros Ht.
    destruct (sanitize_typed_raise self _ e (nodup_fields_of _ Hnd) Ht He)
      as [[-> [g [Hg Hn]]]|[-> [b [Hb Hn]]]]; [left | right];
      (split; [reflexivity|]); [exists g | exists b];
      (split; [|assumption]); now rewrite get_fields_of in * by discriminate.
  - intros w. now apply (insert_sneaker_sanitizer_raises self o e).
Qed.

(** A record of gender ALIENS. *)
Lemma unknown_gender_or_brand_rejected_witness :
  let r := Sample.sneaker "CW2288-111" "nike" "aliens" (JInt 2015) "2015-03-01" 150 120 in
  Database.get_basically_sanitized_sneaker_data Sample.db
    (JObj (fields_of (Sample.fields r))) = Raise Database.unknown_gender /\
  exists e, Database.insert_sneaker Sample.db r Sample.fresh = (Raise e, Sample.fresh).
Proof.
  intros r.
  assert (Hnd : NoDup (Dict.keys (Sample.fields r)))
    by (repeat constructor; cbn; intuition discriminate).
  assert (Hbad : unknown_gender_in Sample.db (Sample.fields r))
    by (exists "aliens"; split; reflexivity).
  destruct (unknown_gender_or_brand_rejected Sample.db (Sample.fields r) Hnd
              eq_refl (or_introl Hbad)) as [[e [He Hty]] Hins].
  split; [|apply Hins].
  destruct (Hty eq_refl) as [[-> _]|[-> [b [Hb Hn]]]]; [exact He|].
  exfalso. injection Hb as <-. discriminate Hn.
Defined.

(** ** The cache key *)

Section CacheKey.

Lemma string_compare_trans (a b c : string) :
  String.compare a b <> Gt -> String.compare b c <> Gt -> String.compare a c <> Gt.
Proof.
  revert b c. induction a as [|x a IH]; intros [|y b] [|z c]; cbn;
    try congruence.
  unfold Ascii.compare.
  destruct (N.compare_spec (N_of_ascii x) (N_of_ascii y)) as [Exy|Lxy|Gxy];
    destruct (N.compare_spec (N_of_ascii y) (N_of_ascii z)) as [Eyz|Lyz|Gyz];
    try congruence; intros H1 H2.
  - rewrite Exy, Eyz, N.compare_refl. now apply (IH b c).
  - rewrite Exy. apply N.compare_lt_iff in Lyz. rewrite Lyz. discriminate.
  - rewrite <- Eyz. apply N.compare_lt_iff in Lxy. rewrite Lxy. discriminate.
  - assert (L : (N_of_ascii x < N_of_ascii z)%N) by (eapply N.lt_trans; eassumption).
    apply N.compare_lt_iff in L. rewrite L. discriminate.
Qed.

Lemma string_leb_trans (a b c : string) :
  String.leb a b = true -> String.leb b c = true -> String.leb a c = true.
Proof.
  unfold String.leb. intros H1 H2.
  assert (H : String.compare a c <> Gt).
  { apply (string_compare_trans a b c).
    - destruct (String.compare a b); congruence.
    - destruct (String.compare b c); congruence. }
  destruct (String.compare a c); congruence.
Qed.

Lemma string_leb_false (a b : string) :
  String.leb a b = false -> String.leb b a = true.
Proof. destruct (String.leb_total a b); congruence. Qed.

(** Two insertions commute, whatever the list. *)
Lemma insert_key_comm (a b : string) (l : list string) :
  Api.insert_key a (Api.insert_key b l) = Api.insert_key b (Api.insert_key a l).
Proof.
  assert (Two : forall t,
             Api.insert_key a t = a :: t -> Api.insert_key b t = b :: t ->
             Api.insert_key a (b :: t) = Api.insert_key b (a :: t)).
  { intros t Ha Hb. cbn. rewrite Ha, Hb.
    destruct (String.leb a b) eqn:Eab, (String.leb b a) eqn:Eba; try reflexivity.
    - now rewrite (String.leb_antisym a b Eab Eba).
    - apply string_leb_false in Eab. congruence. }
  induction l as [|h t IH]; [now apply Two|].
  cbn [Api.insert_key].
  destruct (String.leb b h) eqn:Ebh, (String.leb a h) eqn:Eah.
  - apply Two; cbn; [now rewrite Eah | now rewrite Ebh].
  - cbn [Api.insert_key]. rewrite Ebh.
    destruct (String.leb a b) eqn:Eab.
    + rewrite (string_leb_trans a b h Eab Ebh) in Eah. discriminate.
    + now rewrite Eah.
  - cbn [Api.insert_key]. rewrite Eah.
    destruct (String.leb b a) eqn:Eba.
    + rewrite (string_leb_trans b a h Eba Eah) in Ebh. discriminate.
    + now rewrite Ebh.
  - cbn [Api.insert_key]. now rewrite Eah, Ebh, IH.
Qed.

Lemma sorted_permutation (l l' : list string) :
  Permutation l l' -> Api.sorted l = Api.sorted l'.
Proof.
  unfold Api.sorted. induction 1 as [|x l l' _ IH|x y l|l l' l'' _ IH1 _ IH2]; cbn.
  - reflexivity.
  - now rewrite IH.
  - apply insert_key_comm.
  - congruence.
Qed.

Lemma get_permutation {V : Type} (q q' : list (string * V)) (k : string) :
  NoDup (Dict.keys q) -> Permutation q q' -> Dict.get k q = Dict.get k q'.
Proof.
  intros Hnd Hp. induction Hp as [|[k1 v1] q q' Hp IH|[k1 v1] [k2 v2] q|q q' q'' Hp1 IH1 Hp2 IH2].
  - reflexivity.
  - cbn. cbn in Hnd. inversion Hnd; subst. destruct (String.eqb k1 k); auto.
  - cbn. cbn in Hnd. inversion Hnd as [|? ? Hn _]; subst.
    destruct (String.eqb k1 k) eqn:E1, (String.eqb k2 k) eqn:E2; try reflexivity.
    apply String.eqb_eq in E1, E2. subst. exfalso. apply Hn. now left.
  - rewrite IH1 by assumption. apply IH2.
    eapply Permutation_NoDup; [|exact Hnd].
    unfold Dict.keys. now apply Permutation_map.
Qed.

End CacheKey.

(** C8.  Two query strings with the same keys and values, inserted in any
    order, have the same cache path. *)
Theorem cache_path_order_invariant
    (self : Api.t) (endpoint : string) (q q' : list (string * value)) :
  NoDup (Dict.keys q) ->
  Permutation q q' ->
  Api.cache_path self endpoint q = Api.cache_path self endpoint q'.
Proof.
  intros Hnd Hp. unfold Api.cache_path, Api.fname. do 4 f_equal.
  rewrite (sorted_permutation (Dict.keys q) (Dict.keys q'))
    by (unfold Dict.keys; now apply Permutation_map).
  apply map_ext. intros k. now rewrite (get_permutation q q' k Hnd Hp).
Qed.

(** The parameters limit and page in both orders. *)
Lemma cache_path_order_invariant_witness :
  Api.cache_path Sample.no_api "sneakers" [("limit", VInt 100); ("page", VInt 3)]
  = Api.cache_path Sample.no_api "sneakers" [("page", VInt 3); ("limit", VInt 100)].
Proof.
  apply cache_path_order_invariant.
  - repeat constructor; cbn; intuition discriminate.
  - apply perm_swap.
Defined.

(** The path of the third page of sneakers. *)
Example cache_path_of_page_3 :
  Api.cache_path Sample.no_api "sneakers" [("page", VInt 3); ("limit", VInt 100)]
  = ["/"; "srv"; "_cache"; "sneakers_limit_100_page_3.json"].
Proof. reflexivity. Qed.

(** C3 does not hold on the code: the key is the plain concatenation of the
    endpoint, the keys and the values, so these two calls of the sneakers
    endpoint, with different query strings, share one cache file. *)
Lemma cache_path_collision :
  let q1 := [("brand", VStr "NIKE_colorway_RED"); ("limit", VInt 100); ("page", VInt 0)] in
  let q2 := [("brand", VStr "NIKE"); ("colorway", VStr "RED");
             ("limit", VInt 100); ("page", VInt 0)] in
  q1 <> q2 /\
  Api.cache_path Sample.no_api "sneakers" q1 = Api.cache_path Sample.no_api "sneakers" q2 /\
  Api.cache_path Sample.no_api "sneakers" q1
  = ["/"; "srv"; "_cache"; "sneakers_brand_NIKE_colorway_RED_limit_100_page_0.json"].
Proof. repeat split. discriminate. Qed.

(** ** The quotient of two integers as a float *)

Section FloatFacts.

Import PyFloat.

Lemma up_pos (d : Z) : 0 < up d.
Proof. unfold up. apply Z.pow_pos_nonneg; lia. Qed.

Lemma up_nonneg (d : Z) : 0 <= d -> up d = 2 ^ d.
Proof. intros H. unfold up. now rewrite Z.max_r. Qed.

Lemma up_nonpos (d : Z) : d <= 0 -> up d = 1.
Proof. intros H. unfold up. now rewrite Z.max_l. Qed.

(** the rounded quotient is within a half of the exact one *)
Lemma round_half_even_near (num den : Z) :
  0 < den ->
  - den <= 2 * (round_half_even num den * den - num) <= den.
Proof.
  intros Hd. unfold round_half_even.
  pose proof (Z.div_mod num den ltac:(lia)) as E.
  pose proof (Z.mod_pos_bound num den Hd) as B.
  destruct (Z.ltb_spec (2 * (num mod den)) den).
  - nia.
  - destruct (Z.ltb_spec den (2 * (num mod den))).
    + nia.
    + destruct (Z.even (num / den)); nia.
Qed.

(** the magnitude that [truediv] takes is not above the one of the quotient,
    and stays in the range of the exponents *)
Lemma magnitude_below (x y : Z) :
  0 < x < 2 ^ 53 -> 0 < y < 2 ^ 53 ->
  let d := Z.log2 x - Z.log2 y in
  let magnitude := if y * up d <=? x * up (- d) then d else d - 1 in
  - 53 <= magnitude <= 52 /\ y * up magnitude <= x * up (- magnitude).
Proof.
  intros Hx Hy d magnitude.
  pose proof (Z.log2_spec x ltac:(lia)) as Lx.
  pose proof (Z.log2_spec y ltac:(lia)) as Ly.
  pose proof (Z.log2_nonneg x) as Nx.
  pose proof (Z.log2_nonneg y) as Ny.
  assert (Bx : Z.log2 x < 53) by (apply Z.log2_lt_pow2; lia).
  assert (By : Z.log2 y < 53) by (apply Z.log2_lt_pow2; lia).
  unfold magnitude.
  destruct (Z.leb_spec (y * up d) (x * up (- d))) as [H|H].
  - split; [unfold d; lia | exact H].
  - split; [unfold d; lia|].
    destruct (Z.le_gt_cases 0 (d - 1)) as [Hd|Hd].
    + rewrite (up_nonneg (d - 1)) by lia. rewrite (up_nonpos (- (d - 1))) by lia.
      assert (E : 2 ^ Z.succ (Z.log2 y) * 2 ^ (d - 1) = 2 ^ Z.log2 x).
      { rewrite <- Z.pow_add_r by lia. f_equal. unfold d. lia. }
      assert (0 < 2 ^ (d - 1)) by (apply Z.pow_pos_nonneg; lia).
      nia.
    + rewrite (up_nonpos (d - 1)) by lia. rewrite (up_nonneg (- (d - 1))) by lia.
      assert (E : 2 ^ Z.log2 x * 2 ^ (- (d - 1)) = 2 ^ Z.succ (Z.log2 y)).
      { rewrite <- Z.pow_add_r by lia. f_equal. unfold d. lia. }
      assert (0 < 2 ^ (- (d - 1))) by (apply Z.pow_pos_nonneg; lia).
      nia.
Qed.

(** the mantissa of the quotient of [x] by [y], scaled by [p], lies strictly
    between the scaled integers around the quotient unless [y] divides [x] *)
Lemma mantissa_between (x y p m : Z) :
  0 < x -> 0 < y -> 0 < p -> y < 2 * p ->
  - y <= 2 * (m * y - x * p) <= y ->
  (x mod y = 0 -> m = (x / y) * p) /\
  (x mod y <> 0 -> (x / y) * p < m < (x / y + 1) * p).
Proof.
  intros Hx Hy Hp Hyp Hm.
  pose proof (Z.div_mod x y ltac:(lia)) as E.
  pose proof (Z.mod_pos_bound x y Hy) as B.
  set (c := x / y) in *. set (r := x mod y) in *.
  split.
  - intros Hr. rewrite Hr in E.
    assert (Hc : - y <= 2 * y * (m - c * p) <= y) by nia.
    assert (m - c * p = 0) by nia. lia.
  - intros Hr. assert (1 <= r) by lia. split.
    + assert (2 * c * p * y < 2 * m * y) by nia. nia.
    + assert (2 * m * y < 2 * (c + 1) * p * y) by nia. nia.
Qed.

(** Below [2 ^ 53] the float quotient has the ceiling of the exact one. *)
Lemma truediv_ceil (a b : Z) :
  Z.abs a < 2 ^ 53 -> 0 < b < 2 ^ 53 ->
  exists x, truediv a b = Ok x /\ ceil x = - (- a / b).
Proof.
  intros Ha Hb. unfold truediv.
  assert (Eb : (b =? 0) = false) by (apply Z.eqb_neq; lia). rewrite Eb.
  destruct (Z.eqb_spec a 0) as [->|Hna].
  { exists (mk 0 0). split; [reflexivity|].
    change (ceil (mk 0 0)) with 0. change (- 0) with 0.
    now rewrite Z.div_0_l by lia. }
  cbv zeta. rewrite (Z.abs_eq b) by lia.
  set (x := Z.abs a).
  assert (Hx : 0 < x < 2 ^ 53) by (unfold x; lia).
  destruct (magnitude_below x b Hx Hb) as [Hrange Hlow]. cbv zeta in Hrange, Hlow.
  set (magnitude := if b * up (Z.log2 x - Z.log2 b) <=? x * up (- (Z.log2 x - Z.log2 b))
                    then Z.log2 x - Z.log2 b else Z.log2 x - Z.log2 b - 1) in *.
  set (k := 52 - magnitude).
  assert (Hk : 0 <= k <= 105) by (unfold k; lia).
  replace (Z.max (magnitude - 52) (- 1074)) with (- k) by (unfold k; lia).
  rewrite Z.opp_involutive, (up_nonneg k), (up_nonpos (- k)), Z.mul_1_r by lia.
  set (p := 2 ^ k).
  assert (Hp : 0 < p) by (apply Z.pow_pos_nonneg; lia).
  assert (Hbp : b < 2 * p).
  { destruct (Z.le_gt_cases 0 magnitude) as [Hm|Hm].
    - rewrite (up_nonneg magnitude), (up_nonpos (- magnitude)) in Hlow by lia.
      assert (E : 2 ^ 53 = 2 ^ magnitude * (2 * p)).
      { replace (2 * p) with (2 ^ (k + 1))
          by (unfold p; rewrite Z.pow_add_r by lia; lia).
        rewrite <- Z.pow_add_r by lia. f_equal. unfold k. lia. }
      assert (0 < 2 ^ magnitude) by (apply Z.pow_pos_nonneg; lia).
      nia.
    - rewrite (up_nonpos magnitude), (up_nonneg (- magnitude)) in Hlow by lia.
      assert (E : 2 * p = 2 ^ 53 * 2 ^ (- magnitude)).
      { replace (2 * p) with (2 ^ (k + 1))
          by (unfold p; rewrite Z.pow_add_r by lia; lia).
        rewrite <- Z.pow_add_r by lia. f_equal. unfold k. lia. }
      assert (0 < 2 ^ (- magnitude)) by (apply Z.pow_pos_nonneg; lia).
      nia. }
  pose proof (round_half_even_near (x * p) b ltac:(lia)) as Hnear.
  set (m := round_half_even (x * p) b) in *.
  destruct (mantissa_between x b p m ltac:(lia) ltac:(lia) Hp Hbp Hnear)
    as [Hexact Hbetween].
  pose proof (Z.div_mod x b ltac:(lia)) as Ex.
  pose proof (Z.mod_pos_bound x b ltac:(lia)) as Bx.
  assert (Hm : 0 <= m <= (x / b + 1) * p).
  { destruct (Z.eq_dec (x mod b) 0) as [Hr|Hr].
    - rewrite (Hexact Hr). assert (0 <= x / b) by (apply Z.div_pos; lia). nia.
    - pose proof (Hbetween Hr). assert (0 <= x / b) by (apply Z.div_pos; lia). nia. }
  assert (Hfit : (2 ^ 1024 <=? m * 2 ^ (- k)) = false).
  { apply Z.leb_gt.
    assert (H53 : 2 ^ 53 < 2 ^ 1024) by (apply Z.pow_lt_mono_r; lia).
    destruct (Z.eq_dec k 0) as [Hk0|Hk0].
    - rewrite Hk0. cbn [Z.opp]. rewrite Z.pow_0_r, Z.mul_1_r.
      assert (p = 1) by (unfold p; now rewrite Hk0).
      assert (x / b <= x) by (apply Z.div_le_upper_bound; nia).
      nia.
    - rewrite Z.pow_neg_r by lia. rewrite Z.mul_0_r. lia. }
  rewrite Hfit. eexists. split; [reflexivity|].
  assert (Hceil : forall mt, ceil (mk mt (- k)) = - (- mt / p)).
  { intros mt. unfold ceil. cbn [exponent mantissa].
    destruct (Z.leb_spec 0 (- k)).
    - assert (Hk0 : k = 0) by lia.
      assert (Hp1 : p = 1) by (unfold p; now rewrite Hk0).
      rewrite Hk0, Hp1. cbn [Z.opp]. rewrite Z.pow_0_r, Z.div_1_r. lia.
    - now rewrite Z.opp_involutive. }
  rewrite Hceil.
  destruct (Z.lt_total a 0) as [Hneg|[H0|Hposa]]; [|contradiction|].
  - (* a < 0 *)
    rewrite (Z.sgn_neg a), (Z.sgn_pos b) by lia.
    replace (- (-1 * 1 * m)) with m by lia.
    replace (- a) with x by (unfold x; lia).
    f_equal. symmetry.
    destruct (Z.eq_dec (x mod b) 0) as [Hr|Hr].
    + rewrite (Hexact Hr). now rewrite Z.div_mul by lia.
    + pose proof (Hbetween Hr) as Hb2.
      apply (Z.div_unique m p (x / b) (m - x / b * p)); [lia | nia].
  - (* 0 < a *)
    rewrite (Z.sgn_pos a), (Z.sgn_pos b) by lia.
    replace (1 * 1 * m) with m by lia.
    replace a with x by (unfold x; lia).
    f_equal.
    destruct (Z.eq_dec (x mod b) 0) as [Hr|Hr].
    + rewrite (Hexact Hr).
      replace (- (x / b * p)) with ((- (x / b)) * p) by lia.
      rewrite Z.div_mul by lia.
      apply (Z.div_unique (- x) b (- (x / b)) 0); [lia | nia].
    + pose proof (Hbetween Hr) as Hb2.
      transitivity (- (x / b + 1)).
      * symmetry.
        apply (Z.div_unique (- m) p (- (x / b + 1)) ((x / b + 1) * p - m)); [lia | nia].
      * apply (Z.div_unique (- x) b (- (x / b + 1)) (b - x mod b)); [lia | nia].
Qed.

(** The float quotient of a count that is not positive has a ceiling that is
    not positive. *)
Lemma truediv_nonpos (a b : Z) (x : t) :
  a <= 0 -> 0 < b -> truediv a b = Ok x -> ceil x <= 0.
Proof.
  intros Ha Hb. unfold truediv.
  assert (Eb : (b =? 0) = false) by (apply Z.eqb_neq; lia). rewrite Eb.
  destruct (Z.eqb_spec a 0) as [->|Hna].
  { intros [= <-]. cbn. lia. }
  cbv zeta.
  set (e := Z.max _ (- 1074)).
  set (m := round_half_even _ _).
  destruct (2 ^ 1024 <=? m * 2 ^ e); [discriminate|]. intros [= <-].
  assert (Hm : 0 <= m).
  { unfold m, round_half_even.
    set (num := Z.abs a * up (- e)). set (den := Z.abs b * up e).
    assert (0 <= num) by (unfold num; pose proof (up_pos (- e)); nia).
    assert (0 < den) by (unfold den; pose proof (up_pos e); nia).
    assert (0 <= num / den) by (apply Z.div_pos; lia).
    destruct (2 * (num mod den) <? den); [lia|].
    destruct (den <? 2 * (num mod den)); [lia|].
    destruct (Z.even (num / den)); lia. }
  rewrite (Z.sgn_neg a), (Z.sgn_pos b) by lia.
  unfold ceil. cbn [exponent mantissa].
  destruct (Z.leb_spec 0 e).
  - assert (0 <= 2 ^ e) by (apply Z.pow_nonneg; lia). nia.
  - assert (0 <= - (-1 * 1 * m) / 2 ^ (- e)).
    { apply Z.div_pos; [lia | apply Z.pow_pos_nonneg; lia]. }
    lia.
Qed.

(** With a divisor that is not zero the quotient can only be too large. *)
Lemma truediv_raise (a b : Z) (e : exn) :
  b <> 0 -> truediv a b = Raise e ->
  e = OverflowError "integer division result too large for a float".
Proof.
  intros Hb. unfold truediv.
  assert (Eb : (b =? 0) = false) by (apply Z.eqb_neq; lia). rewrite Eb.
  destruct (a =? 0); [discriminate|]. cbv zeta.
  destruct (2 ^ 1024 <=? _); [|discriminate].
  now intros [= <-].
Qed.

End FloatFacts.

(** ** Pages *)

Section PageLoop.

Import Database.
Variable self : Database.t.

Lemma same_calls_trans (w1 w2 w3 : world) :
  same_calls w1 w2 -> same_calls w2 w3 -> same_calls w1 w3.
Proof. unfold same_calls. congruence. Qed.

Lemma log_grows_refl (w : world) : log_grows w w.
Proof. exists []. now rewrite app_nil_r. Qed.

Lemma log_grows_trans (w1 w2 w3 : world) :
  log_grows w1 w2 -> log_grows w2 w3 -> log_grows w1 w3.
Proof.
  intros [l1 L1] [l2 L2]. exists (l1 ++ l2)%list. now rewrite L2, L1, app_assoc.
Qed.

Lemma records_same_calls (items : list json) :
  steps same_calls (for_each items (insert_sneaker self)).
Proof.
  apply steps_for_each; [reflexivity | apply same_calls_trans |].
  intros x. apply (steps_weaken grows); [|apply insert_sneaker_grows].
  now intros w w' (_ & C & _).
Qed.

Lemma records_grow (items : list json) :
  steps grows (for_each items (insert_sneaker self)).
Proof.
  apply steps_for_each; [apply grows_refl | apply grows_trans |].
  intros x. apply insert_sneaker_grows.
Qed.

(** A page, stored or not, makes exactly one call. *)
Lemma load_sneakers_page_calls (page : Z) (w : world) :
  calls (snd (load_sneakers_page self page w))
  = (calls w ++ [(page_limit self, page)])%list.
Proof.
  unfold load_sneakers_page, bind.
  change (api_sneakers (api self) (page_limit self) page w)
    with (Api.sneakers (api self) (page_limit self) page,
          called self page w).
  destruct (Api.sneakers (api self) (page_limit self) page) as [data|e];
    [|reflexivity].
  unfold lift. destruct (py_getitem data "results") as [results|e]; [|reflexivity].
  destruct (py_iter results) as [items|e]; [|reflexivity].
  pose proof (records_same_calls items (called self page w)) as C.
  unfold same_calls in C.
  destruct (for_each items (insert_sneaker self) (called self page w))
    as [[[]|e] w1]; cbn [snd] in *; exact C.
Qed.

Lemma load_sneakers_page_log (page : Z) :
  steps log_grows (load_sneakers_page self page).
Proof.
  unfold load_sneakers_page.
  apply steps_bind; [apply log_grows_trans | |].
  { intros w. exists []. cbn. now rewrite app_nil_r. }
  intros data.
  apply steps_bind; [apply log_grows_trans | apply steps_lift, log_grows_refl |].
  intros results.
  apply steps_bind; [apply log_grows_trans | apply steps_lift, log_grows_refl |].
  intros items.
  apply steps_bind; [apply log_grows_trans | |].
  - apply (steps_weaken grows); [|apply records_grow].
    now intros w w' (_ & _ & _ & _ & L).
  - intros _ w. exists []. cbn. now rewrite app_nil_r.
Qed.

(** One turn of the loop always returns. *)
Lemma load_page_safely_ok (last page : Z) (w : world) :
  fst (load_page_safely self last page w) = Ok tt.
Proof.
  unfold load_page_safely, bind, logging, try_except.
  destruct (load_sneakers_page self page _) as [[[]|e] w1]; reflexivity.
Qed.


Lemma load_page_safely_log (last page : Z) :
  steps log_grows (load_page_safely self last page).
Proof.
  unfold load_page_safely.
  apply steps_bind; [apply log_grows_trans | |].
  { intros w. cbn. now eexists. }
  intros _. apply steps_try; [apply log_grows_trans | apply load_sneakers_page_log |].
  intros e w. cbn. now eexists.
Qed.

Lemma pages_ok (last : Z) (pages : list Z) (w : world) :
  fst (for_each pages (load_page_safely self last) w) = Ok tt.
Proof.
  revert w. induction pages as [|p pages IH]; intros w; cbn [for_each]; [reflexivity|].
  unfold bind. pose proof (load_page_safely_ok last p w) as H.
  destruct (load_page_safely self last p w) as [[[]|e] w1]; [apply IH | discriminate].
Qed.



End PageLoop.




(** ** Failed pages *)

Section FailedPage.

Import Database.
Variable self : Database.t.

Lemma pages_log (last : Z) (pages : list Z) :
  steps log_grows (for_each pages (load_page_safely self last)).
Proof.
  apply steps_for_each; [apply log_grows_refl | apply log_grows_trans |].
  intros p. apply load_page_safely_log.
Qed.

(** A page that raises: either the records could not be had, or a prefix of
    them was inserted and the next one raised. *)
Lemma load_sneakers_page_raise_inv (page : Z) (w w_e : world) (e : exn) :
  load_sneakers_page self page w = (Raise e, w_e) ->
  grows (called self page w) w_e /\
  ((records_of self page = Raise e /\ w_e = called self page w) \/
   exists done bad rest w1,
     records_of self page = Ok (done ++ bad :: rest)%list /\
     for_each done (insert_sneaker self) (called self page w) = (Ok tt, w1) /\
     insert_sneaker self bad w1 = (Raise e, w_e)).
Proof.
  unfold load_sneakers_page, records_of, bind.
  change (api_sneakers (api self) (page_limit self) page w)
    with (Api.sneakers (api self) (page_limit self) page, called self page w).
  destruct (Api.sneakers (api self) (page_limit self) page) as [data|e1].
  2:{ intros [= -> <-]. split; [apply grows_refl | now left]. }
  unfold lift. cbn [bindR].
  destruct (py_getitem data "results") as [results|e1].
  2:{ intros [= -> <-]. split; [apply grows_refl | now left]. }
  cbn [bindR]. destruct (py_iter results) as [items|e1].
  2:{ intros [= -> <-]. split; [apply grows_refl | now left]. }
  pose proof (records_grow self items (called self page w)) as G.
  destruct (for_each items (insert_sneaker self) (called self page w))
    as [[[]|e1] w1] eqn:E; [discriminate|].
  intros [= -> <-]. split; [exact G|]. right.
  destruct (for_each_raise_inv _ _ _ _ _ E) as (done & bad & rest & w2 & -> & Hd & Hb).
  now exists done, bad, rest, w2.
Qed.

End FailedPage.

(** C2, as the specification has it, fails on the code: page 0 of this
    provider raises on its second record, after the first one was inserted;
    the error is logged and page 1 is loaded, but the row of the first
    record stays in the connection and the commit of page 1 makes it
    durable with the row of page 1. *)
Lemma failed_page_rows_are_stored :
  let self := Sample.database Pages.api_101 in
  let w' := snd (Database.load_sneakers self Sample.fresh) in
  fst (Database.load_sneakers_page self 0 Sample.fresh) = Raise Database.unknown_brand /\
  sneakers (live (snd (Database.load_sneakers_page self 0 Sample.fresh)))
  <> sneakers (live Sample.fresh) /\
  log w' = [(INFO, "Processing page 0 of 1");
            (ERROR, "ERROR page=0 error=exceptions must derive from BaseException");
            (INFO, "Processing page 1 of 1")] /\
  map (Dict.get "sku") (sneakers (durable w')) = [Some (VStr "A1"); Some (VStr "B1")].
Proof. vm_compute. repeat split. discriminate. Qed.

(** C2, amended.  The loop over the pages never raises.  When a page raises,
    the exception is caught at the page, an error with the page number and
    the text of the exception is logged, and the loop goes on with the pages
    that are left.  The page is not rolled back: nothing is committed and no
    row is removed; either the records could not be had and the tables are
    as they were, or the records before the failing one were inserted and
    the failing one raised, the records after it being left out. *)
Theorem failed_page_is_logged_and_skipped
    (self : Database.t) (last_page_num : Z) (w : world) :
  let body := Database.load_page_safely self last_page_num in
  fst (Database.load_sneakers_safely self last_page_num w) = Ok tt /\
  forall pre page post e w_e,
    Database.range (last_page_num + 1) = (pre ++ page :: post)%list ->
    let w_p := add_log INFO (processing_message page last_page_num)
                       (snd (for_each pre body w)) in
    Database.load_sneakers_page self page w_p = (Raise e, w_e) ->
    Database.load_sneakers_safely self last_page_num w
    = for_each post body (add_log ERROR (error_message page e) w_e) /\
    In (ERROR, error_message page e)
       (log (snd (Database.load_sneakers_safely self last_page_num w))) /\
    durable w_e = durable w_p /\
    (exists r, sneakers (live w_e) = (sneakers (live w_p) ++ r)%list) /\
    ((records_of self page = Raise e /\ live w_e = live w_p) \/
     exists done bad rest w1,
       records_of self page = Ok (done ++ bad :: rest)%list /\
       for_each done (Database.insert_sneaker self) (called self page w_p)
       = (Ok tt, w1) /\
       Database.insert_sneaker self bad w1 = (Raise e, w_e)).
Proof.
  intros body. split; [apply pages_ok|].
  intros pre page post e w_e Hrange w_p Hraise.
  assert (Hrun : Database.load_sneakers_safely self last_page_num w
                 = for_each post body (add_log ERROR (error_message page e) w_e)).
  { unfold Database.load_sneakers_safely. rewrite Hrange, for_each_app.
    pose proof (pages_ok self last_page_num pre w) as Hok. fold body in Hok |- *.
    destruct (for_each pre body w) as [[[]|e0] w0]; [|discriminate].
    cbn [for_each]. unfold bind at 1. unfold body at 1.
    unfold Database.load_page_safely, bind, logging, try_except.
    cbn [snd] in w_p. unfold w_p, add_log, processing_message in Hraise.
    rewrite Hraise. reflexivity. }
  destruct (load_sneakers_page_raise_inv self page w_p w_e e Hraise)
    as [(D & _ & S & _ & _) Hcases].
  split; [exact Hrun|]. split; [|split; [|split]].
  - rewrite Hrun.
    destruct (pages_log self last_page_num post
                (add_log ERROR (error_message page e) w_e)) as [l Hl].
    fold body in Hl. rewrite Hl. cbn [add_log log].
    apply in_or_app. left. apply in_or_app. right. now left.
  - exact D.
  - exact S.
  - destruct Hcases as [[Hr ->]|Hcases]; [left | right; exact Hcases].
    split; [exact Hr | reflexivity].
Qed.

(** Page 0 of a provider whose second record has an unknown brand. *)
Lemma failed_page_is_logged_and_skipped_witness :
  let self := Sample.database Pages.api_101 in
  let w_p := add_log INFO (processing_message 0 1) Sample.fresh in
  exists w_e,
    Database.load_sneakers_page self 0 w_p = (Raise Database.unknown_brand, w_e) /\
    In (ERROR, error_message 0 Database.unknown_brand)
       (log (snd (Database.load_sneakers_safely self 1 Sample.fresh))) /\
    durable w_e = durable w_p /\
    exists r, sneakers (live w_e) = (sneakers (live w_p) ++ r)%list.
Proof.
  intros self w_p.
  destruct (failed_page_is_logged_and_skipped self 1 Sample.fresh) as [_ H].
  eexists.
  assert (Hraise : Database.load_sneakers_page self 0 w_p
                   = (Raise Database.unknown_brand,
                      snd (Database.load_sneakers_page self 0 w_p)))
    by (vm_compute; reflexivity).
  split; [exact Hraise|].
  destruct (H [] 0 [1] Database.unknown_brand _ eq_refl Hraise)
    as (_ & Hlog & Hd & Hs & _).
  repeat split; assumption.
Defined.

(** * Further properties *)

(** ** The key check *)

Section KeyCheck.

Import Database.

Lemma same_set_spec (l1 l2 : list string) :
  same_set l1 l2 = true <-> forall k, In k l1 <-> In k l2.
Proof.
  unfold same_set. rewrite andb_true_iff, !forallb_forall. split.
  - intros [H1 H2] k. split; intros H.
    + apply H1 in H. unfold str_in in H. apply existsb_exists in H.
      destruct H as [x [Hx E]]. apply String.eqb_eq in E. now subst.
    + apply H2 in H. unfold str_in in H. apply existsb_exists in H.
      destruct H as [x [Hx E]]. apply String.eqb_eq in E. now subst.
  - intros H. split; intros k Hk; unfold str_in; apply existsb_exists;
      exists k; (split; [now apply H | apply String.eqb_refl]).
Qed.

Lemma get_of_key {V : Type} (k : string) (d : list (string * V)) :
  In k (Dict.keys d) -> exists v, Dict.get k d = Some v.
Proof.
  induction d as [|[k1 v1] d IH]; cbn; [tauto|].
  intros [E|H].
  - subst. rewrite String.eqb_refl. now eexists.
  - destruct (String.eqb k1 k); [now eexists | auto].
Qed.

Lemma key_of_get {V : Type} (k : string) (v : V) (d : list (string * V)) :
  Dict.get k d = Some v -> In k (Dict.keys d).
Proof.
  intros H. apply get_some_in in H. change k with (fst (k, v)).
  now apply in_map.
Qed.

Lemma has_keys_of_assert (o : list (string * json)) :
  assert_sneaker_keys (JObj o) = Ok tt -> has_keys o sneaker_keys.
Proof.
  unfold assert_sneaker_keys. cbn [py_keys bindR].
  destruct (same_set (Dict.keys o) sneaker_keys) eqn:E; [|discriminate].
  intros _. unfold has_keys. now apply (proj1 (same_set_spec _ _)).
Qed.

End KeyCheck.

(** X1.  [assert_sneaker_keys] passes exactly the objects whose keys are the
    fourteen of the catalogue record, whose [image] is an object with the
    keys 360, original, small and thumbnail, and whose [links] is an object
    with the four shop keys; whatever else it is given, it raises an
    [AssertionError] or, for a value that is not an object, an
    [AttributeError], and nothing else. *)
Theorem assert_sneaker_keys_spec (sneaker : json) :
  (Database.assert_sneaker_keys sneaker = Ok tt <->
   exists o image links,
     sneaker = JObj o /\ has_keys o Database.sneaker_keys /\
     Dict.get "image" o = Some (JObj image) /\
     has_keys image Database.image_keys /\
     Dict.get "links" o = Some (JObj links) /\
     has_keys links Database.links_keys) /\
  (forall e, Database.assert_sneaker_keys sneaker = Raise e ->
             e = AssertionError \/ exists m, e = AttributeError m).
Proof.
  unfold Database.assert_sneaker_keys, has_keys.
  destruct sneaker as [| | | |o];
    try (split; [split; [discriminate | now intros (o' & i' & l' & E & _)]
                | intros e [= <-]; right; now eexists]).
  cbn [py_keys bindR].
  destruct (same_set (Dict.keys o) Database.sneaker_keys) eqn:Ek; cbn [assert bindR].
  2:{ split; [split; [discriminate|] | intros e [= <-]; now left].
      intros (o' & i' & l' & Eo & Hk & _). injection Eo as Eo. subst o'.
      apply same_set_spec in Hk. congruence. }
  pose proof (proj1 (same_set_spec _ _) Ek) as Hk.
  destruct (get_of_key "image" o) as [vi Hi]; [apply Hk; cbn; tauto|].
  destruct (get_of_key "links" o) as [vl Hl]; [apply Hk; cbn; tauto|].
  cbn [py_getitem]. rewrite Hi, Hl. cbn [bindR].
  destruct vi as [| | | |io];
    try (split; [split; [discriminate
                       | intros (o' & i' & l' & Eo & _ & Ei & _);
                         injection Eo as Eo; subst o'; congruence]
                | intros e [= <-]; right; now eexists]).
  cbn [py_keys bindR].
  destruct (same_set (Dict.keys io) Database.image_keys) eqn:Eik; cbn [assert bindR].
  2:{ split; [split; [discriminate|] | intros e [= <-]; now left].
      intros (o' & i' & l' & Eo & _ & Ei & Hik & _).
      injection Eo as Eo. subst o'. rewrite Hi in Ei. injection Ei as Ei. subst i'.
      apply same_set_spec in Hik. congruence. }
  destruct vl as [| | | |lo];
    try (split; [split; [discriminate
                       | intros (o' & i' & l' & Eo & _ & _ & _ & El & _);
                         injection Eo as Eo; subst o'; congruence]
                | intros e [= <-]; right; now eexists]).
  cbn [py_keys bindR].
  destruct (same_set (Dict.keys lo) Database.links_keys) eqn:Elk; cbn [assert].
  - split; [|discriminate]. split; [|reflexivity]. intros _.
    exists o, io, lo.
    pose proof (proj1 (same_set_spec _ _) Eik) as Hik.
    pose proof (proj1 (same_set_spec _ _) Elk) as Hlk.
    repeat split; try assumption; try apply Hk; try apply Hik; apply Hlk.
  - split; [split; [discriminate|] | intros e [= <-]; now left].
    intros (o' & i' & l' & Eo & _ & _ & _ & El & Hlk).
    injection Eo as Eo. subst o'. rewrite Hl in El. injection El as El. subst l'.
    apply same_set_spec in Hlk. congruence.
Qed.

(** A record of the catalogue passes the check. *)
Lemma assert_sneaker_keys_spec_witness :
  Database.assert_sneaker_keys
    (Sample.sneaker "CW2288-111" "nike" "mens" (JInt 2015) "2015-03-01" 150 120)
  = Ok tt.
Proof.
  apply (proj1 (assert_sneaker_keys_spec _)).
  eexists _, _, _. split; [reflexivity|].
  repeat split; try reflexivity; cbn; intuition (subst; auto).
Defined.

(** ** Image and link columns *)

Section Flatten.

Import Database.

Lemma sqlize_get (prefix : string) (doc : json) (names : list string) (r : row) :
  NoDup names ->
  sqlize prefix doc names = Ok r ->
  forall k, In k names ->
    exists s, py_get doc k = Ok (JStr s) /\
              Dict.get (prefix ++ "_" ++ k) r
              = if String.eqb (PyStr.strip s) "" then None
                else Some (VStr (PyStr.strip s)).
Proof.
  revert r. induction names as [|n names IH]; intros r Hnd H k Hk; [destruct Hk|].
  pose proof (sqlize_keys prefix doc (n :: names) r H) as Hkeys.
  cbn [sqlize] in H.
  destruct (py_get doc n) as [v|] eqn:Ev; [|discriminate]. cbn [bindR] in H.
  destruct v as [| |s| |]; try discriminate. cbn [py_strip bindR] in H.
  destruct (sqlize prefix doc names) as [rest|] eqn:Er; [|discriminate].
  cbn [bindR] in H. injection H as <-.
  inversion Hnd as [|? ? Hn Hd]; subst.
  assert (Hrest : Dict.get (prefix ++ "_" ++ n) rest = None).
  { apply get_none_notin. intros Hin.
    apply (sqlize_keys prefix doc names rest Er) in Hin.
    apply in_map_iff in Hin. destruct Hin as [x [Ex Hx]].
    apply append_cancel_l in Ex. apply (append_cancel_l "_") in Ex.
    subst. contradiction. }
  destruct Hk as [<-|Hk].
  - exists s. split; [exact Ev|].
    destruct (String.eqb (PyStr.strip s) ""); [exact Hrest|].
    cbn [Dict.get]. now rewrite String.eqb_refl.
  - destruct (IH rest Hd eq_refl k Hk) as [s' [Es' Hg]].
    exists s'. split; [exact Es'|]. rewrite <- Hg.
    destruct (String.eqb (PyStr.strip s) ""); [reflexivity|].
    cbn [Dict.get].
    match goal with
    | |- (if String.eqb ?a ?b then _ else _) = _ => destruct (String.eqb a b) eqn:E
    end; [|reflexivity].
    apply String.eqb_eq in E. apply append_cancel_l in E.
    apply (append_cancel_l "_") in E. subst. contradiction.
Qed.

Lemma sqlize_raise (prefix : string) (doc : json) (names : list string) (e : exn) :
  sqlize prefix doc names = Raise e ->
  exists m, e = AttributeError m.
Proof.
  induction names as [|n names IH]; cbn [sqlize]; [discriminate|].
  destruct (py_get doc n) as [v|e1] eqn:Ev.
  - cbn [bindR]. destruct v; cbn [py_strip bindR];
      try (intros [= <-]; now eexists).
    destruct (sqlize prefix doc names); cbn [bindR]; [discriminate|].
    intros [= <-]. now apply IH.
  - destruct doc; cbn in Ev; try discriminate; injection Ev as <-;
      intros [= <-]; now eexists.
Qed.

Lemma sqlize_ok (prefix : string) (o : list (string * json)) (names : list string) :
  (forall k, In k names -> exists s, Dict.get k o = Some (JStr s)) ->
  exists r, sqlize prefix (JObj o) names = Ok r.
Proof.
  induction names as [|n names IH]; intros H; cbn [sqlize]; [now eexists|].
  destruct (H n (or_introl eq_refl)) as [s Hs].
  cbn [py_get]. rewrite Hs. cbn [or_null bindR py_strip].
  destruct IH as [rest ->]; [intros k Hk; apply H; now right|].
  cbn [bindR]. now eexists.
Qed.

End Flatten.

(** X2.  The image columns and the link columns of a row hold the trimmed
    texts of the [image] and [links] documents, here documents of ASCII
    texts: a text that is empty after trimming gives no column at all, any
    other text gives the column [image_<size>] or [link_<shop>] with the
    trimmed text; the [360] list gives no column. *)
Theorem flattened_columns (images links : json) :
  plain images = true ->
  plain links = true ->
  (forall r, Database.sqlize_sneakers_images_fields images = Ok r ->
     incl (Dict.keys r) ["image_original"; "image_small"; "image_thumbnail"] /\
     forall k, In k ["original"; "small"; "thumbnail"] ->
       exists s, py_get images k = Ok (JStr s) /\
                 Dict.get ("image_" ++ k) r
                 = if String.eqb (PyStr.strip s) "" then None
                   else Some (VStr (PyStr.strip s))) /\
  (forall r, Database.sqlize_sneakers_links_fields links = Ok r ->
     incl (Dict.keys r)
          ["link_flightClub"; "link_goat"; "link_stadiumGoods"; "link_stockX"] /\
     forall k, In k ["flightClub"; "goat"; "stadiumGoods"; "stockX"] ->
       exists s, py_get links k = Ok (JStr s) /\
                 Dict.get ("link_" ++ k) r
                 = if String.eqb (PyStr.strip s) "" then None
                   else Some (VStr (PyStr.strip s))).
Proof.
  assert (Hi : NoDup ["original"; "small"; "thumbnail"])
    by (repeat constructor; cbn; intuition discriminate).
  assert (Hl : NoDup ["flightClub"; "goat"; "stadiumGoods"; "stockX"])
    by (repeat constructor; cbn; intuition discriminate).
  intros _ _.
  split; intros r H; (split; [exact (sqlize_keys _ _ _ _ H)|]); intros k Hk.
  - exact (sqlize_get "image" images _ r Hi H k Hk).
  - exact (sqlize_get "link" links _ r Hl H k Hk).
Qed.

(** The two documents of the sample record: one image and one link are
    kept, the empty ones are left out. *)
Lemma flattened_columns_witness :
  let images := JObj [("360", JArr []); ("original", JStr " https://img/o.png ");
                      ("small", JStr "  "); ("thumbnail", JStr "")] in
  exists r,
    Database.sqlize_sneakers_images_fields images = Ok r /\
    Dict.get "image_original" r = Some (VStr "https://img/o.png") /\
    Dict.get "image_small" r = None.
Proof.
  intros images.
  assert (H : exists r, Database.sqlize_sneakers_images_fields images = Ok r)
    by (vm_compute; eexists; reflexivity).
  destruct H as [r H]. exists r. split; [exact H|].
  destruct (flattened_columns images JNull eq_refl eq_refl) as [Hi _].
  destruct (Hi r H) as [_ Hget].
  split.
  - destruct (Hget "original" (or_introl eq_refl)) as [s [Es Hs]].
    injection Es as <-. exact Hs.
  - destruct (Hget "small" (or_intror (or_introl eq_refl))) as [s [Es Hs]].
    injection Es as <-. exact Hs.
Defined.

(** X3.  The two flattening functions return whenever the three sizes, or
    the four shops, hold texts; they raise only an [AttributeError], which
    is what a value that is not a text (a null, a number, a missing key)
    gives when it is trimmed. *)
Theorem flattening_fails_on_non_text (images links : json) :
  (forall e, Database.sqlize_sneakers_images_fields images = Raise e ->
             exists m, e = AttributeError m) /\
  (forall e, Database.sqlize_sneakers_links_fields links = Raise e ->
             exists m, e = AttributeError m) /\
  (forall o,
      images = JObj o ->
      (forall k, In k ["original"; "small"; "thumbnail"] ->
                 exists s, Dict.get k o = Some (JStr s)) ->
      exists r, Database.sqlize_sneakers_images_fields images = Ok r) /\
  (forall o,
      links = JObj o ->
      (forall k, In k ["flightClub"; "goat"; "stadiumGoods"; "stockX"] ->
                 exists s, Dict.get k o = Some (JStr s)) ->
      exists r, Database.sqlize_sneakers_links_fields links = Ok r).
Proof.
  repeat split.
  - intros e. apply sqlize_raise.
  - intros e. apply sqlize_raise.
  - intros o -> H. now apply sqlize_ok.
  - intros o -> H. now apply sqlize_ok.
Qed.

(** A null link makes the flattening raise. *)
Lemma flattening_fails_on_non_text_witness :
  exists m,
    Database.sqlize_sneakers_links_fields
      (JObj [("flightClub", JStr ""); ("goat", JNull);
             ("stadiumGoods", JStr ""); ("stockX", JStr "")])
    = Raise (AttributeError m).
Proof.
  destruct (flattening_fails_on_non_text JNull
              (JObj [("flightClub", JStr ""); ("goat", JNull);
                     ("stadiumGoods", JStr ""); ("stockX", JStr "")]))
    as (_ & H & _).
  destruct (H (AttributeError "'NoneType' object has no attribute 'strip'") eq_refl)
    as [m Hm].
  exists m. rewrite <- Hm. reflexivity.
Defined.

(** ** The rows of one record *)

Section Rows.

Import Database.

Lemma add_images_nil (w : world) : add_images [] w = w.
Proof.
  destruct w as [[sn im] d l c]. unfold add_images. cbn.
  now rewrite app_nil_r.
Qed.

Lemma insert_images_ok (s : string) (imgs : list json) (vals : list sqlval)
    (pos : nat) (w : world) :
  Forall2 (fun img v => bind_param 3 img = Ok v) imgs vals ->
  insert_images (JStr s) pos imgs w
  = (Ok tt, add_images (image_rows (SqlText s) pos vals) w).
Proof.
  intros H. revert pos w.
  induction H as [|img v imgs vals Hv _ IH]; intros pos w; cbn [insert_images image_rows].
  - unfold ret. now rewrite add_images_nil.
  - unfold bind, execute_insert_images_360. cbn [bind_param]. rewrite Hv.
    rewrite IH. f_equal. unfold add_images. cbn. now rewrite <- app_assoc.
Qed.

Lemma insert_images_ok_inv (s : string) (imgs : list json) (pos : nat)
    (w w' : world) :
  insert_images (JStr s) pos imgs w = (Ok tt, w') ->
  exists vals,
    Forall2 (fun img v => bind_param 3 img = Ok v) imgs vals /\
    w' = add_images (image_rows (SqlText s) pos vals) w.
Proof.
  revert pos w. induction imgs as [|img imgs IH]; intros pos w; cbn [insert_images].
  - intros [= <-]. exists []. split; [constructor | now rewrite add_images_nil].
  - intros H. apply bind_ok_inv in H. destruct H as ([] & w1 & He & H).
    unfold execute_insert_images_360 in He. cbn [bind_param] in He.
    destruct (bind_param 3 img) as [v|] eqn:Ev; [|discriminate].
    injection He as <-.
    destruct (IH _ _ H) as [vals [Hv ->]].
    exists (v :: vals). split; [now constructor|].
    cbn [image_rows]. unfold add_images. cbn. now rewrite <- app_assoc.
Qed.

Lemma image_rows_positions (sku : sqlval) (pos : nat) (vals : list sqlval) :
  map (fun r => snd (fst r)) (image_rows sku pos vals) = seq pos (List.length vals).
Proof.
  revert pos. induction vals as [|v vals IH]; intros pos; cbn; [reflexivity|].
  now rewrite IH.
Qed.


Lemma image_rows_values (sku : sqlval) (pos : nat) (vals : list sqlval) :
  map snd (image_rows sku pos vals) = vals.
Proof.
  revert pos. induction vals as [|v vals IH]; intros pos; cbn; [reflexivity|].
  now rewrite IH.
Qed.

End Rows.

(** X4.  [insert_360_images] adds one row to [images_360] for every item of
    the [360] list, in the order of the list, with positions 0, 1, 2, ...
    and the sku it was given; it touches nothing else, and for an empty or
    null list it does nothing at all. *)
Theorem insert_360_images_rows (s : string) (images : json) (w : world) :
  (forall imgs vals,
      py_getitem images "360" = Ok (JArr imgs) ->
      Forall2 (fun img v => bind_param 3 img = Ok v) imgs vals ->
      let rows := image_rows (SqlText s) 0 vals in
      Database.insert_360_images (JStr s) images w = (Ok tt, add_images rows w) /\
      map (fun r => snd (fst r)) rows = seq 0 (List.length imgs) /\
      map snd rows = vals) /\
  (py_getitem images "360" = Ok JNull \/ py_getitem images "360" = Ok (JArr []) ->
   Database.insert_360_images (JStr s) images w = (Ok tt, w)).
Proof.
  split.
  - intros imgs vals H360 Hv rows. split; [|split].
    + unfold Database.insert_360_images, bind, lift. rewrite H360.
      destruct imgs as [|img imgs].
      * inversion Hv; subst. cbn. unfold ret. now rewrite add_images_nil.
      * cbn [truthy py_iter]. now apply insert_images_ok.
    + unfold rows. rewrite image_rows_positions.
      now rewrite (Forall2_length Hv).
    + apply image_rows_values.
  - intros [H|H]; unfold Database.insert_360_images, bind, lift; now rewrite H.
Qed.

(** Two pictures: the rows have positions 0 and 1. *)
Lemma insert_360_images_rows_witness :
  let images := JObj [("360", JArr [JStr "https://img/0.png"; JStr "https://img/1.png"]);
                      ("original", JStr ""); ("small", JStr ""); ("thumbnail", JStr "")] in
  images_360 (live (snd (Database.insert_360_images (JStr "CW2288-111") images Sample.fresh)))
  = [(SqlText "CW2288-111", 0%nat, SqlText "https://img/0.png");
     (SqlText "CW2288-111", 1%nat, SqlText "https://img/1.png")].
Proof.
  intros images.
  destruct (insert_360_images_rows "CW2288-111" images Sample.fresh) as [H _].
  destruct (H [JStr "https://img/0.png"; JStr "https://img/1.png"]
              [SqlText "https://img/0.png"; SqlText "https://img/1.png"] eq_refl)
    as [Hrun _]; [repeat constructor|].
  rewrite Hrun. reflexivity.
Defined.

(** ** What a stored row looks like *)

Section StoredShape.

Import Database.

Lemma keys_remove_neq {V : Type} (k x : string) (d : list (string * V)) :
  NoDup (Dict.keys d) -> In k (Dict.keys (Dict.remove x d)) ->
  In k (Dict.keys d) /\ k <> x.
Proof.
  induction d as [|[k1 v1] d IH]; cbn; [tauto|].
  intros Hnd. inversion Hnd as [|? ? Hn Hd]; subst.
  destruct (String.eqb k1 x) eqn:E.
  - apply String.eqb_eq in E. subst. intros H. split; [now right|].
    intros ->. contradiction.
  - cbn. intros [<-|H].
    + split; [now left|]. apply String.eqb_neq in E. exact E.
    + destruct (IH Hd H). split; [now right | assumption].
Qed.

Lemma keys_set_incl {V : Type} (k : string) (v : V) (d : list (string * V)) :
  incl (Dict.keys (Dict.set k v d)) (k :: Dict.keys d).
Proof.
  rewrite keys_set. destruct (existsb (String.eqb k) (Dict.keys d)).
  - now apply incl_tl, incl_refl.
  - intros x Hx. apply in_app_or in Hx. cbn in *. tauto.
Qed.

Lemma keys_update_incl {V : Type} (d e : list (string * V)) :
  incl (Dict.keys (Dict.update d e)) (Dict.keys d ++ Dict.keys e).
Proof.
  unfold Dict.update. revert d.
  induction e as [|[k v] e IH]; intros d; cbn.
  - rewrite app_nil_r. apply incl_refl.
  - intros x Hx. apply IH in Hx. apply in_app_or in Hx. destruct Hx as [Hx|Hx].
    + apply keys_set_incl in Hx. cbn in Hx. apply in_or_app.
      destruct Hx as [<-|Hx]; [right; now left | now left].
    + apply in_or_app. right. now right.
Qed.

Lemma nodup_update {V : Type} (d e : list (string * V)) :
  NoDup (Dict.keys d) -> NoDup (Dict.keys (Dict.update d e)).
Proof.
  unfold Dict.update. revert d.
  induction e as [|[k v] e IH]; intros d H; cbn; [exact H|].
  apply IH. now apply nodup_set.
Qed.

Lemma sanitize_items_keys (self : t) items (data out : row) :
  sanitize_items self items data = Ok out ->
  NoDup (Dict.keys data) ->
  NoDup (Dict.keys out) /\
  incl (Dict.keys out) (Dict.keys data ++ Dict.keys items).
Proof.
  revert data. induction items as [|[key v] items IH]; intros data H Hd.
  - cbn in H. injection H as <-. split; [exact Hd|].
    rewrite app_nil_r. apply incl_refl.
  - destruct (sanitize_items_cons _ _ _ _ _ _ H) as [data' [H1 H2]].
    assert (Hstep : NoDup (Dict.keys data') /\
                    incl (Dict.keys data') (key :: Dict.keys data)).
    { destruct (str_in key integer_fields) eqn:Hk.
      - destruct (sanitize_item_int _ _ _ _ _ Hk H1) as [z [_ ->]].
        destruct (0 <? z).
        + split; [now apply nodup_set | apply keys_set_incl].
        + split; [exact Hd | now apply incl_tl, incl_refl].
      - destruct (sanitize_item_str _ _ _ _ _ Hk H1) as [s [_ ->]].
        split; [now apply nodup_set | apply keys_set_incl]. }
    destruct Hstep as [Hd' Hi'].
    destruct (IH _ H2 Hd') as [Hn Hi]. split; [exact Hn|].
    intros x Hx. apply Hi in Hx. apply in_app_or in Hx. apply in_or_app.
    destruct Hx as [Hx|Hx].
    + apply Hi' in Hx. destruct Hx as [<-|Hx]; [right; now left | now left].
    + right. now right.
Qed.

(** the dictionary that the reconciliation returns, from the date and the
    year that it has settled on *)
Lemma fix_date_shape (data data' : row) (w w' : world) :
  fix_date_and_year_in_sneaker_data data w = (Ok data', w') ->
  exists rd ry, data' = rebuilt data rd ry.
Proof.
  intros H. unfold fix_date_and_year_in_sneaker_data in H.
  apply bind_ok_inv in H. destruct H as (rd & w1 & _ & H). cbv zeta in H.
  apply bind_ok_inv in H. destruct H as ([rd' ry'] & w2 & _ & H).
  cbn [fst snd] in H. unfold ret in H. injection H as <- _.
  exists rd', ry'. unfold rebuilt. fold (popped data).
  destruct ry' as [y|]; reflexivity.
Qed.

Lemma rebuilt_keys (data : row) (rd : string) (ry : option value) :
  NoDup (Dict.keys data) ->
  NoDup (Dict.keys (rebuilt data rd ry)) /\
  incl (Dict.keys (rebuilt data rd ry))
       ("releaseYear" :: "releaseDate" :: Dict.keys data).
Proof.
  intros Hd.
  assert (Hp : NoDup (Dict.keys (popped data)))
    by (unfold popped; now repeat apply nodup_remove).
  assert (Hi : incl (Dict.keys (popped data)) (Dict.keys data)).
  { unfold popped. intros x Hx. now repeat apply keys_remove_incl in Hx. }
  set (dated := if negb (String.eqb rd "")
                then Dict.set "releaseDate" (VStr rd) (popped data)
                else popped data).
  assert (Hdated : NoDup (Dict.keys dated) /\
                   incl (Dict.keys dated) ("releaseDate" :: Dict.keys data)).
  { unfold dated. destruct (negb (String.eqb rd "")).
    - split; [now apply nodup_set|].
      intros x Hx. apply keys_set_incl in Hx. destruct Hx as [<-|Hx];
        [now left | right; now apply Hi].
    - split; [exact Hp | now apply incl_tl]. }
  destruct Hdated as [Hn Hin]. unfold rebuilt. fold dated.
  destruct ry as [y|]; [destruct (value_truthy (Some y))|].
  - split; [now apply nodup_set|].
    intros x Hx. apply keys_set_incl in Hx. destruct Hx as [<-|Hx];
      [now left | right; now apply Hin].
  - split; [exact Hn | now apply incl_tl].
  - split; [exact Hn | now apply incl_tl].
Qed.

End StoredShape.

Section StoredRecord.

Import Database.

Lemma insert_360_images_ok_inv (s : string) (images : json) (w w' : world) :
  insert_360_images (JStr s) images w = (Ok tt, w') ->
  exists vals, w' = add_images (image_rows (SqlText s) 0 vals) w.
Proof.
  unfold insert_360_images. intros H.
  apply bind_ok_inv in H. destruct H as (i360 & w0 & Hi & H).
  apply lift_inv in Hi. destruct Hi as [_ ->].
  destruct (truthy i360).
  - apply bind_ok_inv in H. destruct H as (imgs & w0 & Hi & H).
    apply lift_inv in Hi. destruct Hi as [_ ->].
    destruct (insert_images_ok_inv _ _ _ _ _ H) as [vals [_ ->]]. now exists vals.
  - injection H as <-. exists []. now rewrite add_images_nil.
Qed.

(** Every step of a record that is stored. *)
Lemma insert_sneaker_ok_steps (self : t) (sneaker : json) (w w' : world) :
  insert_sneaker self sneaker w = (Ok tt, w') ->
  exists o sku images links data data' w1 im lk w2,
    sneaker = JObj o /\
    assert_sneaker_keys (JObj o) = Ok tt /\
    sku = or_null (Dict.get "sku" o) /\
    (exists n, py_len sku = Ok n /\ 0 < n) /\
    Dict.get "image" o = Some images /\
    Dict.get "links" o = Some links /\
    get_basically_sanitized_sneaker_data self (JObj (fields_of o)) = Ok data /\
    fix_date_and_year_in_sneaker_data data w = (Ok data', w1) /\
    sqlize_sneakers_images_fields images = Ok im /\
    sqlize_sneakers_links_fields links = Ok lk /\
    execute_insert_sneakers (Dict.update (Dict.update data' im) lk) w1 = (Ok tt, w2) /\
    insert_360_images sku images w2 = (Ok tt, w').
Proof.
  unfold insert_sneaker. intros H.
  apply bind_ok_inv in H. destruct H as ([] & w0 & Ha & H).
  apply lift_inv in Ha. destruct Ha as [Ha ->].
  destruct sneaker as [| | | |o]; try discriminate.
  apply bind_ok_inv in H. destruct H as (p1 & w0 & Hp & H).
  apply lift_inv in Hp. destruct Hp as [Hp ->]. cbv zeta in H.
  cbn [py_pop] in Hp.
  destruct (Dict.get "id" o) as [vid|]; [|discriminate]. injection Hp as ->.
  cbn [snd] in H.
  apply bind_ok_inv in H. destruct H as (sku & w0 & Hs & H).
  apply lift_inv in Hs. destruct Hs as [Hs ->]. cbn [py_get] in Hs.
  injection Hs as Hs. rewrite get_remove_other in Hs by discriminate.
  apply bind_ok_inv in H. destruct H as (n & w0 & Hn & H).
  apply lift_inv in Hn. destruct Hn as [Hn ->].
  apply bind_ok_inv in H. destruct H as ([] & w0 & Hpos & H).
  apply lift_inv in Hpos. destruct Hpos as [Hpos ->].
  apply bind_ok_inv in H. destruct H as (p2 & w0 & Hp & H).
  apply lift_inv in Hp. destruct Hp as [Hp ->]. cbv zeta in H.
  cbn [py_pop] in Hp.
  destruct (Dict.get "image" (Dict.remove "id" o)) as [images|] eqn:Ei; [|discriminate].
  injection Hp as ->. cbn [fst snd] in H.
  rewrite get_remove_other in Ei by discriminate.
  apply bind_ok_inv in H. destruct H as (p3 & w0 & Hp & H).
  apply lift_inv in Hp. destruct Hp as [Hp ->]. cbv zeta in H.
  cbn [py_pop] in Hp.
  destruct (Dict.get "links" (Dict.remove "image" (Dict.remove "id" o)))
    as [links|] eqn:El; [|discriminate].
  injection Hp as ->. cbn [fst snd] in H.
  rewrite !get_remove_other in El by discriminate.
  apply bind_ok_inv in H. destruct H as (data & w0 & Hd & H).
  apply lift_inv in Hd. destruct Hd as [Hd ->].
  apply bind_ok_inv in H. destruct H as (data' & w1 & Hf & H).
  apply bind_ok_inv in H. destruct H as (im & w0 & Hi & H).
  apply lift_inv in Hi. destruct Hi as [Hi ->]. cbv zeta in H.
  apply bind_ok_inv in H. destruct H as (lk & w0 & Hl & H).
  apply lift_inv in Hl. destruct Hl as [Hl ->]. cbv zeta in H.
  apply bind_ok_inv in H. destruct H as ([] & w2 & He & H).
  exists o, sku, images, links, data, data', w1, im, lk, w2.
  repeat split; try (symmetry; assumption); try assumption.
  exists n. split; [now symmetry|].
  unfold assert in Hpos. destruct (0 <? n) eqn:E; [|discriminate].
  now apply Z.ltb_lt.
Qed.

Lemma insert_ok_prepared (self : t) (o : list (string * json)) (w w' : world) :
  insert_sneaker self (JObj o) w = (Ok tt, w') ->
  exists stored w1,
    prepared self o w stored w1 /\
    sneakers (live w') = (sneakers (live w) ++ [stored])%list.
Proof.
  intros H.
  destruct (insert_sneaker_ok_steps _ _ _ _ H)
    as (o' & sku & images & links & data & data' & w1 & im & lk & w2
        & Ho & Ha & _ & _ & Hgi & Hgl & Hs & Hf & Hsi & Hsl & He & H360).
  injection Ho as <-.
  exists (Dict.update (Dict.update data' im) lk), w1. split.
  - exists data, data', im, lk.
    repeat split; try assumption;
      [exact (sqlize_keys _ _ _ _ Hsi) | exact (sqlize_keys _ _ _ _ Hsl)
      | now exists images | now exists links].
  - pose proof (insert_360_images_same sku images w2) as S.
    rewrite H360 in S. unfold same_sneakers in S. cbn [snd] in S. rewrite S.
    pose proof (fix_date_only_logs data w) as L. rewrite Hf in L.
    destruct L as (L & _). cbn [snd] in L.
    unfold execute_insert_sneakers in He.
    destruct (bind_data _); [|discriminate].
    destruct (existsb _ _); [discriminate|].
    injection He as <-. cbn. now rewrite L.
Qed.

End StoredRecord.


Section PreparedColumns.

Import Database.

Lemma prepared_columns (self : t) (o : list (string * json)) (w w1 : world)
    (stored : row) :
  NoDup (Dict.keys o) ->
  prepared self o w stored w1 ->
  NoDup (Dict.keys stored) /\ incl (Dict.keys stored) columns.
Proof.
  intros Hnd (data & data' & im & lk & Ha & Hs & Hf & Hi & Hl & _ & _ & ->).
  pose proof (has_keys_of_assert o Ha) as Hk.
  cbn in Hs.
  destruct (sanitize_items_keys self _ [] data Hs (NoDup_nil _)) as [Hdn Hdi].
  destruct (fix_date_shape _ _ _ _ Hf) as (rd & ry & ->).
  destruct (rebuilt_keys data rd ry Hdn) as [Hrn Hri].
  split; [now repeat apply nodup_update|].
  intros k Hin.
  apply keys_update_incl in Hin. apply in_app_or in Hin.
  destruct Hin as [Hin|Hin]; [|apply Hl in Hin; cbn in Hin |- *; tauto].
  apply keys_update_incl in Hin. apply in_app_or in Hin.
  destruct Hin as [Hin|Hin]; [|apply Hi in Hin; cbn in Hin |- *; tauto].
  apply Hri in Hin.
  destruct Hin as [<-|[<-|Hin]]; [cbn; tauto | cbn; tauto |].
  apply Hdi in Hin. cbn [app] in Hin. unfold fields_of in Hin.
  apply keys_remove_neq in Hin; [|now repeat apply nodup_remove].
  destruct Hin as [Hin N1].
  apply keys_remove_neq in Hin; [|now apply nodup_remove].
  destruct Hin as [Hin N2].
  apply keys_remove_neq in Hin; [|exact Hnd].
  destruct Hin as [Hin N3].
  apply Hk in Hin. cbn in Hin |- *. intuition congruence.
Qed.

End PreparedColumns.

(** X5.  The row of a stored record names only columns of the table and
    names none twice: its keys are among the eleven plain fields of the
    record and the seven image and link columns, and never [id], [image] or
    [links]. *)
Theorem stored_row_columns
    (self : Database.t) (o : list (string * json)) (w w' : world) :
  NoDup (Dict.keys o) ->
  Database.insert_sneaker self (JObj o) w = (Ok tt, w') ->
  exists stored,
    sneakers (live w') = (sneakers (live w) ++ [stored])%list /\
    NoDup (Dict.keys stored) /\
    incl (Dict.keys stored) columns.
Proof.
  intros Hnd H.
  destruct (insert_ok_prepared self o w w' H) as (stored & w1 & Hp & Hrows).
  exists stored. split; [exact Hrows|]. now apply (prepared_columns self o w w1).
Qed.

(** The sample record: twelve columns. *)
Lemma stored_row_columns_witness :
  let r := Sample.sneaker "CW2288-111" "nike" "mens" (JInt 2015) "2015-03-01" 150 120 in
  exists stored,
    sneakers (live (snd (Database.insert_sneaker Sample.db r Sample.fresh))) = [stored] /\
    NoDup (Dict.keys stored) /\ incl (Dict.keys stored) columns.
Proof.
  intros r.
  assert (Hnd : NoDup (Dict.keys (Sample.fields r)))
    by (repeat constructor; cbn; intuition discriminate).
  apply (stored_row_columns Sample.db (Sample.fields r) Sample.fresh _ Hnd).
  vm_compute. reflexivity.
Defined.

Section TextColumns.

Import Database.

Lemma upper_singular_no_plural (v : string) :
  PyStr.endswith (upper_singular v) "MENS" = false.
Proof.
  unfold upper_singular. cbv zeta.
  destruct (PyStr.endswith (PyStr.upper v) "MENS") eqn:E; [|exact E].
  destruct (endswith_inv _ _ E) as [u Hu]. rewrite Hu.
  unfold PyStr.rstrip. rewrite rstrip_append by discriminate.
  change (PyStr.rstrip_with (fun c => PyStr.mem_char c "S") "MENS") with "MEN".
  destruct (PyStr.endswith (u ++ "MEN") "MENS") eqn:E'; [|reflexivity].
  exfalso. destruct (endswith_inv _ _ E') as [u' Hu'].
  assert (Hx : PyStr.rstrip "S" (u ++ "MEN") = PyStr.rstrip "S" (u' ++ "MENS"))
    by now rewrite Hu'.
  unfold PyStr.rstrip in Hx.
  rewrite !rstrip_append in Hx by discriminate.
  cbn in Hx. rewrite Hx in Hu'. apply append_cancel_l in Hu'. discriminate.
Qed.

(** The text columns of the dictionary handed to the INSERT. *)
Lemma prepared_text (self : t) (o : list (string * json)) (w w1 : world)
    (stored : row) :
  NoDup (Dict.keys o) ->
  prepared self o w stored w1 ->
  forall k, In k text_fields ->
    exists s, Dict.get k o = Some (JStr s) /\
              Dict.get k stored = Some (VStr (field_text k s)).
Proof.
  intros Hnd (data & data' & im & lk & Ha & Hs & Hf & Hi & Hl & _ & _ & ->) k Hin.
  pose proof (has_keys_of_assert o Ha) as Hk.
  assert (Hkey : In k sneaker_keys) by (cbn in Hin |- *; intuition (subst; auto)).
  assert (Hne : k <> "id" /\ k <> "image" /\ k <> "links" /\
                k <> "releaseDate" /\ k <> "releaseYear" /\
                str_in k integer_fields = false)
    by (cbn in Hin; intuition (subst; (discriminate || reflexivity))).
  destruct Hne as (N1 & N2 & N3 & N4 & N5 & Nint).
  destruct (get_of_key k o) as [v Hv]; [now apply Hk|].
  assert (Hv' : Dict.get k (fields_of o) = Some v) by now rewrite get_fields_of.
  cbn in Hs.
  destruct (sanitize_items_str_field self k v _ [] data (nodup_fields_of _ Hnd)
              Hs Nint Hv') as (s & -> & Hget).
  exists s. split; [exact Hv|].
  rewrite (get_stored _ _ _ _ Hi Hl Hkey).
  now rewrite (fix_date_get_other _ _ _ _ k Hf N4 N5).
Qed.

(** The brand and the gender of the dictionary handed to the INSERT. *)
Lemma prepared_known (self : t) (o : list (string * json)) (w w1 : world)
    (stored : row) :
  NoDup (Dict.keys o) ->
  prepared self o w stored w1 ->
  exists b g,
    Dict.get "brand" stored = Some (VStr b) /\
    In b (brands self) /\ PyStr.upper b = b /\
    Dict.get "gender" stored = Some (VStr g) /\
    In g (genders self) /\ PyStr.endswith g "MENS" = false.
Proof.
  intros Hnd Hp.
  pose proof (prepared_text self o w w1 stored Hnd Hp) as Hget.
  destruct (Hget "brand") as (b & Hb & Hsb); [cbn; tauto|].
  destruct (Hget "gender") as (g & Hg & Hsg); [cbn; tauto|].
  destruct Hp as (data & data' & im & lk & Ha & Hs & _).
  assert (Hknown : ~ (unknown_gender_in self (fields_of o) \/
                      unknown_brand_in self (fields_of o))).
  { intros Hbad. destruct (sanitize_unknown_raises self _ Hbad) as [e He].
    congruence. }
  exists (PyStr.upper (PyStr.strip b)), (normalized_gender g).
  split; [exact Hsb|]. split; [|split; [|split; [exact Hsg|split]]].
  - destruct (str_in (PyStr.upper (PyStr.strip b)) (brands self)) eqn:E.
    + unfold str_in in E. apply existsb_exists in E. destruct E as [x [Hx E]].
      apply String.eqb_eq in E. now subst.
    + exfalso. apply Hknown. right. exists b.
      split; [now rewrite get_fields_of by discriminate | exact E].
  - apply upper_idem.
  - destruct (str_in (normalized_gender g) (genders self)) eqn:E.
    + unfold str_in in E. apply existsb_exists in E. destruct E as [x [Hx E]].
      apply String.eqb_eq in E. now subst.
    + exfalso. apply Hknown. left. exists g.
      split; [now rewrite get_fields_of by discriminate | exact E].
  - apply upper_singular_no_plural.
Qed.

(** The text columns of a stored record. *)
Lemma stored_text (self : t) (o : list (string * json)) (w w' : world) :
  NoDup (Dict.keys o) ->
  insert_sneaker self (JObj o) w = (Ok tt, w') ->
  exists stored,
    sneakers (live w') = (sneakers (live w) ++ [stored])%list /\
    forall k, In k text_fields ->
      exists s, Dict.get k o = Some (JStr s) /\
                Dict.get k stored = Some (VStr (field_text k s)).
Proof.
  intros Hnd H.
  destruct (insert_ok_prepared self o w w' H) as (stored & w1 & Hp & Hrows).
  exists stored. split; [exact Hrows|]. now apply (prepared_text self o w w1).
Qed.

End TextColumns.

(** X6.  The row stored for a record of ASCII texts has the seven text
    columns brand, gender, story, colorway, silhouette, sku and name, each
    with the trimmed text of the record (upper case for the brand, the
    normalized form for the gender); an empty text is stored as an empty
    text, unlike an empty image or link, which gives no column. *)
Theorem stored_text_columns
    (self : Database.t) (o : list (string * json)) (w w' : world) :
  NoDup (Dict.keys o) ->
  plain (JObj o) = true ->
  Database.insert_sneaker self (JObj o) w = (Ok tt, w') ->
  exists stored,
    sneakers (live w') = (sneakers (live w) ++ [stored])%list /\
    forall k, In k text_fields ->
      exists s, Dict.get k o = Some (JStr s) /\
                Dict.get k stored = Some (VStr (field_text k s)).
Proof. intros Hnd _. now apply stored_text. Qed.

(** The empty story of the sample record is stored as an empty text. *)
Lemma stored_text_columns_witness :
  let r := Sample.sneaker "CW2288-111" "nike" "mens" (JInt 2015) "2015-03-01" 150 120 in
  exists stored,
    sneakers (live (snd (Database.insert_sneaker Sample.db r Sample.fresh))) = [stored] /\
    Dict.get "story" stored = Some (VStr "") /\
    Dict.get "colorway" stored = Some (VStr "Black/White").
Proof.
  intros r.
  assert (Hnd : NoDup (Dict.keys (Sample.fields r)))
    by (repeat constructor; cbn; intuition discriminate).
  destruct (stored_text_columns Sample.db (Sample.fields r) Sample.fresh
              (snd (Database.insert_sneaker Sample.db r Sample.fresh)) Hnd eq_refl)
    as (stored & Hrows & Hget); [vm_compute; reflexivity|].
  exists stored. split; [exact Hrows|]. split.
  - destruct (Hget "story") as (s & Es & Hs); [cbn; tauto|].
    injection Es as <-. exact Hs.
  - destruct (Hget "colorway") as (s & Es & Hs); [cbn; tauto|].
    injection Es as <-. exact Hs.
Defined.

(** X7.  Every stored row has a brand of the brand list and a gender of the
    gender list: the brand is in upper case and the gender never ends in
    MENS, so a record can only be stored under the singular MEN or WOMEN. *)
Theorem stored_brand_and_gender_known
    (self : Database.t) (o : list (string * json)) (w w' : world) :
  NoDup (Dict.keys o) ->
  Database.insert_sneaker self (JObj o) w = (Ok tt, w') ->
  exists stored b g,
    sneakers (live w') = (sneakers (live w) ++ [stored])%list /\
    Dict.get "brand" stored = Some (VStr b) /\
    In b (Database.brands self) /\ PyStr.upper b = b /\
    Dict.get "gender" stored = Some (VStr g) /\
    In g (Database.genders self) /\ PyStr.endswith g "MENS" = false.
Proof.
  intros Hnd H.
  destruct (insert_ok_prepared self o w w' H) as (stored & w1 & Hp & Hrows).
  destruct (prepared_known self o w w1 stored Hnd Hp) as (b & g & Hk).
  exists stored, b, g. split; [exact Hrows | exact Hk].
Qed.

(** The sample record is stored as NIKE, MEN. *)
Lemma stored_brand_and_gender_known_witness :
  let r := Sample.sneaker "CW2288-111" "nike" "mens" (JInt 2015) "2015-03-01" 150 120 in
  exists stored b g,
    sneakers (live (snd (Database.insert_sneaker Sample.db r Sample.fresh))) = [stored] /\
    Dict.get "brand" stored = Some (VStr b) /\ In b ["ADIDAS"; "NIKE"] /\
    Dict.get "gender" stored = Some (VStr g) /\ In g ["CHILD"; "MEN"; "WOMEN"].
Proof.
  intros r.
  assert (Hnd : NoDup (Dict.keys (Sample.fields r)))
    by (repeat constructor; cbn; intuition discriminate).
  destruct (stored_brand_and_gender_known Sample.db (Sample.fields r) Sample.fresh
              (snd (Database.insert_sneaker Sample.db r Sample.fresh)) Hnd)
    as (stored & b & g & Hrows & Hb & Hbin & _ & Hg & Hgin & _);
    [vm_compute; reflexivity|].
  exists stored, b, g. repeat split; assumption.
Defined.

(** ** More on dates and years *)

Section DateCases.

Import Database.

Lemma century_fixed_valid (rd : string) :
  PyStr.match_date rd = true ->
  PyStr.match_date (century_fixed rd) = true /\
  PyStr.startswith (century_fixed rd) "00" = false.
Proof.
  intros H. unfold century_fixed.
  destruct (PyStr.startswith rd "00") eqn:E; [|now split].
  destruct rd as [|y1 [|y2 [|y3 [|y4 [|h1 [|m1 [|m2 [|h2 [|d1 [|d2 tl]]]]]]]]]];
    try discriminate.
  unfold PyStr.startswith in E. cbn [String.prefix] in E.
  destruct (ascii_dec "0" y1) as [<-|]; [|discriminate].
  destruct (ascii_dec "0" y2) as [<-|]; [|discriminate].
  cbn [PyStr.slice_from append]. split; [|reflexivity].
  cbn [PyStr.match_date] in H |- *.
  do 10 (apply andb_true_iff in H; destruct H as [H ?]).
  clear E.
  repeat match goal with
         | Hc : _ = true |- _ => rewrite Hc; clear Hc
         end.
  reflexivity.
Qed.

Lemma fix_date_blank (data : row) (w : world) :
  Dict.get "releaseDate" data = None \/
  (exists d, Dict.get "releaseDate" data = Some (VStr d) /\ PyStr.strip d = "") ->
  fix_date_and_year_in_sneaker_data data w
  = (Ok (rebuilt data "" (Dict.get "releaseYear" data)), w).
Proof.
  intros H. unfold fix_date_and_year_in_sneaker_data, bind, lift, rebuilt.
  destruct H as [H|[d [H Hs]]]; rewrite H; [|rewrite Hs]; cbn;
    rewrite get_year_popped; now destruct (Dict.get "releaseYear" data).
Qed.

Lemma fix_date_sentinel_rebuilt (data : row) (w : world) (d : string) :
  Dict.get "releaseDate" data = Some (VStr d) ->
  PyStr.strip d = sentinel ->
  fix_date_and_year_in_sneaker_data data w
  = (Ok (rebuilt data sentinel (Dict.get "releaseYear" data)), w).
Proof.
  intros Hd Hs. rewrite (fix_date_sentinel data w d Hd Hs). unfold rebuilt.
  cbn. now destruct (Dict.get "releaseYear" data).
Qed.

Lemma fix_date_invalid (data : row) (w : world) (d : string) :
  Dict.get "releaseDate" data = Some (VStr d) ->
  PyStr.strip d <> "" ->
  PyStr.strip d <> sentinel ->
  PyStr.match_date (PyStr.strip d) = false ->
  fix_date_and_year_in_sneaker_data data w = (Raise AssertionError, w).
Proof.
  intros Hd He Hs Hm. unfold fix_date_and_year_in_sneaker_data, bind, lift.
  rewrite Hd. apply String.eqb_neq in He, Hs. rewrite He, Hs, Hm. reflexivity.
Qed.

Lemma get_rebuilt_date (data : row) (rd : string) (ry : option value) :
  NoDup (Dict.keys data) ->
  Dict.get "releaseDate" (rebuilt data rd ry)
  = if String.eqb rd "" then None else Some (VStr rd).
Proof.
  intros Hnd.
  assert (Hp : Dict.get "releaseDate" (popped data) = None).
  { unfold popped. rewrite get_remove_other by discriminate.
    now apply get_remove_same. }
  unfold rebuilt.
  destruct ry as [y|]; [destruct (value_truthy (Some y))|];
    rewrite ?get_set_other by discriminate;
    destruct (String.eqb rd ""); cbn [negb]; now rewrite ?get_set_same.
Qed.

Lemma get_rebuilt_year (data : row) (rd : string) (ry : option value) :
  NoDup (Dict.keys data) ->
  Dict.get "releaseYear" (rebuilt data rd ry)
  = if value_truthy ry then ry else None.
Proof.
  intros Hnd.
  assert (Hp : Dict.get "releaseYear" (popped data) = None).
  { unfold popped. apply get_remove_same. now apply nodup_remove. }
  assert (Hdated : Dict.get "releaseYear"
                     (if negb (String.eqb rd "")
                      then Dict.set "releaseDate" (VStr rd) (popped data)
                      else popped data) = None).
  { destruct (negb (String.eqb rd ""));
      now rewrite ?get_set_other by discriminate. }
  unfold rebuilt.
  destruct ry as [y|]; [|exact Hdated].
  destruct (value_truthy (Some y)); [apply get_set_same | exact Hdated].
Qed.

Lemma get_rebuilt_other (data : row) (rd : string) (ry : option value) (k : string) :
  k <> "releaseDate" -> k <> "releaseYear" ->
  Dict.get k (rebuilt data rd ry) = Dict.get k data.
Proof.
  intros Nd Ny.
  assert (Hp : Dict.get k (popped data) = Dict.get k data)
    by (unfold popped; now rewrite !get_remove_other).
  unfold rebuilt.
  destruct ry as [y|]; [destruct (value_truthy (Some y))|];
    destruct (negb (String.eqb rd ""));
    now rewrite ?get_set_other by assumption.
Qed.

(** The reconciliation of a dictionary with a trimmed date and a year that
    is absent or positive, as the sanitizer leaves them. *)
Lemma fix_date_cases (data data' : row) (w w' : world) (t : string) :
  NoDup (Dict.keys data) ->
  Dict.get "releaseDate" data = Some (VStr t) ->
  match Dict.get "releaseYear" data with
  | None => True
  | Some (VInt y) => 0 < y
  | Some (VStr _) => False
  end ->
  fix_date_and_year_in_sneaker_data data w = (Ok data', w') ->
  let rd := PyStr.strip t in
  (Dict.get "releaseDate" data'
   = if String.eqb rd "" then None
     else if String.eqb rd sentinel then Some (VStr sentinel)
          else Some (VStr (century_fixed rd))) /\
  (String.eqb rd "" = false -> String.eqb rd sentinel = false ->
   PyStr.match_date rd = true /\
   exists y, Dict.get "releaseYear" data' = Some (VInt y) /\ 0 < y) /\
  (forall v, Dict.get "releaseYear" data' = Some v -> exists y, v = VInt y /\ 0 < y).
Proof.
  intros Hnd Hd Hy H rd.
  assert (Hkeep : forall v, (if value_truthy (Dict.get "releaseYear" data)
                             then Dict.get "releaseYear" data else None) = Some v ->
                            exists y, v = VInt y /\ 0 < y).
  { intros v. destruct (Dict.get "releaseYear" data) as [[y|s]|];
      cbn; try discriminate; try contradiction.
    destruct (negb (y =? 0)); [|discriminate]. intros [= <-]. now exists y. }
  destruct (String.eqb rd "") eqn:Ee.
  { apply String.eqb_eq in Ee.
    rewrite fix_date_blank in H by (right; now exists t).
    injection H as <- _. rewrite get_rebuilt_date, get_rebuilt_year by assumption.
    split; [reflexivity|]. split; [discriminate | apply Hkeep]. }
  destruct (String.eqb rd sentinel) eqn:Es.
  { apply String.eqb_eq in Es.
    rewrite (fix_date_sentinel_rebuilt data w t Hd Es) in H.
    injection H as <- _. rewrite get_rebuilt_date, get_rebuilt_year by assumption.
    split; [reflexivity|]. split; [discriminate | apply Hkeep]. }
  destruct (PyStr.match_date rd) eqn:Em.
  2:{ apply String.eqb_neq in Ee, Es.
      rewrite (fix_date_invalid data w t Hd Ee Es Em) in H. discriminate. }
  destruct (match_date_year _ Em) as [n [Hn Hb]].
  assert (Hn0 : n <> 0) by lia.
  pose proof (fix_date_valid data w t n Hd Em Es Hn Hn0) as Hv. cbv zeta in Hv.
  fold rd in Hv. rewrite Hv in H. clear Hv.
  pose proof (match_date_nonempty rd Em) as Hne.
  assert (Hdate : forall ry,
             Dict.get "releaseDate"
               (Dict.set "releaseYear" ry
                  (Dict.set "releaseDate" (VStr (century_fixed rd)) (popped data)))
             = Some (VStr (century_fixed rd)))
    by (intros ry; now rewrite get_set_other by discriminate; rewrite get_set_same).
  destruct (Dict.get "releaseYear" data) as [[y|s]|]; [|contradiction|].
  - assert (Hc : 0 < century_year y)
      by (unfold century_year; destruct (y <? 99); lia).
    assert (Hc0 : (century_year y =? 0) = false) by (apply Z.eqb_neq; lia).
    destruct y as [|p|p]; try lia; rewrite Hc0 in H; injection H as <- _;
      (split; [apply Hdate|]);
      (split; [intros _ _; split; [reflexivity|]; eexists; split;
                 [apply get_set_same | exact Hc]
              | intros v; rewrite get_set_same; intros [= <-]; eexists; split;
                 [reflexivity | exact Hc]]).
  - injection H as <- _. split; [apply Hdate|].
    split; [intros _ _; split; [reflexivity|]; exists n; split;
              [apply get_set_same | lia]
           | intros v; rewrite get_set_same; intros [= <-]; exists n; split;
              [reflexivity | lia]].
Qed.

End DateCases.

Section StoredDates.

Import Database.

(** The date and the year of the dictionary handed to the INSERT. *)
Lemma prepared_date_and_year (self : t) (o : list (string * json)) (w w1 : world)
    (stored : row) :
  NoDup (Dict.keys o) ->
  prepared self o w stored w1 ->
  exists d,
    Dict.get "releaseDate" o = Some (JStr d) /\
    let rd := PyStr.strip d in
    (Dict.get "releaseDate" stored
     = if String.eqb rd "" then None
       else if String.eqb rd sentinel then Some (VStr sentinel)
            else Some (VStr (century_fixed rd))) /\
    (String.eqb rd "" = false -> String.eqb rd sentinel = false ->
     PyStr.match_date rd = true /\
     exists y, Dict.get "releaseYear" stored = Some (VInt y) /\ 0 < y) /\
    (forall v, Dict.get "releaseYear" stored = Some v -> exists y, v = VInt y /\ 0 < y).
Proof.
  intros Hnd (data & data' & im & lk & Ha & Hs & Hf & Hi & Hl & _ & _ & ->).
  pose proof (has_keys_of_assert o Ha) as Hk.
  destruct (get_of_key "releaseDate" o) as [v Hv]; [apply Hk; cbn; tauto|].
  assert (Hv' : Dict.get "releaseDate" (fields_of o) = Some v)
    by now rewrite get_fields_of by discriminate.
  pose proof (nodup_fields_of _ Hnd) as Hnf.
  pose proof (sanitized_year_positive self _ data Hnf Hs) as Hy.
  cbn in Hs.
  destruct (sanitize_items_str_field self "releaseDate" v _ [] data Hnf Hs eq_refl Hv')
    as (d & -> & Hget).
  destruct (sanitize_items_keys self _ [] data Hs (NoDup_nil _)) as [Hdn _].
  change (field_text "releaseDate" d) with (PyStr.strip d) in Hget.
  pose proof (fix_date_cases data data' w w1 (PyStr.strip d) Hdn Hget Hy Hf) as Hc.
  cbv zeta in Hc. rewrite strip_idem in Hc.
  exists d. split; [exact Hv|]. cbv zeta.
  rewrite !(get_stored _ _ _ _ Hi Hl) by (cbn; tauto).
  exact Hc.
Qed.

(** The date and the year of a stored record. *)
Lemma stored_date_and_year (self : t) (o : list (string * json)) (w w' : world) :
  NoDup (Dict.keys o) ->
  insert_sneaker self (JObj o) w = (Ok tt, w') ->
  exists stored d,
    sneakers (live w') = (sneakers (live w) ++ [stored])%list /\
    Dict.get "releaseDate" o = Some (JStr d) /\
    let rd := PyStr.strip d in
    (Dict.get "releaseDate" stored
     = if String.eqb rd "" then None
       else if String.eqb rd sentinel then Some (VStr sentinel)
            else Some (VStr (century_fixed rd))) /\
    (String.eqb rd "" = false -> String.eqb rd sentinel = false ->
     PyStr.match_date rd = true /\
     exists y, Dict.get "releaseYear" stored = Some (VInt y) /\ 0 < y) /\
    (forall v, Dict.get "releaseYear" stored = Some v -> exists y, v = VInt y /\ 0 < y).
Proof.
  intros Hnd H.
  destruct (insert_ok_prepared self o w w' H) as (stored & w1 & Hp & Hrows).
  destruct (prepared_date_and_year self o w w1 stored Hnd Hp) as (d & Hd & Hc).
  exists stored, d. split; [exact Hrows|]. split; [exact Hd | exact Hc].
Qed.

End StoredDates.

(** X8.  In the row stored for a record of ASCII texts the [releaseYear],
    when there is one, is a positive integer, and a row whose [releaseDate]
    is a real date (present and not the sentinel) always has one. *)
Theorem stored_year_positive
    (self : Database.t) (o : list (string * json)) (w w' : world) :
  NoDup (Dict.keys o) ->
  plain (JObj o) = true ->
  Database.insert_sneaker self (JObj o) w = (Ok tt, w') ->
  exists stored,
    sneakers (live w') = (sneakers (live w) ++ [stored])%list /\
    (forall v, Dict.get "releaseYear" stored = Some v ->
               exists y, v = VInt y /\ 0 < y) /\
    (forall r, Dict.get "releaseDate" stored = Some (VStr r) ->
               r <> Database.sentinel ->
               exists y, Dict.get "releaseYear" stored = Some (VInt y) /\ 0 < y).
Proof.
  intros Hnd _ H.
  destruct (stored_date_and_year self o w w' Hnd H)
    as (stored & d & Hrows & _ & Hdate & Hreal & Hyear).
  exists stored. split; [exact Hrows|]. split; [exact Hyear|].
  intros r Hr Hns. rewrite Hdate in Hr.
  destruct (String.eqb (PyStr.strip d) "") eqn:Ee; [discriminate|].
  destruct (String.eqb (PyStr.strip d) Database.sentinel) eqn:Es.
  - injection Hr as <-. contradiction.
  - now apply Hreal.
Qed.

(** A record with the year 0 and the date 2016-07-01 is stored with the
    year 2016. *)
Lemma stored_year_positive_witness :
  let r := Sample.sneaker "CW2288-111" "nike" "mens" (JInt 0) "2016-07-01" 150 120 in
  exists stored y,
    sneakers (live (snd (Database.insert_sneaker Sample.db r Sample.fresh))) = [stored] /\
    Dict.get "releaseYear" stored = Some (VInt y) /\ 0 < y.
Proof.
  intros r.
  assert (Hnd : NoDup (Dict.keys (Sample.fields r)))
    by (repeat constructor; cbn; intuition discriminate).
  destruct (stored_year_positive Sample.db (Sample.fields r) Sample.fresh
              (snd (Database.insert_sneaker Sample.db r Sample.fresh)) Hnd eq_refl)
    as (stored & Hrows & _ & Hreal); [vm_compute; reflexivity|].
  assert (Hd : Dict.get "releaseDate" stored = Some (VStr "2016-07-01")).
  { cbn in Hrows. injection Hrows as <-. vm_compute. reflexivity. }
  destruct (Hreal _ Hd) as (y & Hy & Hpos); [discriminate|].
  exists stored, y. repeat split; assumption.
Defined.

(** X9.  In the row stored for a record of ASCII texts the [releaseDate],
    when there is one, is the sentinel 0001-01-01 or a text of the form
    dddd-dd-dd that does not start with 00; a date that is blank after
    trimming gives no column. *)
Theorem stored_date_shape
    (self : Database.t) (o : list (string * json)) (w w' : world) :
  NoDup (Dict.keys o) ->
  plain (JObj o) = true ->
  Database.insert_sneaker self (JObj o) w = (Ok tt, w') ->
  exists stored,
    sneakers (live w') = (sneakers (live w) ++ [stored])%list /\
    forall v, Dict.get "releaseDate" stored = Some v ->
      exists r, v = VStr r /\
                (r = Database.sentinel \/
                 (PyStr.match_date r = true /\ PyStr.startswith r "00" = false)).
Proof.
  intros Hnd _ H.
  destruct (stored_date_and_year self o w w' Hnd H)
    as (stored & d & Hrows & _ & Hdate & Hreal & _).
  exists stored. split; [exact Hrows|].
  intros v Hv. rewrite Hdate in Hv.
  destruct (String.eqb (PyStr.strip d) "") eqn:Ee; [discriminate|].
  destruct (String.eqb (PyStr.strip d) Database.sentinel) eqn:Es.
  - injection Hv as <-. eexists. split; [reflexivity | now left].
  - injection Hv as <-. eexists. split; [reflexivity|]. right.
    destruct (Hreal eq_refl eq_refl) as [Hm _].
    now apply century_fixed_valid.
Qed.

(** The date 0017-02-11 is stored as 2017-02-11. *)
Lemma stored_date_shape_witness :
  let r := Sample.sneaker "CW2288-111" "nike" "mens" (JInt 17) " 0017-02-11 " 150 120 in
  exists stored,
    sneakers (live (snd (Database.insert_sneaker Sample.db r Sample.fresh))) = [stored] /\
    Dict.get "releaseDate" stored = Some (VStr "2017-02-11") /\
    PyStr.match_date "2017-02-11" = true.
Proof.
  intros r.
  assert (Hnd : NoDup (Dict.keys (Sample.fields r)))
    by (repeat constructor; cbn; intuition discriminate).
  destruct (stored_date_shape Sample.db (Sample.fields r) Sample.fresh
              (snd (Database.insert_sneaker Sample.db r Sample.fresh)) Hnd eq_refl)
    as (stored & Hrows & Hshape); [vm_compute; reflexivity|].
  exists stored. split; [exact Hrows|].
  assert (Hd : Dict.get "releaseDate" stored = Some (VStr "2017-02-11")).
  { cbn in Hrows. injection Hrows as <-. vm_compute. reflexivity. }
  split; [exact Hd|].
  destruct (Hshape _ Hd) as (r' & Er & [Hs|[Hm _]]); injection Er as <-;
    [discriminate Hs | exact Hm].
Defined.

(** ** Rows, skus and rejected records *)

(** The rows of a stored record. *)
Lemma record_rows
    (self : Database.t) (o : list (string * json)) (w w' : world) :
  NoDup (Dict.keys o) ->
  Database.insert_sneaker self (JObj o) w = (Ok tt, w') ->
  exists s stored vals,
    Dict.get "sku" o = Some (JStr s) /\ s <> "" /\
    Dict.get "sku" stored = Some (VStr (PyStr.strip s)) /\
    live w' = mkTables (sneakers (live w) ++ [stored])%list
                       (images_360 (live w)
                        ++ image_rows (SqlText s) 0 vals)%list /\
    durable w' = durable w /\ calls w' = calls w.
Proof.
  intros Hnd H.
  destruct (stored_text self o w w' Hnd H) as (stored & Hrows & Hget).
  destruct (Hget "sku") as (s & Hs & Hss); [cbn; tauto|].
  destruct (insert_sneaker_ok_steps _ _ _ _ H)
    as (o' & sku & images & links & data & data' & w1 & im & lk & w2
        & Ho & _ & Hsku & (n & Hlen & Hpos) & _ & _ & _ & Hf & _ & _ & He & H360).
  injection Ho as <-. rewrite Hs in Hsku. cbn in Hsku. subst sku.
  cbn in Hlen. injection Hlen as <-.
  destruct (insert_360_images_ok_inv _ _ _ _ H360) as [vals ->].
  exists s, stored, vals.
  split; [exact Hs|]. split; [intros ->; cbn in Hpos; lia|].
  split; [exact Hss|].
  pose proof (fix_date_only_logs data w) as L. rewrite Hf in L.
  destruct L as (L1 & L2 & L3 & _). cbn [snd] in L1, L2, L3.
  unfold execute_insert_sneakers in He.
  destruct (bind_data _); [|discriminate].
  destruct (existsb _ _); [discriminate|].
  injection He as <-.
  cbn in Hrows. rewrite L1 in Hrows. apply app_inv_head in Hrows.
  injection Hrows as <-.
  cbn. rewrite L1, L2, L3. repeat split.
Qed.

(** X10.  A stored record of ASCII texts adds exactly one row to [sneakers]
    and the rows of its [360] list to [images_360], numbered from 0, and
    nothing else; the row of [sneakers] has the trimmed sku, the rows of
    [images_360] have the sku as the provider sent it, untrimmed. *)
Theorem stored_record_rows
    (self : Database.t) (o : list (string * json)) (w w' : world) :
  NoDup (Dict.keys o) ->
  plain (JObj o) = true ->
  Database.insert_sneaker self (JObj o) w = (Ok tt, w') ->
  exists s stored vals,
    Dict.get "sku" o = Some (JStr s) /\ s <> "" /\
    Dict.get "sku" stored = Some (VStr (PyStr.strip s)) /\
    live w' = mkTables (sneakers (live w) ++ [stored])%list
                       (images_360 (live w)
                        ++ image_rows (SqlText s) 0 vals)%list /\
    durable w' = durable w /\ calls w' = calls w.
Proof. intros Hnd _. now apply record_rows. Qed.

(** A sku with blanks around it: the row has CW2288-111, the picture rows
    have the sku with its blanks. *)
Lemma stored_record_rows_witness :
  let r := JObj (Dict.set "image"
                   (JObj [("360", JArr [JStr "https://img/0.png"]);
                          ("original", JStr ""); ("small", JStr "");
                          ("thumbnail", JStr "")])
                   (Sample.fields (Sample.sneaker " CW2288-111 " "nike" "mens"
                                     (JInt 2015) "2015-03-01" 150 120))) in
  exists stored,
    Dict.get "sku" stored = Some (VStr "CW2288-111") /\
    live (snd (Database.insert_sneaker Sample.db r Sample.fresh))
    = mkTables [stored] [(SqlText " CW2288-111 ", 0%nat, SqlText "https://img/0.png")].
Proof.
  intros r.
  assert (Hnd : NoDup (Dict.keys (Sample.fields r)))
    by (repeat constructor; cbn; intuition discriminate).
  destruct (stored_record_rows Sample.db (Sample.fields r) Sample.fresh
              (snd (Database.insert_sneaker Sample.db r Sample.fresh)) Hnd eq_refl)
    as (s & stored & vals & Hs & _ & Hsku & Hlive & _); [vm_compute; reflexivity|].
  injection Hs as <-.
  exists stored. split; [exact Hsku|].
  rewrite Hlive. cbn [Sample.fresh live sneakers images_360 Sample.no_rows app].
  f_equal.
  assert (E : images_360 (live (snd (Database.insert_sneaker Sample.db r Sample.fresh)))
              = [(SqlText " CW2288-111 ", 0%nat, SqlText "https://img/0.png")])
    by (vm_compute; reflexivity).
  rewrite Hlive in E. exact E.
Defined.

Section Rejected.

Import Database.

Lemma insert_sneaker_bad_date (self : t) (o : list (string * json)) (d : string)
    (w : world) :
  NoDup (Dict.keys o) ->
  Dict.get "releaseDate" o = Some (JStr d) ->
  PyStr.strip d <> "" ->
  PyStr.strip d <> sentinel ->
  PyStr.match_date (PyStr.strip d) = false ->
  exists e, insert_sneaker self (JObj o) w = (Raise e, w).
Proof.
  intros Hnd Hd He Hs Hm. unfold insert_sneaker, bind, lift.
  destruct (assert_sneaker_keys (JObj o)); [|now eexists].
  cbn [py_pop]. destruct (Dict.get "id" o); [|now eexists].
  cbn [snd py_get]. destruct (py_len _); [|now eexists].
  destruct (assert _); [|now eexists].
  cbn [py_pop]. destruct (Dict.get "image" _); [|now eexists].
  cbn [fst snd py_pop]. destruct (Dict.get "links" _); [|now eexists].
  cbn [fst snd]. fold (fields_of o).
  destruct (get_basically_sanitized_sneaker_data self (JObj (fields_of o)))
    as [data|e] eqn:Hsan; [|now eexists].
  assert (Hd' : Dict.get "releaseDate" (fields_of o) = Some (JStr d))
    by now rewrite get_fields_of by discriminate.
  cbn in Hsan.
  destruct (sanitize_items_str_field self "releaseDate" _ _ [] data
              (nodup_fields_of _ Hnd) Hsan eq_refl Hd') as (d' & Ed & Hget).
  injection Ed as <-.
  change (field_text "releaseDate" d) with (PyStr.strip d) in Hget.
  rewrite (fix_date_invalid data w (PyStr.strip d) Hget)
    by (rewrite strip_idem; assumption).
  now eexists.
Qed.

End Rejected.

(** X11.  A [releaseDate] of ASCII characters that is not blank, not the
    sentinel and not of the form dddd-dd-dd makes the reconciliation raise
    an [AssertionError] before anything is logged, and a record of ASCII
    texts with such a date is not stored: the world is left as it was. *)
Theorem malformed_date_rejected
    (self : Database.t) (o : list (string * json)) (data : row) (d : string)
    (w : world) :
  ascii_text d = true ->
  PyStr.strip d <> "" ->
  PyStr.strip d <> Database.sentinel ->
  PyStr.match_date (PyStr.strip d) = false ->
  (Dict.get "releaseDate" data = Some (VStr d) ->
   Database.fix_date_and_year_in_sneaker_data data w = (Raise AssertionError, w)) /\
  (NoDup (Dict.keys o) ->
   plain (JObj o) = true ->
   Dict.get "releaseDate" o = Some (JStr d) ->
   exists e, Database.insert_sneaker self (JObj o) w = (Raise e, w)).
Proof.
  intros _ He Hs Hm. split.
  - intros Hd. now apply (fix_date_invalid data w d).
  - intros Hnd _ Hd. now apply (insert_sneaker_bad_date self o d w).
Qed.

(** A date with a slash. *)
Lemma malformed_date_rejected_witness :
  let r := Sample.sneaker "CW2288-111" "nike" "mens" (JInt 2015) "2015/03/01" 150 120 in
  Database.fix_date_and_year_in_sneaker_data
    [("sku", VStr "CW2288-111"); ("releaseDate", VStr "2015/03/01")] Sample.fresh
  = (Raise AssertionError, Sample.fresh) /\
  exists e, Database.insert_sneaker Sample.db r Sample.fresh = (Raise e, Sample.fresh).
Proof.
  intros r.
  destruct (malformed_date_rejected Sample.db (Sample.fields r)
              [("sku", VStr "CW2288-111"); ("releaseDate", VStr "2015/03/01")]
              "2015/03/01" Sample.fresh) as [H1 H2];
    [reflexivity | discriminate | discriminate | reflexivity |].
  split; [now apply H1|].
  apply H2; [repeat constructor; cbn; intuition discriminate
            | reflexivity | reflexivity].
Defined.

(** X12.  The sku must have a positive length before it is trimmed: a record
    whose sku is the empty text (or an empty list or object) raises an
    [AssertionError] and leaves the world as it was, while a sku of blanks
    passes the check and is stored as the empty text. *)
Theorem empty_sku_rejected
    (self : Database.t) (o : list (string * json)) (sku : json) (w : world) :
  Database.assert_sneaker_keys (JObj o) = Ok tt ->
  Dict.get "sku" o = Some sku ->
  (py_len sku = Ok 0 ->
   Database.insert_sneaker self (JObj o) w = (Raise AssertionError, w)) /\
  (forall s w',
      NoDup (Dict.keys o) ->
      sku = JStr s -> PyStr.strip s = "" ->
      Database.insert_sneaker self (JObj o) w = (Ok tt, w') ->
      s <> "" /\
      exists stored,
        sneakers (live w') = (sneakers (live w) ++ [stored])%list /\
        Dict.get "sku" stored = Some (VStr "")).
Proof.
  intros Ha Hsku. split.
  - intros Hlen. unfold Database.insert_sneaker, bind, lift. rewrite Ha.
    pose proof (has_keys_of_assert o Ha) as Hk.
    destruct (get_of_key "id" o) as [vid Hid]; [apply Hk; cbn; tauto|].
    cbn [py_pop]. rewrite Hid. cbn [snd py_get].
    rewrite get_remove_other by discriminate. rewrite Hsku. cbn [or_null].
    rewrite Hlen. reflexivity.
  - intros s w' Hnd -> Hstrip H.
    destruct (record_rows self o w w' Hnd H)
      as (s' & stored & vals & Hs & Hne & Hst & Hlive & _).
    rewrite Hsku in Hs. injection Hs as <-.
    split; [exact Hne|]. exists stored. split; [now rewrite Hlive|].
    now rewrite Hstrip in Hst.
Qed.

(** The sample record with an empty sku. *)
Lemma empty_sku_rejected_witness :
  let r := Sample.sneaker "" "nike" "mens" (JInt 2015) "2015-03-01" 150 120 in
  Database.insert_sneaker Sample.db r Sample.fresh = (Raise AssertionError, Sample.fresh).
Proof.
  intros r.
  destruct (empty_sku_rejected Sample.db (Sample.fields r) (JStr "") Sample.fresh)
    as [H _]; [reflexivity | reflexivity |].
  now apply H.
Defined.

(** X13.  A record without a [releaseDate], or with one that is blank after
    trimming, gets no date column; its [releaseYear] is kept as it is when
    it is truthy and dropped otherwise, no year is invented, nothing is
    logged, and every other key keeps its value. *)
Theorem blank_date_left_out (data : row) (w : world) :
  NoDup (Dict.keys data) ->
  Dict.get "releaseDate" data = None \/
  (exists d, Dict.get "releaseDate" data = Some (VStr d) /\ PyStr.strip d = "") ->
  exists data',
    Database.fix_date_and_year_in_sneaker_data data w = (Ok data', w) /\
    Dict.get "releaseDate" data' = None /\
    Dict.get "releaseYear" data'
    = (if Database.value_truthy (Dict.get "releaseYear" data)
       then Dict.get "releaseYear" data else None) /\
    forall k, k <> "releaseDate" -> k <> "releaseYear" ->
              Dict.get k data' = Dict.get k data.
Proof.
  intros Hnd Hd. eexists. split; [now apply fix_date_blank|].
  rewrite get_rebuilt_date, get_rebuilt_year by assumption.
  repeat split. intros k Nd Ny. now apply get_rebuilt_other.
Qed.

(** A date of blanks and the year 1987. *)
Lemma blank_date_left_out_witness :
  exists data',
    Database.fix_date_and_year_in_sneaker_data
      [("sku", VStr "CW2288-111"); ("releaseYear", VInt 1987);
       ("releaseDate", VStr "  ")] Sample.fresh = (Ok data', Sample.fresh) /\
    Dict.get "releaseDate" data' = None /\
    Dict.get "releaseYear" data' = Some (VInt 1987).
Proof.
  destruct (blank_date_left_out
              [("sku", VStr "CW2288-111"); ("releaseYear", VInt 1987);
               ("releaseDate", VStr "  ")] Sample.fresh)
    as (data' & H & Hd & Hy & _).
  - repeat constructor; cbn; intuition discriminate.
  - right. exists "  ". split; reflexivity.
  - exists data'. repeat split; assumption.
Defined.

(** ** Pages *)

Section PageFacts.

Import Database.

Lemma insert_sneaker_one_row (self : t) (sneaker : json) (w w' : world) :
  insert_sneaker self sneaker w = (Ok tt, w') ->
  List.length (sneakers (live w')) = S (List.length (sneakers (live w))).
Proof.
  intros H.
  destruct (insert_sneaker_ok_inv _ _ _ _ H)
    as (o & data & data' & w1 & im & lk & _ & _ & _ & _ & _ & Hrows).
  rewrite Hrows, length_app. cbn. lia.
Qed.

Lemma records_rows (self : t) (items : list json) (w w' : world) :
  for_each items (insert_sneaker self) w = (Ok tt, w') ->
  List.length (sneakers (live w'))
  = (List.length (sneakers (live w)) + List.length items)%nat.
Proof.
  revert w. induction items as [|x items IH]; intros w; cbn [for_each].
  - intros [= <-]. cbn. lia.
  - intros H. apply bind_ok_inv in H. destruct H as ([] & w1 & Hx & H).
    rewrite (IH _ H), (insert_sneaker_one_row _ _ _ _ Hx). cbn. lia.
Qed.

End PageFacts.

(** X14.  A page that loads without an exception is committed: one call of
    the provider is made, every record of the page has added one row to
    [sneakers], and what the connection sees afterwards is durable. *)
Theorem loaded_page_is_committed
    (self : Database.t) (page : Z) (w w' : world) :
  Database.load_sneakers_page self page w = (Ok tt, w') ->
  exists items,
    records_of self page = Ok items /\
    List.length (sneakers (live w'))
    = (List.length (sneakers (live w)) + List.length items)%nat /\
    durable w' = live w' /\
    calls w' = (calls w ++ [(Database.page_limit self, page)])%list.
Proof.
  intros H.
  pose proof (load_sneakers_page_calls self page w) as Hc. rewrite H in Hc.
  cbn [snd] in Hc.
  unfold Database.load_sneakers_page in H.
  apply bind_ok_inv in H. destruct H as (data & w0 & Hd & H).
  assert (Hw0 : w0 = called self page w /\
                Api.sneakers (Database.api self) (Database.page_limit self) page
                = Ok data).
  { unfold api_sneakers in Hd. injection Hd as Hd <-. now split. }
  destruct Hw0 as [-> Hdata].
  apply bind_ok_inv in H. destruct H as (results & w0 & Hr & H).
  apply lift_inv in Hr. destruct Hr as [Hr ->].
  apply bind_ok_inv in H. destruct H as (items & w0 & Hi & H).
  apply lift_inv in Hi. destruct Hi as [Hi ->].
  apply bind_ok_inv in H. destruct H as ([] & w1 & Hf & H).
  unfold commit in H. injection H as <-.
  exists items. split; [|split; [|split]].
  - unfold records_of. rewrite Hdata. cbn [bindR]. rewrite <- Hr. cbn [bindR].
    now symmetry.
  - cbn [live]. now rewrite (records_rows self items _ _ Hf).
  - reflexivity.
  - exact Hc.
Qed.

(** Page 1 of the provider with 101 sneakers: one record, one row,
    committed. *)
Lemma loaded_page_is_committed_witness :
  let self := Sample.database Pages.api_101 in
  let w' := snd (Database.load_sneakers_page self 1 Sample.fresh) in
  List.length (sneakers (live w')) = 1%nat /\ durable w' = live w'.
Proof.
  intros self w'.
  destruct (loaded_page_is_committed self 1 Sample.fresh w')
    as (items & Hi & Hlen & Hd & _); [vm_compute; reflexivity|].
  split; [|exact Hd].
  rewrite Hlen. injection Hi as <-. reflexivity.
Defined.

(** The runs of [load_sneakers] that process no page. *)
Lemma load_sneakers_no_page (self : Database.t) (w : world) :
  let limit := Database.page_limit self in
  let first := Api.sneakers (Database.api self) limit 0 in
  let run := Database.load_sneakers self w in
  (forall e, first = Raise e -> run = (Raise e, called self 0 w)) /\
  (forall doc, first = Ok (JObj doc) -> Dict.get "count" doc = None ->
               run = (Raise (KeyError "count"), called self 0 w)) /\
  (forall doc count, first = Ok (JObj doc) -> Dict.get "count" doc = Some count ->
                     (forall n, count <> JInt n) ->
                     exists m, run = (Raise (TypeError m), called self 0 w)) /\
  (forall doc n, first = Ok doc -> py_getitem doc "count" = Ok (JInt n) ->
                 0 < limit -> n <= 0 ->
                 (run = (Ok tt, called self 0 w) \/
                  run = (Raise (OverflowError
                                  "integer division result too large for a float"),
                         called self 0 w)) /\
                 (- 2 ^ 53 < n -> limit < 2 ^ 53 -> run = (Ok tt, called self 0 w))).
Proof.
  intros limit first run.
  assert (Hcall : api_sneakers (Database.api self) limit 0 w = (first, called self 0 w))
    by reflexivity.
  assert (Hnone : forall x, PyFloat.ceil x <= 0 ->
            Database.load_sneakers_safely self (PyFloat.ceil x - 1) (called self 0 w)
            = (Ok tt, called self 0 w)).
  { intros x Hx. unfold Database.load_sneakers_safely, Database.range.
    replace (Z.to_nat (PyFloat.ceil x - 1 + 1)) with 0%nat by lia.
    reflexivity. }
  unfold run, Database.load_sneakers, bind. fold limit. rewrite Hcall.
  split; [|split; [|split]].
  - intros e ->. reflexivity.
  - intros doc -> Hc. unfold lift. cbn [py_getitem]. now rewrite Hc.
  - intros doc count -> Hc Hn. unfold lift. cbn [py_getitem]. rewrite Hc.
    destruct count; cbn; try (now eexists). now destruct (Hn z).
  - intros doc n -> Hc Hpos Hle. unfold lift. rewrite Hc.
    unfold Database.last_page. split.
    + destruct (PyFloat.truediv n limit) as [x|e] eqn:Ed; cbn [bindR].
      * left. apply Hnone. exact (truediv_nonpos n limit x Hle Hpos Ed).
      * right. now rewrite (truediv_raise n limit e ltac:(lia) Ed).
    + intros Hn Hl.
      destruct (truediv_ceil n limit ltac:(lia) ltac:(lia)) as (x & Ed & Hx).
      rewrite Ed. cbn [bindR]. apply Hnone.
      exact (truediv_nonpos n limit x Hle Hpos Ed).
Qed.

(** X15.  [load_sneakers] stops at once when the first call fails, when the
    answer has no [count], or when the count is a null, a text, a list or an
    object: the exception leaves the function, the tables are as they were
    and only the one call has been made.  With a count of zero or less no
    page is processed, not even page 0: the function returns, or it raises
    an [OverflowError] when the quotient is too large for a float, which it
    never is for a count above [- 2 ^ 53] and a page size below [2 ^ 53]. *)
Theorem load_sneakers_without_pages (self : Database.t) (w : world) :
  let limit := Database.page_limit self in
  let first := Api.sneakers (Database.api self) limit 0 in
  let run := Database.load_sneakers self w in
  let untouched := live (snd run) = live w /\ durable (snd run) = durable w /\
                   calls (snd run) = (calls w ++ [(limit, 0)])%list in
  (forall e, first = Raise e -> fst run = Raise e /\ untouched) /\
  (forall doc, first = Ok (JObj doc) -> Dict.get "count" doc = None ->
               fst run = Raise (KeyError "count") /\ untouched) /\
  (forall doc count, first = Ok (JObj doc) -> Dict.get "count" doc = Some count ->
                     (forall n, count <> JInt n) ->
                     (exists m, fst run = Raise (TypeError m)) /\ untouched) /\
  (forall doc n, first = Ok doc -> py_getitem doc "count" = Ok (JInt n) ->
                 0 < limit -> n <= 0 ->
                 (fst run = Ok tt \/
                  fst run = Raise (OverflowError
                                     "integer division result too large for a float")) /\
                 untouched /\
                 (- 2 ^ 53 < n -> limit < 2 ^ 53 -> fst run = Ok tt)).
Proof.
  intros limit first run untouched.
  assert (Hquiet : forall r, run = (r, called self 0 w) -> untouched).
  { intros r E. unfold untouched. rewrite E. repeat split. }
  destruct (load_sneakers_no_page self w) as (H1 & H2 & H3 & H4).
  fold limit first run in H1, H2, H3, H4.
  split; [|split; [|split]].
  - intros e He. pose proof (H1 e He) as E. split; [now rewrite E | exact (Hquiet _ E)].
  - intros doc Hd Hc. pose proof (H2 doc Hd Hc) as E.
    split; [now rewrite E | exact (Hquiet _ E)].
  - intros doc count Hd Hc Hn. destruct (H3 doc count Hd Hc Hn) as [m E].
    split; [exists m; now rewrite E | exact (Hquiet _ E)].
  - intros doc n Hd Hc Hpos Hle. destruct (H4 doc n Hd Hc Hpos Hle) as [Hcases Hok].
    split; [|split].
    + destruct Hcases as [E|E]; [left | right]; now rewrite E.
    + destruct Hcases as [E|E]; exact (Hquiet _ E).
    + intros Hn Hl. now rewrite (Hok Hn Hl).
Qed.

(** A provider that is down, and an empty catalogue. *)
Lemma load_sneakers_without_pages_witness :
  fst (Database.load_sneakers Sample.db Sample.fresh)
  = Raise (RequestException "offline") /\
  let self := Sample.database
                (Api.mk ["/"; "srv"; "_cache"] (fun _ _ => Ok (Pages.page 0 []))) in
  fst (Database.load_sneakers self Sample.fresh) = Ok tt /\
  calls (snd (Database.load_sneakers self Sample.fresh)) = [(100, 0)].
Proof.
  split.
  - destruct (load_sneakers_without_pages Sample.db Sample.fresh) as [H _].
    now apply H.
  - intros self.
    destruct (load_sneakers_without_pages self Sample.fresh) as (_ & _ & _ & H).
    destruct (H (Pages.page 0 []) 0) as (_ & (_ & _ & Hc) & Hok);
      [reflexivity | reflexivity | reflexivity | lia |].
    split; [apply Hok; [reflexivity | reflexivity] | exact Hc].
Defined.

(** ** Every row of the table *)

Section GoodRows.

Import Database.

Lemma trimmed_strip (s : string) : trimmed (PyStr.strip s).
Proof. apply strip_idem. Qed.

Lemma trimmed_upper (s : string) : trimmed s -> trimmed (PyStr.upper s).
Proof. unfold trimmed. intros H. now rewrite <- upper_strip, H. Qed.

Lemma trimmed_upper_singular (v : string) : trimmed v -> trimmed (upper_singular v).
Proof.
  intros Hv. unfold upper_singular. cbv zeta.
  pose proof (trimmed_upper v Hv) as Hu.
  destruct (PyStr.endswith (PyStr.upper v) "MENS") eqn:E; [|exact Hu].
  destruct (endswith_inv _ _ E) as [u Eu]. rewrite Eu in *.
  unfold PyStr.rstrip. rewrite rstrip_append by discriminate.
  change (PyStr.rstrip_with (fun c => PyStr.mem_char c "S") "MENS") with "MEN".
  apply strip_fixed.
  - apply head_kept_append with (x := "MENS"); [|reflexivity].
    rewrite <- Hu. apply head_kept_strip.
  - rewrite rstrip_append; [reflexivity | discriminate].
Qed.

Lemma trimmed_field_text (k s : string) : trimmed (field_text k s).
Proof.
  unfold field_text, normalized_gender.
  destruct (String.eqb k "gender"); [apply trimmed_upper_singular, trimmed_strip|].
  destruct (String.eqb k "brand"); [apply trimmed_upper, trimmed_strip|].
  apply trimmed_strip.
Qed.

Lemma get_update_cases {V : Type} (d e : list (string * V)) (k : string) (v : V) :
  Dict.get k (Dict.update d e) = Some v ->
  Dict.get k d = Some v \/ In (k, v) e.
Proof.
  unfold Dict.update. revert d.
  induction e as [|[k1 v1] e IH]; intros d; cbn; [now left|].
  intros H. destruct (IH _ H) as [Hd|Hin]; [|right; now right].
  destruct (String.eqb k k1) eqn:E.
  - apply String.eqb_eq in E. subst k1. rewrite get_set_same in Hd.
    injection Hd as <-. right. now left.
  - apply String.eqb_neq in E. rewrite get_set_other in Hd by assumption. now left.
Qed.

Lemma sqlize_in (prefix : string) (doc : json) (names : list string) (r : row)
    (k : string) (v : value) :
  sqlize prefix doc names = Ok r -> In (k, v) r ->
  exists s, v = VStr s /\ s <> "" /\ trimmed s.
Proof.
  revert r. induction names as [|n names IH]; intros r; cbn [sqlize].
  - intros [= <-] [].
  - destruct (py_get doc n) as [x|]; [|discriminate]. cbn [bindR].
    destruct (py_strip x) as [s|] eqn:Es; [|discriminate]. cbn [bindR].
    destruct (sqlize prefix doc names) as [rest|]; [|discriminate]. cbn [bindR].
    intros [= <-].
    destruct (String.eqb s "") eqn:E; [now apply IH|].
    intros [Hin|Hin]; [|now apply (IH rest)].
    injection Hin as _ <-. exists s. split; [reflexivity|].
    apply String.eqb_neq in E. split; [exact E|].
    destruct x; try discriminate. injection Es as <-. apply trimmed_strip.
Qed.

(** The dictionary handed to the INSERT is a good row. *)
Lemma good_of_prepared (self : t) (o : list (string * json)) (w w1 : world)
    (stored : row) :
  NoDup (Dict.keys o) ->
  prepared self o w stored w1 ->
  good_row self stored.
Proof.
  intros Hnd Hp.
  destruct (prepared_columns self o w w1 stored Hnd Hp) as [Hn Hc].
  pose proof (prepared_text self o w w1 stored Hnd Hp) as Ht.
  destruct (prepared_known self o w w1 stored Hnd Hp)
    as (b & g & Hb & Hbin & _ & Hg & Hgin & Hgp).
  destruct (prepared_date_and_year self o w w1 stored Hnd Hp)
    as (d & Hd & Hdate & Hreal & Hyear).
  split; [exact Hn|]. split; [exact Hc|].
  split; [|split; [now exists b|split; [now exists g|split; [|split]]]].
  - intros k Hk. destruct (Ht k Hk) as (s & _ & Hs).
    eexists. split; [exact Hs | apply trimmed_field_text].
  - intros k v Hk Hv.
    destruct Hk as [<-|Hk]; [now apply Hyear|].
    destruct Hp as (data & data' & im & lk & Ha & Hs & Hf & Hi & Hl & _ & _ & ->).
    assert (Hk' : k = "estimatedMarketValue" \/ k = "retailPrice")
      by (cbn in Hk; intuition).
    rewrite (get_stored _ _ _ _ Hi Hl) in Hv
      by (destruct Hk' as [-> | ->]; cbn; tauto).
    rewrite (fix_date_get_other _ _ _ _ k Hf) in Hv
      by (destruct Hk' as [-> | ->]; discriminate).
    cbn in Hs.
    rewrite (sanitize_items_int_field self k _ [] data (nodup_fields_of _ Hnd) Hs)
      in Hv by (destruct Hk' as [-> | ->]; reflexivity).
    destruct (Dict.get k (fields_of o)) as [[| z | | |]|]; try discriminate.
    destruct (0 <? z) eqn:E; [|discriminate].
    injection Hv as <-. exists z. split; [reflexivity | now apply Z.ltb_lt].
  - intros v Hv. rewrite Hdate in Hv.
    destruct (String.eqb (PyStr.strip d) "") eqn:Ee; [discriminate|].
    destruct (String.eqb (PyStr.strip d) sentinel) eqn:Es.
    + injection Hv as <-. eexists. split; [reflexivity | now left].
    + injection Hv as <-. eexists. split; [reflexivity|]. right.
      destruct (Hreal eq_refl eq_refl) as [Hm _].
      now apply century_fixed_valid.
  - intros k v Hk Hv.
    destruct Hp as (data & data' & im & lk & Ha & Hs & Hf & Hi & Hl
                    & (images & _ & Hsi) & (links & _ & Hsl) & ->).
    unfold sqlize_sneakers_links_fields in Hsl.
    unfold sqlize_sneakers_images_fields in Hsi.
    apply get_update_cases in Hv. destruct Hv as [Hv|Hin];
      [|exact (sqlize_in _ _ _ _ _ _ Hsl Hin)].
    apply get_update_cases in Hv. destruct Hv as [Hv|Hin];
      [|exact (sqlize_in _ _ _ _ _ _ Hsi Hin)].
    exfalso.
    pose proof (has_keys_of_assert o Ha) as Hkeys.
    cbn in Hs.
    destruct (sanitize_items_keys self _ [] data Hs (NoDup_nil _)) as [Hdn Hdi].
    destruct (fix_date_shape _ _ _ _ Hf) as (rd & ry & ->).
    destruct (rebuilt_keys data rd ry Hdn) as [_ Hri].
    apply key_of_get in Hv. apply Hri in Hv.
    destruct Hv as [<-|[<-|Hv]];
      [cbn in Hk; intuition discriminate | cbn in Hk; intuition discriminate |].
    apply Hdi in Hv. cbn [app] in Hv. unfold fields_of in Hv.
    do 3 apply keys_remove_incl in Hv. apply Hkeys in Hv.
    cbn in Hk, Hv. intuition (subst; discriminate).
Qed.

(** Whatever a record does, it leaves the rows as they were or adds the one
    row that it has prepared. *)
Lemma insert_sneaker_rows (self : t) (sneaker : json) (w : world) :
  let w' := snd (insert_sneaker self sneaker w) in
  durable w' = durable w /\
  (sneakers (live w') = sneakers (live w) \/
   exists o stored w1,
     sneaker = JObj o /\ prepared self o w stored w1 /\
     sneakers (live w') = (sneakers (live w) ++ [stored])%list).
Proof.
  intros w'. split.
  { destruct (insert_sneaker_grows self sneaker w) as (D & _). exact D. }
  unfold w'. clear w'. unfold insert_sneaker, bind, lift.
  destruct (assert_sneaker_keys sneaker) as [[]|] eqn:Ha; [|now left].
  destruct sneaker as [| | | |o]; try discriminate.
  cbn [py_pop]. destruct (Dict.get "id" o); [|now left].
  cbn [snd py_get]. destruct (py_len _); [|now left].
  destruct (assert _); [|now left].
  cbn [py_pop].
  destruct (Dict.get "image" _) as [images|] eqn:Ei; [|now left].
  cbn [fst snd py_pop].
  destruct (Dict.get "links" _) as [links|] eqn:El; [|now left].
  cbn [fst snd]. fold (fields_of o).
  rewrite get_remove_other in Ei by discriminate.
  rewrite !get_remove_other in El by discriminate.
  destruct (get_basically_sanitized_sneaker_data self (JObj (fields_of o)))
    as [data|] eqn:Hs; [|now left].
  pose proof (fix_date_only_logs data w) as L.
  destruct (fix_date_and_year_in_sneaker_data data w) as [[data'|] w1] eqn:Hf;
    cbn [snd] in L; destruct L as (L & _); [|left; cbn; now rewrite L].
  destruct (sqlize_sneakers_images_fields images) as [im|] eqn:Hsi;
    [|left; cbn; now rewrite L].
  destruct (sqlize_sneakers_links_fields links) as [lk|] eqn:Hsl;
    [|left; cbn; now rewrite L].
  pose proof (execute_insert_sneakers_grows (Dict.update (Dict.update data' im) lk) w1)
    as G.
  destruct (execute_insert_sneakers (Dict.update (Dict.update data' im) lk) w1)
    as [[[]|] w2] eqn:He; cbn [snd] in G.
  - right. exists o, (Dict.update (Dict.update data' im) lk), w1.
    split; [reflexivity|]. split.
    + exists data, data', im, lk.
      repeat split; try assumption;
        [exact (sqlize_keys _ _ _ _ Hsi) | exact (sqlize_keys _ _ _ _ Hsl)
        | now exists images | now exists links].
    + pose proof (insert_360_images_same
                    (or_null (Dict.get "sku" (Dict.remove "id" o))) images w2) as S.
      unfold same_sneakers in S. rewrite S.
      unfold execute_insert_sneakers in He.
      destruct (bind_data _); [|discriminate].
      destruct (existsb _ _); [discriminate|].
      injection He as <-. cbn. now rewrite L.
  - left. cbn.
    unfold execute_insert_sneakers in He.
    destruct (bind_data _); [|injection He as _ <-; now rewrite L].
    destruct (existsb _ _); [injection He as _ <-; now rewrite L | discriminate].
Qed.

Lemma records_keep_good (self : t) (items : list json) (w : world) :
  (forall o, In (JObj o) items -> NoDup (Dict.keys o)) ->
  good_tables self w ->
  good_tables self (snd (for_each items (insert_sneaker self) w)).
Proof.
  revert w. induction items as [|x items IH]; intros w Hd Hg; cbn [for_each].
  - exact Hg.
  - unfold bind.
    destruct (insert_sneaker_rows self x w) as [Hdur Hrows].
    assert (Hg1 : good_tables self (snd (insert_sneaker self x w))).
    { destruct Hg as [Hl Hdu]. split; [|now rewrite Hdur].
      destruct Hrows as [-> | (o & stored & w1 & -> & Hp & ->)]; [exact Hl|].
      apply Forall_app. split; [exact Hl|]. constructor; [|constructor].
      apply (good_of_prepared self o w w1); [|exact Hp].
      apply Hd. now left. }
    destruct (insert_sneaker self x w) as [[[]|e] w1]; cbn [snd] in *.
    + apply IH; [|exact Hg1]. intros o Ho. apply Hd. now right.
    + exact Hg1.
Qed.

Lemma page_keeps_good (self : t) (page : Z) (w : world) :
  distinct_keys self ->
  good_tables self w ->
  good_tables self (snd (load_sneakers_page self page w)).
Proof.
  intros Hd Hg.
  assert (Hc : good_tables self (called self page w)) by exact Hg.
  unfold load_sneakers_page, bind.
  change (api_sneakers (api self) (page_limit self) page w)
    with (Api.sneakers (api self) (page_limit self) page, called self page w).
  pose proof (Hd page) as Hdp. unfold records_of in Hdp.
  destruct (Api.sneakers (api self) (page_limit self) page) as [data|]; [|exact Hc].
  unfold lift. cbn [bindR] in Hdp.
  destruct (py_getitem data "results") as [results|]; [|exact Hc].
  cbn [bindR] in Hdp.
  destruct (py_iter results) as [items|]; [|exact Hc].
  pose proof (records_keep_good self items (called self page w)
                (fun o Ho => Hdp items o eq_refl Ho) Hc) as Hr.
  destruct (for_each items (insert_sneaker self) (called self page w))
    as [[[]|e] w1]; cbn [snd] in *; [|exact Hr].
  destruct Hr as [Hl _]. split; exact Hl.
Qed.

Lemma pages_keep_good (self : t) (last : Z) (pages : list Z) (w : world) :
  distinct_keys self ->
  good_tables self w ->
  good_tables self (snd (for_each pages (load_page_safely self last) w)).
Proof.
  intros Hd. revert w. induction pages as [|p pages IH]; intros w Hg; cbn [for_each].
  - exact Hg.
  - unfold bind.
    assert (Hg1 : good_tables self (snd (load_page_safely self last p w))).
    { unfold load_page_safely, bind, logging, try_except.
      pose proof (page_keeps_good self p
                    (add_log INFO (processing_message p last) w) Hd Hg) as Hp.
      unfold add_log, processing_message in Hp.
      destruct (load_sneakers_page self p _) as [[[]|e] w1]; cbn [snd] in *;
        exact Hp. }
    destruct (load_page_safely self last p w) as [[[]|e] w1]; cbn [snd] in *;
      [now apply IH | exact Hg1].
Qed.

Lemma load_sneakers_keeps_good (self : t) (w : world) :
  distinct_keys self ->
  good_tables self w ->
  good_tables self (snd (load_sneakers self w)).
Proof.
  intros Hd Hg. unfold load_sneakers, bind.
  change (api_sneakers (api self) (page_limit self) 0 w)
    with (Api.sneakers (api self) (page_limit self) 0, called self 0 w).
  assert (Hc : good_tables self (called self 0 w)) by exact Hg.
  destruct (Api.sneakers (api self) (page_limit self) 0) as [first|]; [|exact Hc].
  unfold lift. destruct (py_getitem first "count") as [count|]; [|exact Hc].
  destruct (last_page count (page_limit self)) as [last|]; [|exact Hc].
  unfold load_sneakers_safely. now apply pages_keep_good.
Qed.

End GoodRows.

(** the records of the sample provider have distinct keys *)
Lemma api_101_distinct_keys (brands genders : list string) :
  distinct_keys (Database.mk Pages.api_101 brands genders 100).
Proof.
  intros page items o Hr Hin. unfold records_of in Hr. cbn in Hr.
  destruct (page =? 0).
  - cbn in Hr. injection Hr as <-.
    destruct Hin as [E|[E|[]]]; injection E as <-;
      repeat constructor; cbn; intuition discriminate.
  - destruct (page =? 1); [|discriminate].
    cbn in Hr. injection Hr as <-.
    destruct Hin as [E|[]]; injection E as <-;
      repeat constructor; cbn; intuition discriminate.
Qed.

(** the records of the sample provider hold ASCII texts *)
Lemma api_101_plain (brands genders : list string) :
  plain_pages (Database.mk Pages.api_101 brands genders 100).
Proof.
  intros page items Hr. unfold records_of in Hr. cbn in Hr.
  destruct (page =? 0).
  - cbn in Hr. injection Hr as <-. reflexivity.
  - destruct (page =? 1); [|discriminate].
    cbn in Hr. injection Hr as <-. reflexivity.
Qed.

(** X16.  Whatever records of ASCII texts the provider sends and whichever
    pages fail, every row that [load_sneakers] leaves in [sneakers],
    committed or not, is a good row: its columns are columns of the table, each named once; the seven
    text columns are there with trimmed texts; the brand and the gender are
    in the reference lists and the gender does not end in MENS; the integer
    columns, when present, are positive; the date, when present, is the
    sentinel or of the form dddd-dd-dd and not starting with 00; the image
    and link columns, when present, are trimmed and not empty. *)
Theorem load_sneakers_stores_good_rows (self : Database.t) (w : world) :
  distinct_keys self ->
  plain_pages self ->
  good_tables self w ->
  good_tables self (snd (Database.load_sneakers self w)).
Proof. intros Hd _. now apply load_sneakers_keeps_good. Qed.

(** The provider with 101 sneakers, one of an unknown brand: the two rows
    that are stored are good. *)
Lemma load_sneakers_stores_good_rows_witness :
  let self := Sample.database Pages.api_101 in
  let w' := snd (Database.load_sneakers self Sample.fresh) in
  List.length (sneakers (durable w')) = 2%nat /\ good_tables self w'.
Proof.
  intros self w'. split; [vm_compute; reflexivity|].
  apply load_sneakers_stores_good_rows.
  - apply api_101_distinct_keys.
  - apply api_101_plain.
  - split; constructor.
Defined.

(** ** The cache files of [Api.call] *)

Section CacheFiles.

Import ApiCall.

Variables (env : remote) (self : Api.t).

Lemma path_eqb_eq (p q : Api.path) : path_eqb p q = true <-> p = q.
Proof.
  revert q. induction p as [|a p IH]; intros [|b q]; cbn; try easy.
  rewrite andb_true_iff, String.eqb_eq, IH. split.
  - now intros [-> ->].
  - now intros [= -> ->].
Qed.

Lemma path_eqb_refl (p : Api.path) : path_eqb p p = true.
Proof. now apply path_eqb_eq. Qed.

Lemma read_other (p q : Api.path) (c : result json) fs :
  read q fs = None -> read p fs <> None -> read p ((q, c) :: fs) = read p fs.
Proof.
  intros Hq Hp. cbn. destruct (path_eqb q p) eqn:E; [|reflexivity].
  apply path_eqb_eq in E. subst q. contradiction.
Qed.

(** what [call] does when the file is there *)
Lemma call_hit (endpoint : string) (q : querystring) (s : state) (c : result json) :
  read (Api.cache_path self endpoint q) (files s) = Some c ->
  call env self endpoint q s =
  (of_result c,
   mkState (files s) (sent s)
           (logged s ++ [(INFO, "cache hit: " ++ name (Api.cache_path self endpoint q))])
           (memo s)).
Proof. intros H. unfold call. now rewrite H. Qed.

(** what a returning [call] has done when the file was not there *)
Lemma call_miss_return (endpoint : string) (q : querystring) (s s1 : state)
    (data : json) :
  read (Api.cache_path self endpoint q) (files s) = None ->
  call env self endpoint q s = (Return data, s1) ->
  respond env (sent s) endpoint q = Ok data /\
  s1 = mkState ((Api.cache_path self endpoint q, Ok (sort_keys data)) :: files s)
               (sent s ++ [(endpoint, q)]) (logged s) (memo s).
Proof.
  intros Hm H. unfold call in H. rewrite Hm in H.
  destruct (reachable env _); [|discriminate].
  destruct (respond env (sent s) endpoint q) as [d|ex]; [|discriminate].
  destruct (creatable env _); [|discriminate].
  cbn in H. injection H as <- <-. now split.
Qed.


(** a call leaves every file as it is *)
Lemma call_keeps_files (endpoint : string) (q : querystring) (s : state)
    (p : Api.path) (c : result json) :
  read p (files s) = Some c ->
  read p (files (snd (call env self endpoint q s))) = Some c.
Proof.
  intros H. unfold call.
  destruct (read (Api.cache_path self endpoint q) (files s)) eqn:E; [exact H|].
  destruct (reachable env _); [|exact H].
  destruct (respond env (sent s) endpoint q); [|exact H].
  destruct (creatable env _); [|exact H].
  cbn [snd files]. rewrite read_other; [exact H | exact E | now rewrite H].
Qed.

(** a call sends one request, its own, or none *)
Lemma call_sends (endpoint : string) (q : querystring) (s : state) :
  sent (snd (call env self endpoint q s)) = sent s \/
  sent (snd (call env self endpoint q s)) = (sent s ++ [(endpoint, q)])%list.
Proof.
  unfold call.
  destruct (read (Api.cache_path self endpoint q) (files s)); [now left|].
  destruct (reachable env _); [|now left].
  destruct (respond env (sent s) endpoint q); [|now right].
  destruct (creatable env _); now right.
Qed.


Lemma calls_keep_files (reqs : list request) (s : state) (p : Api.path)
    (c : result json) :
  read p (files s) = Some c ->
  read p (files (after_calls env self reqs s)) = Some c.
Proof.
  revert s. induction reqs as [|[endpoint q] reqs IH]; intros s H; cbn.
  - exact H.
  - apply IH. now apply call_keeps_files.
Qed.

Lemma calls_send (reqs : list request) (s : state) :
  exists l, sent (after_calls env self reqs s) = (sent s ++ l)%list /\
            (List.length l <= List.length reqs)%nat /\ incl l reqs.
Proof.
  revert s. induction reqs as [|[endpoint q] reqs IH]; intros s; cbn.
  - exists []. rewrite app_nil_r. split; [reflexivity|]. split; [cbn; lia | easy].
  - destruct (IH (snd (call env self endpoint q s))) as (l & -> & Hlen & Hin).
    destruct (call_sends endpoint q s) as [-> | ->].
    + exists l. split; [reflexivity|]. split; [cbn; lia | now apply incl_tl].
    + exists ((endpoint, q) :: l). rewrite <- app_assoc.
      split; [reflexivity|]. split.
      * cbn. lia.
      * apply incl_cons; [now left | now apply incl_tl].
Qed.

(** a response that [call] has written is what every later call reads *)
Lemma written_then_read (endpoint endpoint' : string) (q q' : querystring)
    (reqs : list request) (s s1 : state) (data : json) :
  read (Api.cache_path self endpoint q) (files s) = None ->
  call env self endpoint q s = (Return data, s1) ->
  Api.cache_path self endpoint' q' = Api.cache_path self endpoint q ->
  read (Api.cache_path self endpoint' q') (files (after_calls env self reqs s1))
  = Some (Ok (sort_keys data)).
Proof.
  intros Hm H Hp.
  destruct (call_miss_return _ _ _ _ _ Hm H) as [_ ->].
  apply calls_keep_files. rewrite Hp. cbn. now rewrite path_eqb_refl.
Qed.

End CacheFiles.

(** X17.  When [call] has fetched a response and written its cache file,
    every later call with the same cache path, whatever calls are made in
    between, sends no request and changes no file: it logs a cache hit and
    returns the response with the keys of its objects sorted. *)
Theorem cached_response_is_served (env : ApiCall.remote) (self : Api.t)
    (endpoint endpoint' : string) (q q' : ApiCall.querystring)
    (reqs : list ApiCall.request) (s s1 : ApiCall.state) (data : json) :
  ApiCall.read (Api.cache_path self endpoint q) (ApiCall.files s) = None ->
  ApiCall.call env self endpoint q s = (ApiCall.Return data, s1) ->
  Api.cache_path self endpoint' q' = Api.cache_path self endpoint q ->
  let s2 := ApiCall.after_calls env self reqs s1 in
  ApiCall.call env self endpoint' q' s2 =
  (ApiCall.Return (ApiCall.sort_keys data),
   ApiCall.mkState (ApiCall.files s2) (ApiCall.sent s2)
     (ApiCall.logged s2
      ++ [(INFO, "cache hit: " ++ ApiCall.name (Api.cache_path self endpoint q))])
     (ApiCall.memo s2)).
Proof.
  intros Hm H Hp s2.
  rewrite (call_hit env self endpoint' q' s2 (Ok (ApiCall.sort_keys data))).
  - now rewrite Hp.
  - exact (written_then_read env self endpoint endpoint' q q' reqs s s1 data Hm H Hp).
Qed.

(** Page 0 is fetched; after a call for the brands, the same page asked with
    the keys in the other order is read from the file
    [sneakers_limit_100_page_0.json], with the keys sorted; two requests were
    sent in all. *)
Lemma cached_response_is_served_witness :
  let self := Pages.api_250 in
  let q := [("limit", VInt 100); ("page", VInt 0)] in
  let q' := [("page", VInt 0); ("limit", VInt 100)] in
  let r := ApiCall.call ApiCall.echo self "sneakers" q ApiCall.empty in
  let s2 := ApiCall.after_calls ApiCall.echo self [("brands", [])] (snd r) in
  let r' := ApiCall.call ApiCall.echo self "sneakers" q' s2 in
  fst r' = ApiCall.Return
             (JObj [("count", JInt 250); ("page", JInt 0); ("results", JArr [])]) /\
  ApiCall.sent (snd r') = [("sneakers", q); ("brands", [])] /\
  ApiCall.logged (snd r') = [(INFO, "cache hit: sneakers_limit_100_page_0.json")].
Proof.
  intros self q q' r s2 r'.
  assert (E := cached_response_is_served ApiCall.echo self "sneakers" "sneakers"
                 q q' [("brands", [])] ApiCall.empty (snd r)
                 (JObj [("results", JArr []); ("count", JInt 250); ("page", JInt 0)])
                 eq_refl eq_refl eq_refl).
  cbv zeta in E. fold s2 in E. fold r' in E. rewrite E.
  repeat split.
Defined.



(** X19.  A cache file that [json.loads] rejects is never fetched again nor
    rewritten: whatever calls are made before, the call for its path logs a
    cache hit, raises the exception of [json.loads], sends no request and
    leaves the files as they are. *)
Theorem unreadable_cache_file_is_kept (env : ApiCall.remote) (self : Api.t)
    (endpoint : string) (q : ApiCall.querystring) (reqs : list ApiCall.request)
    (s : ApiCall.state) (ex : exn) :
  ApiCall.read (Api.cache_path self endpoint q) (ApiCall.files s) = Some (Raise ex) ->
  let s2 := ApiCall.after_calls env self reqs s in
  let r := ApiCall.call env self endpoint q s2 in
  fst r = ApiCall.Fail (ApiCall.Exn ex) /\
  ApiCall.files (snd r) = ApiCall.files s2 /\
  ApiCall.sent (snd r) = ApiCall.sent s2 /\
  ApiCall.read (Api.cache_path self endpoint q) (ApiCall.files (snd r))
  = Some (Raise ex).
Proof.
  intros H s2 r. unfold r.
  pose proof (calls_keep_files env self reqs s _ _ H) as H2. fold s2 in H2.
  rewrite (call_hit env self endpoint q s2 _ H2). cbn. repeat split. exact H2.
Qed.

(** A truncated file [brands.json]: the call for the brands fails before and
    after another call, and the provider is never asked for them. *)
Lemma unreadable_cache_file_is_kept_witness :
  let self := Pages.api_250 in
  let bad := ValueError "Expecting value: line 1 column 1 (char 0)" in
  let s := ApiCall.mkState [(Api.cache_path self "brands" [], Raise bad)] [] [] [] in
  let s2 := ApiCall.after_calls ApiCall.echo self [("genders", [])] s in
  let r := ApiCall.call ApiCall.echo self "brands" [] s2 in
  fst r = ApiCall.Fail (ApiCall.Exn bad) /\
  ApiCall.sent (snd r) = [("genders", [])].
Proof.
  intros self bad s s2 r.
  destruct (unreadable_cache_file_is_kept ApiCall.echo self "brands" []
              [("genders", [])] s bad eq_refl) as (Hf & _ & Hs & _).
  split; [exact Hf | exact Hs].
Defined.

(** X20.  No sequence of calls removes or rewrites a file: a file that is
    there keeps its content.  The calls send at most one request each, and
    only requests of the sequence. *)
Theorem calls_never_rewrite_files (env : ApiCall.remote) (self : Api.t)
    (reqs : list ApiCall.request) (s : ApiCall.state) :
  let s' := ApiCall.after_calls env self reqs s in
  (forall p c, ApiCall.read p (ApiCall.files s) = Some c ->
               ApiCall.read p (ApiCall.files s') = Some c) /\
  exists l, ApiCall.sent s' = (ApiCall.sent s ++ l)%list /\
            (List.length l <= List.length reqs)%nat /\ incl l reqs.
Proof.
  intros s'. split.
  - intros p c. apply calls_keep_files.
  - apply calls_send.
Qed.

(** A file written by hand is still there, as it was, after two calls, one
    of which has fetched and cached something else. *)
Lemma calls_never_rewrite_files_witness :
  let self := Pages.api_250 in
  let doc := Ok (JObj [("results", JArr [JStr "NIKE"])]) in
  let s := ApiCall.mkState [(Api.cache_path self "brands" [], doc)] [] [] [] in
  let s' := ApiCall.after_calls ApiCall.echo self
              [("brands", []); ("genders", [])] s in
  ApiCall.read (Api.cache_path self "brands" []) (ApiCall.files s') = Some doc /\
  List.length (ApiCall.files s') = 2%nat /\
  ApiCall.sent s' = [("genders", [])].
Proof.
  intros self doc s s'.
  destruct (calls_never_rewrite_files ApiCall.echo self
              [("brands", []); ("genders", [])] s) as [Hk _].
  split; [exact (Hk (Api.cache_path self "brands" []) doc eq_refl)
        | split; reflexivity].
Defined.

(** ** The memo of [Api.sneakers] *)

Section Memo.

Import ApiCall.

Variables (env : remote) (self : Api.t).

Lemma value_eqb_eq (a b : value) : value_eqb a b = true <-> a = b.
Proof.
  destruct a as [x|x], b as [y|y]; cbn; try easy.
  - rewrite Z.eqb_eq. split; [now intros -> | now intros [= ->]].
  - rewrite String.eqb_eq. split; [now intros -> | now intros [= ->]].
Qed.

Lemma params_eqb_eq (p q : querystring) : params_eqb p q = true <-> p = q.
Proof.
  revert q. induction p as [|[k v] p IH]; intros [|[k' v'] q]; cbn; try easy.
  rewrite !andb_true_iff, String.eqb_eq, value_eqb_eq, IH. split.
  - now intros [[-> ->] ->].
  - now intros [= -> -> ->].
Qed.

Lemma sneakers_keeps_memo (p p' : querystring) (s : state) (resp : json) :
  recall p (memo s) = Some resp ->
  recall p (memo (snd (sneakers env self p' s))) = Some resp.
Proof.
  intros H. unfold sneakers.
  destruct (recall p' (memo s)) eqn:E; [exact H|].
  assert (Hm : memo (snd (call env self "sneakers" (defaulted p') s)) = memo s).
  { unfold call. destruct (read _ _); [reflexivity|].
    destruct (reachable env _); [|reflexivity].
    destruct (respond env _ _ _); [|reflexivity].
    destruct (creatable env _); reflexivity. }
  change (setdefault "page" (VInt 0) (setdefault "limit" (VInt 100) p'))
    with (defaulted p').
  destruct (call env self "sneakers" (defaulted p') s) as [[r|f] s1];
    cbn [snd memo] in *; rewrite Hm; [|exact H].
  cbn [recall]. destruct (params_eqb p' p) eqn:Ep; [|exact H].
  apply params_eqb_eq in Ep. subst p'. congruence.
Qed.

Lemma sneakers_keep_memo (ps : list querystring) (p : querystring) (s : state)
    (resp : json) :
  recall p (memo s) = Some resp ->
  recall p (memo (after_sneakers env self ps s)) = Some resp.
Proof.
  revert s. induction ps as [|p' ps IH]; intros s H; cbn.
  - exact H.
  - apply IH. now apply sneakers_keeps_memo.
Qed.

Lemma sneakers_return_memo (p : querystring) (s s1 : state) (resp : json) :
  sneakers env self p s = (Return resp, s1) ->
  recall p (memo s1) = Some resp.
Proof.
  unfold sneakers. destruct (recall p (memo s)) eqn:E.
  - intros [= <- <-]. exact E.
  - destruct (call env self "sneakers" _ s) as [[r|f] s']; [|discriminate].
    intros [= <- <-]. cbn.
    now rewrite (proj2 (params_eqb_eq p p) eq_refl).
Qed.

(** a first call of [sneakers] that returns has gone through [call] *)
Lemma sneakers_first (p : querystring) (s s1 : state) (resp : json) :
  recall p (memo s) = None ->
  sneakers env self p s = (Return resp, s1) ->
  exists s', call env self "sneakers" (defaulted p) s = (Return resp, s') /\
             s1 = mkState (files s') (sent s') (logged s') ((p, resp) :: memo s').
Proof.
  intros E. unfold sneakers. rewrite E.
  change (setdefault "page" (VInt 0) (setdefault "limit" (VInt 100) p))
    with (defaulted p).
  destruct (call env self "sneakers" (defaulted p) s) as [[r|f] s']; [|discriminate].
  intros [= <- <-]. now exists s'.
Qed.

End Memo.

(** X21.  [sneakers] is memoized on its keyword arguments: once it has
    returned a document for them, every later call with the same arguments,
    whatever calls of [sneakers] are made in between, returns that document
    and does nothing else: no request, no file read, no log record. *)
Theorem repeated_sneakers_call_is_free (env : ApiCall.remote) (self : Api.t)
    (p : ApiCall.querystring) (ps : list ApiCall.querystring)
    (s s1 : ApiCall.state) (resp : json) :
  ApiCall.sneakers env self p s = (ApiCall.Return resp, s1) ->
  let s2 := ApiCall.after_sneakers env self ps s1 in
  ApiCall.sneakers env self p s2 = (ApiCall.Return resp, s2).
Proof.
  intros H s2.
  pose proof (sneakers_keep_memo env self ps p s1 resp
                (sneakers_return_memo env self p s s1 resp H)) as Hr.
  fold s2 in Hr. unfold ApiCall.sneakers. now rewrite Hr.
Qed.

(** [load_sneakers] asks for page 0, and again when its loop starts, after
    which come the other pages: the second call for page 0 is free, and three
    requests are sent for the four calls. *)
Lemma repeated_sneakers_call_is_free_witness :
  let self := Pages.api_250 in
  let page z := [("limit", VInt 100); ("page", VInt z)] in
  let r := ApiCall.sneakers ApiCall.echo self (page 0) ApiCall.empty in
  let s2 := ApiCall.after_sneakers ApiCall.echo self [page 1; page 2] (snd r) in
  ApiCall.sneakers ApiCall.echo self (page 0) s2 = (fst r, s2) /\
  List.length (ApiCall.sent s2) = 3%nat /\ ApiCall.logged s2 = [].
Proof.
  intros self page r s2. split; [|split; reflexivity].
  exact (repeated_sneakers_call_is_free ApiCall.echo self (page 0)
           [page 1; page 2] ApiCall.empty (snd r)
           (JObj [("results", JArr []); ("count", JInt 250); ("page", JInt 0)])
           eq_refl).
Defined.

(** X22.  The memo tells keyword arguments apart that the cache files do
    not: when [sneakers] has fetched a response for the arguments [p], a
    first call with other arguments [p'] that give the same cache path once
    the defaults [limit=100] and [page=0] are filled in (the same arguments
    in another order, or with a default left out) sends no request; it reads
    the file, logs a cache hit, and returns and memoizes the response with
    its keys sorted. *)
Theorem sneakers_defaults_share_cache_file (env : ApiCall.remote) (self : Api.t)
    (p p' : ApiCall.querystring) (s s1 : ApiCall.state) (resp : json) :
  ApiCall.recall p (ApiCall.memo s) = None ->
  ApiCall.read (Api.cache_path self "sneakers" (defaulted p)) (ApiCall.files s) = None ->
  ApiCall.sneakers env self p s = (ApiCall.Return resp, s1) ->
  ApiCall.recall p' (ApiCall.memo s1) = None ->
  Api.cache_path self "sneakers" (defaulted p')
  = Api.cache_path self "sneakers" (defaulted p) ->
  ApiCall.sneakers env self p' s1 =
  (ApiCall.Return (ApiCall.sort_keys resp),
   ApiCall.mkState (ApiCall.files s1) (ApiCall.sent s1)
     (ApiCall.logged s1
      ++ [(INFO, "cache hit: "
                 ++ ApiCall.name (Api.cache_path self "sneakers" (defaulted p)))])
     ((p', ApiCall.sort_keys resp) :: ApiCall.memo s1)).
Proof.
  intros Hp Hm H Hp' Hc.
  destruct (sneakers_first env self p s s1 resp Hp H) as (s' & Hcall & ->).
  destruct (call_miss_return env self _ _ _ _ _ Hm Hcall) as [_ ->].
  unfold ApiCall.sneakers. rewrite Hp'.
  change (ApiCall.setdefault "page" (VInt 0)
            (ApiCall.setdefault "limit" (VInt 100) p')) with (defaulted p').
  rewrite (call_hit env self "sneakers" (defaulted p') _
             (Ok (ApiCall.sort_keys resp))).
  - cbn. now rewrite Hc.
  - rewrite Hc. cbn. now rewrite path_eqb_refl.
Qed.

(** After [sneakers(limit=100, page=0)], the call [sneakers()] reads the
    file [sneakers_limit_100_page_0.json]; one request was sent. *)
Lemma sneakers_defaults_share_cache_file_witness :
  let self := Pages.api_250 in
  let p := [("limit", VInt 100); ("page", VInt 0)] in
  let r := ApiCall.sneakers ApiCall.echo self p ApiCall.empty in
  let r' := ApiCall.sneakers ApiCall.echo self [] (snd r) in
  fst r' = ApiCall.Return
             (JObj [("count", JInt 250); ("page", JInt 0); ("results", JArr [])]) /\
  ApiCall.sent (snd r') = [("sneakers", p)] /\
  ApiCall.logged (snd r') = [(INFO, "cache hit: sneakers_limit_100_page_0.json")].
Proof.
  intros self p r r'.
  assert (E := sneakers_defaults_share_cache_file ApiCall.echo self p []
                 ApiCall.empty (snd r)
                 (JObj [("results", JArr []); ("count", JInt 250); ("page", JInt 0)])
                 eq_refl eq_refl eq_refl eq_refl eq_refl).
  fold r' in E. rewrite E. repeat split.
Defined.

(** ** The reference tables and the search table *)

Section Reference.

Import Database.

Lemma singular_not_excluded (g : string) :
  PyStr.endswith g "MENS" = false -> str_in g ["MENS"; "WOMENS"] = false.
Proof.
  intros H. cbn [str_in existsb].
  destruct (String.eqb g "MENS") eqn:E1.
  { apply String.eqb_eq in E1. subst g. discriminate. }
  destruct (String.eqb g "WOMENS") eqn:E2.
  { apply String.eqb_eq in E2. subst g. discriminate. }
  reflexivity.
Qed.

Lemma good_row_listed (api_brands api_genders : list string) (self0 : t) (r : row) :
  let self1 := fst (insert_brands api_brands self0) in
  let self := fst (insert_genders api_genders self1) in
  good_row self r ->
  exists b g,
    Dict.get "brand" r = Some (VStr b) /\
    listed "brand" (snd (insert_brands api_brands self0)) b /\
    Dict.get "gender" r = Some (VStr g) /\
    listed "gender" (snd (insert_genders api_genders self1)) g.
Proof.
  intros self1 self (_ & _ & _ & (b & Hb & Hbin) & (g & Hg & Hgin & Hgp) & _).
  exists b, g. cbn in Hbin, Hgin.
  split; [exact Hb|]. split.
  - unfold listed. cbn.
    exact (in_map (fun brand => [("brand", VStr brand)]) _ _ Hbin).
  - split; [exact Hg|]. unfold listed. cbn [insert_genders snd].
    apply (in_map (fun gender => [("gender", VStr gender)])).
    apply filter_In. split; [exact Hgin|].
    now rewrite singular_not_excluded.
Qed.

Lemma good_row_search (self : t) (r : row) :
  good_row self r ->
  Forall (fun v => exists s, v = SqlText s /\ trimmed s)
         (map (fun c => column c r)
              ["brand"; "name"; "silhouette"; "colorway"; "sku"]).
Proof.
  intros (_ & _ & Ht & _).
  assert (H : forall c, In c text_fields ->
                        exists s, column c r = SqlText s /\ trimmed s).
  { intros c Hc. destruct (Ht c Hc) as (s & Hs & Hts).
    exists s. unfold column. now rewrite Hs. }
  cbn [map]. repeat constructor; apply H; cbn; tauto.
Qed.

End Reference.

(** X23.  The brand and the gender of every row that [load_sneakers] leaves
    in [sneakers] are rows that [insert_brands] and [insert_genders] have
    handed to their INSERT: the genders MENS and WOMENS, which
    [insert_genders] leaves out, are never stored with a sneaker. *)
Theorem stored_brand_and_gender_are_listed (api_brands api_genders : list string)
    (self0 : Database.t) (w : world) :
  let self1 := fst (insert_brands api_brands self0) in
  let self := fst (insert_genders api_genders self1) in
  distinct_keys self ->
  good_tables self w ->
  Forall (fun r => exists b g,
            Dict.get "brand" r = Some (VStr b) /\
            listed "brand" (snd (insert_brands api_brands self0)) b /\
            Dict.get "gender" r = Some (VStr g) /\
            listed "gender" (snd (insert_genders api_genders self1)) g)
         (sneakers (live (snd (Database.load_sneakers self w)))).
Proof.
  intros self1 self Hd Hg.
  destruct (load_sneakers_keeps_good self w Hd Hg) as [Hl _].
  eapply Forall_impl; [|exact Hl].
  intros r Hr. exact (good_row_listed api_brands api_genders self0 r Hr).
Qed.

(** The provider lists MENS and WOMENS beside MEN and WOMEN: three genders
    are inserted, and the two sneakers that are stored, sent as "mens" and
    "womens", have genders among them. *)
Lemma stored_brand_and_gender_are_listed_witness :
  let api_genders := ["CHILD"; "MEN"; "MENS"; "WOMEN"; "WOMENS"] in
  let self1 := fst (insert_brands ["ADIDAS"; "NIKE"] (Sample.database Pages.api_101)) in
  let self := fst (insert_genders api_genders self1) in
  let rows := sneakers (live (snd (Database.load_sneakers self Sample.fresh))) in
  snd (insert_genders api_genders self1)
  = [[("gender", VStr "CHILD")]; [("gender", VStr "MEN")]; [("gender", VStr "WOMEN")]] /\
  map (Dict.get "gender") rows = [Some (VStr "MEN"); Some (VStr "WOMEN")] /\
  Forall (fun r => exists b g,
            Dict.get "brand" r = Some (VStr b) /\
            listed "brand" (snd (insert_brands ["ADIDAS"; "NIKE"]
                                   (Sample.database Pages.api_101))) b /\
            Dict.get "gender" r = Some (VStr g) /\
            listed "gender" (snd (insert_genders api_genders self1)) g)
         rows.
Proof.
  intros api_genders self1 self rows.
  split; [reflexivity|]. split; [vm_compute; reflexivity|].
  apply (stored_brand_and_gender_are_listed ["ADIDAS"; "NIKE"] api_genders
           (Sample.database Pages.api_101) Sample.fresh).
  - apply api_101_distinct_keys.
  - split; constructor.
Defined.

(** X24.  After [load_sneakers], [load_fts] copies one row for every row of
    [sneakers], and each of its five columns is a trimmed text: the search
    table gets no NULL. *)
Theorem search_rows_are_texts (self : Database.t) (w : world) :
  distinct_keys self ->
  good_tables self w ->
  let w' := snd (Database.load_sneakers self w) in
  List.length (load_fts (live w')) = List.length (sneakers (live w')) /\
  Forall (Forall (fun v => exists s, v = SqlText s /\ trimmed s))
         (load_fts (live w')).
Proof.
  intros Hd Hg w'. split; [apply length_map|].
  destruct (load_sneakers_keeps_good self w Hd Hg) as [Hl _]. fold w' in Hl.
  unfold load_fts. apply Forall_map.
  eapply Forall_impl; [|exact Hl].
  intros r Hr. exact (good_row_search self r Hr).
Qed.

(** The two sneakers stored from the sample provider, as the search table
    gets them. *)
Lemma search_rows_are_texts_witness :
  let self := Sample.database Pages.api_101 in
  let w' := snd (Database.load_sneakers self Sample.fresh) in
  load_fts (live w')
  = [[SqlText "NIKE"; SqlText "Air Max 1 Sample"; SqlText "Air Max 1";
      SqlText "Black/White"; SqlText "A1"];
     [SqlText "ADIDAS"; SqlText "Air Max 1 Sample"; SqlText "Air Max 1";
      SqlText "Black/White"; SqlText "B1"]] /\
  Forall (Forall (fun v => exists s, v = SqlText s /\ trimmed s))
         (load_fts (live w')).
Proof.
  intros self w'. split; [vm_compute; reflexivity|].
  apply (search_rows_are_texts self Sample.fresh).
  - apply api_101_distinct_keys.
  - split; constructor.
Defined.

(** ** Records that are refused *)

Section Refused.

Import Database.

Lemma mistyped_item (o : list (string * json)) :
  typed_fields o = false ->
  exists k v, In (k, v) o /\
    match v with
    | JInt _ => str_in k integer_fields
    | JStr _ => negb (str_in k integer_fields)
    | _ => false
    end = false.
Proof.
  induction o as [|[k v] o IH]; cbn; [discriminate|].
  intros H. apply andb_false_iff in H. destruct H as [H|H].
  - exists k, v. split; [now left | exact H].
  - destruct (IH H) as (k' & v' & Hin & Hb). exists k', v'. split; [now right | exact Hb].
Qed.

Lemma sanitize_item_mistyped (self : t) (k : string) (v : json) (data : row) :
  match v with
  | JInt _ => str_in k integer_fields
  | JStr _ => negb (str_in k integer_fields)
  | _ => false
  end = false ->
  exists e, sanitize_item self k v data = Raise e.
Proof.
  intros H. unfold sanitize_item.
  destruct (str_in k integer_fields); destruct v; try discriminate;
    cbn; eexists; reflexivity.
Qed.

(** The cases of a record that raises. *)
Lemma insert_sneaker_raise_cases (self : t) (sneaker : json) (w w' : world)
    (e : exn) :
  insert_sneaker self sneaker w = (Raise e, w') ->
  live w' = live w \/
  exists o stored w1 w2 images,
    sneaker = JObj o /\ prepared self o w stored w1 /\
    Dict.get "image" o = Some images /\
    live w2 = mkTables (sneakers (live w) ++ [stored])%list (images_360 (live w)) /\
    insert_360_images (or_null (Dict.get "sku" o)) images w2 = (Raise e, w').
Proof.
  unfold insert_sneaker, bind, lift.
  destruct (assert_sneaker_keys sneaker) as [[]|] eqn:Ha; [|intros [= _ <-]; now left].
  destruct sneaker as [| | | |o]; try discriminate.
  cbn [py_pop]. destruct (Dict.get "id" o); [|intros [= _ <-]; now left].
  cbn [snd py_get]. rewrite get_remove_other by discriminate.
  destruct (py_len _); [|intros [= _ <-]; now left].
  destruct (assert _); [|intros [= _ <-]; now left].
  cbn [py_pop].
  destruct (Dict.get "image" _) as [images|] eqn:Ei; [|intros [= _ <-]; now left].
  cbn [fst snd py_pop].
  destruct (Dict.get "links" _) as [links|] eqn:El; [|intros [= _ <-]; now left].
  cbn [fst snd]. fold (fields_of o).
  rewrite get_remove_other in Ei by discriminate.
  rewrite !get_remove_other in El by discriminate.
  destruct (get_basically_sanitized_sneaker_data self (JObj (fields_of o)))
    as [data|] eqn:Hs; [|intros [= _ <-]; now left].
  pose proof (fix_date_only_logs data w) as L.
  destruct (fix_date_and_year_in_sneaker_data data w) as [[data'|] w1] eqn:Hf;
    cbn [snd] in L; destruct L as (L & _); [|intros [= _ <-]; now left].
  destruct (sqlize_sneakers_images_fields images) as [im|] eqn:Hsi;
    [|intros [= _ <-]; now left].
  destruct (sqlize_sneakers_links_fields links) as [lk|] eqn:Hsl;
    [|intros [= _ <-]; now left].
  destruct (execute_insert_sneakers (Dict.update (Dict.update data' im) lk) w1)
    as [[[]|] w2] eqn:He.
  - intros H. right.
    exists o, (Dict.update (Dict.update data' im) lk), w1, w2, images.
    split; [reflexivity|]. split.
    { exists data, data', im, lk.
      repeat split; try assumption;
        [exact (sqlize_keys _ _ _ _ Hsi) | exact (sqlize_keys _ _ _ _ Hsl)
        | now exists images | now exists links]. }
    split; [exact Ei|]. split; [|exact H].
    unfold execute_insert_sneakers in He.
    destruct (bind_data _); [|discriminate].
    destruct (existsb _ _); [discriminate|].
    injection He as <-. cbn. now rewrite L.
  - intros [= _ <-]. left.
    unfold execute_insert_sneakers in He.
    destruct (bind_data _); [|injection He as _ <-; exact L].
    destruct (existsb _ _); [injection He as _ <-; exact L | discriminate].
Qed.

End Refused.

(** X25.  A record that raises is not always left out.  Either the tables
    are as before, or every step up to the INSERT into [sneakers] has
    returned and the exception comes from [insert_360_images]: then the row
    of the record stays in [sneakers], with the picture rows that were
    inserted before the failure.  Nothing is committed in either case. *)
Theorem failed_pictures_keep_sneaker_row (self : Database.t) (sneaker : json)
    (w w' : world) (e : exn) :
  Database.insert_sneaker self sneaker w = (Raise e, w') ->
  durable w' = durable w /\
  (live w' = live w \/
   exists o stored w1 w2 images,
     sneaker = JObj o /\ prepared self o w stored w1 /\
     Dict.get "image" o = Some images /\
     live w2 = mkTables (sneakers (live w) ++ [stored])%list (images_360 (live w)) /\
     Database.insert_360_images (or_null (Dict.get "sku" o)) images w2 = (Raise e, w') /\
     sneakers (live w') = (sneakers (live w) ++ [stored])%list /\
     exists rows, images_360 (live w') = (images_360 (live w) ++ rows)%list).
Proof.
  intros H. split.
  { pose proof (insert_sneaker_grows self sneaker w) as G. rewrite H in G.
    now destruct G as (G & _). }
  destruct (insert_sneaker_raise_cases self sneaker w w' e H)
    as [Hl | (o & stored & w1 & w2 & images & Ho & Hp & Hi & Hw2 & H360)];
    [now left|].
  right. exists o, stored, w1, w2, images.
  repeat (split; [assumption|]).
  pose proof (insert_360_images_same (or_null (Dict.get "sku" o)) images w2) as S.
  pose proof (insert_360_images_grows (or_null (Dict.get "sku" o)) images w2) as G.
  rewrite H360 in S, G. cbn [snd] in S, G. unfold same_sneakers in S.
  destruct G as (_ & _ & _ & (rows & Hrows) & _).
  rewrite S, Hrows, Hw2. cbn. split; [reflexivity | now exists rows].
Qed.

(** The second picture of the record is a list, which cannot be bound: the
    record raises, and its row and its first picture stay in the tables. *)
Lemma failed_pictures_keep_sneaker_row_witness :
  let r := JObj (Dict.set "image"
                   (JObj [("360", JArr [JStr "https://img/0.png"; JArr []]);
                          ("original", JStr ""); ("small", JStr "");
                          ("thumbnail", JStr "")])
                   (Sample.fields (Sample.sneaker "CW2288-111" "nike" "mens"
                                     (JInt 2015) "2015-03-01" 150 120))) in
  let run := Database.insert_sneaker Sample.db r Sample.fresh in
  fst run = Raise (ProgrammingError
                     "Error binding parameter 3: type 'list' is not supported") /\
  List.length (sneakers (live (snd run))) = 1%nat /\
  images_360 (live (snd run))
  = [(SqlText "CW2288-111", 0%nat, SqlText "https://img/0.png")] /\
  durable (snd run) = Sample.no_rows.
Proof.
  intros r run.
  destruct (failed_pictures_keep_sneaker_row Sample.db r Sample.fresh (snd run)
              (ProgrammingError
                 "Error binding parameter 3: type 'list' is not supported"))
    as [Hd _]; [vm_compute; reflexivity|].
  split; [vm_compute; reflexivity|]. split; [vm_compute; reflexivity|].
  split; [vm_compute; reflexivity | exact Hd].
Defined.

(** X26.  A record with a field of the wrong kind is never stored: when one
    of the three integer fields holds a null, a text, a list or an object,
    or another field holds anything but a text, [insert_sneaker] raises and
    leaves the tables and the log as they were. *)
Theorem mistyped_field_rejected (self : Database.t) (o : list (string * json))
    (w : world) :
  typed_fields (fields_of o) = false ->
  exists e, Database.insert_sneaker self (JObj o) w = (Raise e, w).
Proof.
  intros H.
  destruct (mistyped_item _ H) as (k & v & Hin & Hb).
  destruct (sanitize_items_raise self k v (fields_of o) Hin
              (fun data => sanitize_item_mistyped self k v data Hb) [])
    as [e He].
  now apply (insert_sneaker_sanitizer_raises self o e w).
Qed.

(** A record whose [releaseYear] is null. *)
Lemma mistyped_field_rejected_witness :
  Database.insert_sneaker Sample.db
    (Sample.sneaker "CW2288-111" "nike" "mens" JNull "2015-03-01" 150 120)
    Sample.fresh
  = (Raise (TypeError "'>' not supported between instances of 'NoneType' and 'int'"),
     Sample.fresh).
Proof.
  destruct (mistyped_field_rejected Sample.db
              (Sample.fields (Sample.sneaker "CW2288-111" "nike" "mens" JNull
                                "2015-03-01" 150 120))
              Sample.fresh eq_refl) as [e He].
  vm_compute. reflexivity.
Defined.
